(** * Tech Health Appendix: the forge client and the scoring engine

    A shallow embedding of the data-acquisition-and-scoring core of the
    repository: [GitHubService] (the forge client, github-service.ts),
    [CodeAnalysisService] (the metric estimators and the report aggregator,
    code-analysis-service.ts) and the record types of types/index.ts.

    Conventions of the embedding.
    - An [async] method is a computation in the error monad [result]: it
      either resolves ([Ok]) or rejects ([Throw]).  [try]/[catch] is
      [try_catch].
    - The remote forge is the record [Forge]: the answer of the forge to each
      request the client can issue, the same answer every time the request is
      repeated during one report generation.
    - A JavaScript [number] that is always integral is a [Z]; one that can be
      fractional is a [Q], with exact arithmetic ([Math.floor] is [Qfloor],
      [Math.ceil] is [Qceiling]).  Binary rounding of doubles is not modelled:
      where the exact value sits on a rounding tie the source can differ in
      the last digit kept, and the properties below are stated so as not to
      depend on it.
    - A date is the [Z] that [getTime()] yields for it (milliseconds since the
      epoch); the ISO strings of the forge are taken as already parsed.
    - A field of a [Record<string, unknown>] that the code tests before it
      reads it is an [option]: [None] stands for a field that is absent,
      [null], or not of the type the code tests for.  The two fields the code
      dereferences without a test keep the difference: the [name] of a
      workflow run, which the forge may send as [null], and the [content] of
      an object of the contents endpoint.
    - Strings are [string]s of 8-bit characters standing for the UTF-16 code
      units of the source; [toLowerCase] folds the ASCII letters. *)

From stdpp Require Import gmap strings.
From Stdlib Require Import ZArith QArith Qround Qminmax Lqa Lia.
From Stdlib Require Import String Ascii List Bool.
Import ListNotations.
Local Open Scope string_scope.
Local Open Scope Z_scope.

(** ** JavaScript numbers and strings *)

Definition Qlt_bool (x y : Q) : bool := negb (Qle_bool y x).

(** [Math.round]: the integer nearest to [x], ties towards plus infinity. *)
Definition Math_round (x : Q) : Z := Qfloor (x + 0.5)%Q.

(** [parseFloat(x.toFixed(2))] for [x >= 0]: [x] rounded to two decimals,
    ties upwards; a negative [x] is rounded on its absolute value. *)
Definition toFixed2 (x : Q) : Q :=
  if Qle_bool 0 x then (inject_Z (Qfloor (x * 100 + 0.5)) / 100)%Q
  else (- (inject_Z (Qfloor (- x * 100 + 0.5)) / 100))%Q.

Definition is_upper (c : ascii) : bool :=
  let n := nat_of_ascii c in (65 <=? n)%nat && (n <=? 90)%nat.

Definition lower_char (c : ascii) : ascii :=
  if is_upper c then ascii_of_nat (nat_of_ascii c + 32) else c.

Fixpoint toLowerCase (s : string) : string :=
  match s with
  | EmptyString => EmptyString
  | String c s' => String (lower_char c) (toLowerCase s')
  end.

(** [s.includes(sub)] *)
Fixpoint includes (s sub : string) : bool :=
  String.prefix sub s ||
  match s with
  | EmptyString => false
  | String _ s' => includes s' sub
  end.

(** [s.length] as a JavaScript number *)
Definition str_length (s : string) : Z := Z.of_nat (String.length s).

(** Remainder of [s] after the prefix [p], when [s] starts with [p]. *)
Fixpoint strip_prefix (p s : string) : option string :=
  match p, s with
  | EmptyString, _ => Some s
  | String a p', String b s' =>
      if Ascii.eqb a b then strip_prefix p' s' else None
  | String _ _, EmptyString => None
  end.

(** The characters [.] does not match in a regular expression without the
    [s] flag (of the line terminators, those that fit in 8 bits). *)
Definition is_line_terminator (c : ascii) : bool :=
  Ascii.eqb c "010"%char || Ascii.eqb c "013"%char.

(** After an opening parenthesis: does the text continue with [.+\):] ?
    [seen] tells that [.+] has consumed one character already. *)
Fixpoint scope_then_colon (seen : bool) (s : string) : bool :=
  match s with
  | EmptyString => false
  | String c s' =>
      (seen && Ascii.eqb c ")"%char && String.prefix ":" s')
      || (negb (is_line_terminator c) && scope_then_colon true s')
  end.

Definition commit_types : list string :=
  ["feat"; "fix"; "docs"; "style"; "refactor"; "test"; "chore"; "perf"; "ci";
   "build"; "revert"].

(** [/^(feat|fix|docs|style|refactor|test|chore|perf|ci|build|revert)(\(.+\))?:/.test(message)] *)
Definition conventional_commit (message : string) : bool :=
  existsb (fun ty =>
    match strip_prefix ty message with
    | None => false
    | Some rest =>
        String.prefix ":" rest
        || match rest with
           | String "("%char rest' => scope_then_colon false rest'
           | _ => false
           end
    end) commit_types.

(** ** types/index.ts *)

Record Repository := {
  repo_id : Z;
  repo_name : string;
  full_name : string;
  owner_login : string;
  description : string;
  created_at : Z;
  updated_at : Z;
  pushed_at : Z;
  size : Z;
  language : string;
  default_branch : string
}.

Record Commit := {
  sha : string;
  author_name : string;
  author_email : string;
  author_date : Z;
  message : string
}.

Record CodeMetrics := {
  totalLines : Z;
  codeLines : Z;
  commentLines : Z;
  blankLines : Z;
  files : Z;
  languages : gmap string Z
}.

Record Issues := {
  critical : Z;
  high : Z;
  medium : Z;
  low : Z
}.

Record CodeQuality := {
  cq_score : Z;
  cq_issues : Issues;
  cq_recommendations : list string
}.

Record DebtMetrics := {
  complexityScore : Q;
  duplications : Q;
  testCoverage : Z;
  outdatedDependencies : Z
}.

Record TechnicalDebt := {
  td_score : Z;
  td_metrics : DebtMetrics;
  td_recommendations : list string
}.

Record DeploymentMetrics := {
  frequency : Q;
  leadTime : Z;
  changeFailureRate : Q;
  meanTimeToRecover : Z;
  dm_score : Z;
  dm_recommendations : list string
}.

Record HealthReport := {
  repository : Repository;
  codeMetrics : CodeMetrics;
  codeQuality : CodeQuality;
  technicalDebt : TechnicalDebt;
  deploymentMetrics : DeploymentMetrics;
  overallScore : Z;
  benchmarkScore : Z;
  generatedAt : Z
}.

Record GitHubAuth := {
  token : option string;
  username : option string;
  password : option string
}.

(** The payloads the client passes on as [Record<string, unknown>]. *)

Record PullRequest := {
  pr_state : string;
  pr_title : option string;
  pr_created_at : option Z;
  pr_merged_at : option Z;
  pr_comments : option Z;
  pr_review_comments : option Z
}.

Record Issue := {
  issue_state : string;
  issue_created_at : Z;
  issue_labels : list string
}.

(** [run_name] is [None] for a run whose [name] is [null]. *)
Record WorkflowRun := {
  run_name : option string;
  run_conclusion : option string;
  run_event : string;
  run_created_at : Z
}.

Record WorkflowRuns := {
  workflow_runs : list WorkflowRun;
  total_count : Z
}.

Record Release := {
  tag_name : string;
  published_at : Z
}.

Record Contributor := {
  login : string;
  contributions : Z
}.

(** What an object of the contents endpoint holds under the key [content]:
    nothing (a directory entry has no such key), [null], or a text. *)
Inductive ContentField :=
| content_absent
| content_null
| content_text (s : string).

(** An object of the contents endpoint: a directory entry or a file. *)
Record ContentItem := {
  item_name : option string;
  item_encoding : option string;
  item_content : ContentField
}.

Inductive Contents :=
| ContentArray (items : list ContentItem)
| ContentObject (item : ContentItem).

Inductive PrState := st_open | st_closed | st_all.

(** ** Errors, the forge and the host *)

Record RateLimitHeaders := {
  x_ratelimit_reset : option Z;
  x_ratelimit_limit : option Z;
  x_ratelimit_remaining : option Z
}.

Record ErrorResponse := {
  data_message : option string;
  headers : option RateLimitHeaders
}.

(** The error object octokit rejects a request with. *)
Record RequestError := {
  status : option Z;
  error_message : option string;
  error_response : option ErrorResponse
}.

(** What a method of the core can throw. *)
Inductive exn :=
| ApiFailure (error : RequestError)
| GitHubRateLimitError (msg : string) (resetTime : Z) (limit remaining : Z)
| SyntaxError
| TypeError.

Inductive result (A : Type) :=
| Ok (a : A)
| Throw (e : exn).
Arguments Ok {A} a.
Arguments Throw {A} e.

Definition bind {A B} (m : result A) (k : A -> result B) : result B :=
  match m with
  | Ok a => k a
  | Throw e => Throw e
  end.

Definition try_catch {A} (body : result A) (handler : exn -> result A) : result A :=
  match body with
  | Ok a => Ok a
  | Throw e => handler e
  end.

Notation "'do' x <- m ; k" := (bind m (fun x => k))
  (at level 10, x name, m at level 100, k at level 200).
Notation "'do' 'await' m ; k" := (bind m (fun _ => k))
  (at level 10, m at level 100, k at level 200).

(** The outcome of [octokit.request]. *)
Inductive response (A : Type) :=
| Resolved (data : A)
| Rejected (error : RequestError).
Arguments Resolved {A} data.
Arguments Rejected {A} error.

(** The answers of the forge, for the owner and repository under analysis,
    to the requests of the client.  [get_commits], [get_pulls], [get_issues]
    and [get_releases] take the [per_page] (and [state]) of the request,
    [get_contents] the path. *)
Record Forge := {
  get_repo : response Repository;
  get_commits : Z -> response (list Commit);
  get_languages : response (gmap string Z);
  get_contributors : response (list Contributor);
  get_contents : string -> response Contents;
  get_actions_runs : response WorkflowRuns;
  get_pulls : PrState -> Z -> response (list PullRequest);
  get_issues : PrState -> Z -> response (list Issue);
  get_releases : Z -> response (list Release);
  get_code_frequency : response (option (list (list Z)));
  get_commit_activity : response (option (list (list Z)))
}.

(** What the JavaScript host supplies: the clock, the random source (its
    successive draws, each in [0,1)), and two library functions that are
    taken as given: base64 decoding to UTF-8 text, and the number of keys
    [JSON.parse] finds under [dependencies] plus [devDependencies] ([None]
    when parsing or reading them throws). *)
Record Host := {
  Date_now : Z;
  Math_random : nat -> Q;
  Buffer_from_base64 : string -> string;
  JSON_parse_dependencies : string -> option nat
}.

(** ** github-service.ts *)

Record GitHubService := {
  octokit : Forge;
  hasAuth : bool
}.

Definition truthy_string (s : option string) : bool :=
  match s with
  | Some (String _ _) => true
  | _ => false
  end.

(** [new GitHubService(auth)]; [forge] is what the Octokit instance built
    from [auth] reaches. *)
Definition new_GitHubService (forge : Forge) (auth : option GitHubAuth) : GitHubService :=
  {| octokit := forge;
     hasAuth := match auth with
                | Some a => truthy_string (token a)
                | None => false
                end |}.

Definition status_is (error : RequestError) (code : Z) : bool :=
  match status error with
  | Some s => s =? code
  | None => false
  end.

Definition says_rate_limit (m : option string) : bool :=
  match m with
  | Some s => includes s "API rate limit exceeded"
  | None => false
  end.

Section GitHubService.
Variable host : Host.
Variable this : GitHubService.

(** [checkRateLimitError] never returns: the result is what it throws. *)
Definition checkRateLimitError (error : RequestError) : exn :=
  if status_is error 403
     && (says_rate_limit (error_message error)
         || match error_response error with
            | Some r => says_rate_limit (data_message r)
            | None => false
            end)
  then
    let hdrs := match error_response error with
                | Some r => headers r
                | None => None
                end in
    let resetTimestamp :=
      match hdrs with
      | Some h => match x_ratelimit_reset h with
                  | Some t => t * 1000
                  | None => Date_now host + 3600000
                  end
      | None => Date_now host + 3600000
      end in
    let limit :=
      match hdrs with
      | Some h => match x_ratelimit_limit h with Some l => l | None => 60 end
      | None => 60
      end in
    let remaining :=
      match hdrs with
      | Some h => match x_ratelimit_remaining h with Some r => r | None => 0 end
      | None => 0
      end in
    GitHubRateLimitError
      "GitHub API rate limit exceeded. Please try again later or provide an access token."
      resetTimestamp limit remaining
  else ApiFailure error.

(** [await this.octokit.request(...)] inside a [try] *)
Definition request {A} (r : response A) : result A :=
  match r with
  | Resolved data => Ok data
  | Rejected error => Throw (ApiFailure error)
  end.

(** The [catch (error)] clauses of the client only ever see the error of
    the request they guard. *)
Definition caught (e : exn) : RequestError :=
  match e with
  | ApiFailure error => error
  | _ => {| status := None; error_message := None; error_response := None |}
  end.

Definition getRepository : result Repository :=
  try_catch (request (get_repo (octokit this)))
    (fun error => Throw (checkRateLimitError (caught error))).

Definition getCommits (count : Z) : result (list Commit) :=
  try_catch (request (get_commits (octokit this) count))
    (fun error => Throw error).

Definition getLanguages : result (gmap string Z) :=
  try_catch (request (get_languages (octokit this)))
    (fun error => Throw error).

Definition getContributors : result (list Contributor) :=
  try_catch (request (get_contributors (octokit this)))
    (fun error => Throw error).

(** [Buffer.from(content, 'base64').toString('utf-8')]: [Buffer.from]
    throws a [TypeError] when it is handed [null]. *)
Definition decode_base64 (content : ContentField) : result string :=
  match content with
  | content_text s => Ok (Buffer_from_base64 host s)
  | _ => Throw TypeError
  end.

(** [fileData.content || ''] *)
Definition content_or_empty (content : ContentField) : string :=
  match content with
  | content_text s => s
  | _ => EmptyString
  end.

Definition getFileContent (path : string) : result string :=
  try_catch
    (do data <- request (get_contents (octokit this) path);
     match data with
     | ContentObject fileData =>
         match item_content fileData with
         | content_absent => Ok EmptyString
         | content =>
             if match item_encoding fileData with
                | Some enc => String.eqb enc "base64"
                | None => false
                end
             then decode_base64 content
             else Ok (content_or_empty content)
         end
     | ContentArray _ => Ok EmptyString
     end)
    (fun error =>
       if status_is (caught error) 404 then Throw error else Throw error).

Definition unauthorized (error : exn) : bool :=
  (status_is (caught error) 401 || status_is (caught error) 403)
  && negb (hasAuth this).

Definition getWorkflowRuns : result WorkflowRuns :=
  try_catch (request (get_actions_runs (octokit this)))
    (fun error =>
       if unauthorized error
       then Ok {| workflow_runs := []; total_count := 0 |}
       else Throw error).

Definition getPullRequests (state : PrState) (count : Z) : result (list PullRequest) :=
  try_catch (request (get_pulls (octokit this) state count))
    (fun error => if unauthorized error then Ok [] else Throw error).

Definition getIssues (state : PrState) (count : Z) : result (list Issue) :=
  try_catch (request (get_issues (octokit this) state count))
    (fun error => if unauthorized error then Ok [] else Throw error).

Definition getReleases (count : Z) : result (list Release) :=
  try_catch (request (get_releases (octokit this) count))
    (fun error => Throw error).

Definition getDirectoryContents (path : string) : result (list ContentItem) :=
  try_catch
    (do data <- request (get_contents (octokit this) path);
     match data with
     | ContentArray items => Ok items
     | ContentObject item => Ok [item]
     end)
    (fun _ => Ok []).

Definition code_frequency_item (item : list Z) : Z * Z * Z :=
  match item with
  | a :: d :: c :: _ => (a, d, c)
  | _ => (0, 0, 0)
  end.

Definition getCodeFrequencyStats : result (list (Z * Z * Z)) :=
  try_catch
    (do data <- request (get_code_frequency (octokit this));
     match data with
     | Some items => Ok (map code_frequency_item items)
     | None => Ok []
     end)
    (fun _ => Ok []).

Definition getCommitActivity : result (list (list Z)) :=
  try_catch
    (do data <- request (get_commit_activity (octokit this));
     match data with
     | Some items => Ok items
     | None => Ok []
     end)
    (fun _ => Ok []).

End GitHubService.

(** ** code-analysis-service.ts *)

Definition blank_line : string := String "010"%char (String "010"%char EmptyString).

(** The text [s] between double quotes. *)
Definition quoted (s : string) : string :=
  String "034"%char (String.append s (String "034"%char EmptyString)).

Definition truthy_number (n : option Z) : bool :=
  match n with
  | Some k => negb (k =? 0)
  | None => false
  end.

Definition is_some {A} (o : option A) : bool :=
  match o with
  | Some _ => true
  | None => false
  end.

Definition len {A} (l : list A) : Z := Z.of_nat (length l).

(** [recommendations.push(s)] *)
Definition push (recommendations : list string) (s : string) : list string :=
  (recommendations ++ [s])%list.

Definition concluded (run : WorkflowRun) (how : string) : bool :=
  match run_conclusion run with
  | Some c => String.eqb c how
  | None => false
  end.

(** [l.filter(p)] for a callback that may throw: the first exception ends
    the filter. *)
Fixpoint filter_throwing {A} (p : A -> result bool) (l : list A) : result (list A) :=
  match l with
  | [] => Ok []
  | x :: rest =>
      do keep <- p x;
      do kept <- filter_throwing p rest;
      Ok (if keep then x :: kept else kept)
  end.

(** [new Date('2020-01-01T00:00:00Z').getTime()] *)
Definition epoch_2020 : Z := 1577836800000.

Definition testPatterns : list string :=
  ["test"; "tests"; "__tests__"; "spec"; "specs";
   ".github/workflows"; "jest.config"; "vitest.config";
   "cypress"; "playwright"; "coverage"].

Definition depFiles : list string :=
  ["Gemfile"; "composer.json"; "pom.xml"; "build.gradle"; "Cargo.toml"].

(** [languages.JavaScript || languages.TypeScript] *)
Definition js_or_ts (langs : gmap string Z) : bool :=
  truthy_number (langs !! "JavaScript") || truthy_number (langs !! "TypeScript").

Section CodeAnalysisService.
Variable host : Host.
Variable githubService : GitHubService.

Definition analyzeCodeMetrics : result CodeMetrics :=
  try_catch
    (do langs <- getLanguages githubService;
     do repo <- getRepository host githubService;
     let total := size repo * 50 in
     let code := Qfloor (inject_Z total * 0.75) in
     let comment := Qfloor (inject_Z total * 0.15) in
     let blank := total - code - comment in
     let nfiles := Qfloor (inject_Z (size repo) / 10) in
     Ok {| totalLines := total;
           codeLines := code;
           commentLines := comment;
           blankLines := blank;
           files := nfiles;
           languages := langs |})
    (fun error => Throw error).

(** The body of the [forEach] of [analyzeCommitMessages]. *)
Definition score_commit (score : Q) (commit : Commit) : Q :=
  let m := message commit in
  let score := if 10 <? str_length m then (score + 0.2)%Q else score in
  let score := if 20 <? str_length m then (score + 0.2)%Q else score in
  let score := if 50 <? str_length m then (score + 0.2)%Q else score in
  let score := if conventional_commit m then (score + 0.5)%Q else score in
  let score := if includes m blank_line then (score + 0.3)%Q else score in
  score.

Definition analyzeCommitMessages (commits : list Commit) : Q :=
  match commits with
  | [] => 0.5%Q
  | _ =>
      let score := fold_left score_commit commits 0%Q in
      Qmin (score / inject_Z (len commits)) 1
  end.

Definition calculateRepositoryAge (created : Z) : Z :=
  let diffTime := Z.abs (Date_now host - created) in
  Qceiling (inject_Z diffTime / inject_Z (1000 * 60 * 60 * 24)).

Definition generateCodeQualityRecommendations
    (issues : Issues) (commits : list Commit) : list string :=
  let recs : list string := [] in
  let recs := if 0 <? critical issues
    then push recs "Address critical security vulnerabilities in your codebase."
    else recs in
  let recs := if 0 <? high issues
    then push recs "Fix high-priority code quality issues to improve maintainability."
    else recs in
  let recs := if 3 <? medium issues
    then push recs "Implement a code quality scanning tool in your CI/CD pipeline."
    else recs in
  let commitScore := analyzeCommitMessages commits in
  let recs := if Qlt_bool commitScore 0.6
    then push recs "Improve commit message quality by adopting conventional commit format."
    else recs in
  let recs := if len recs <? 2
    then push (push recs "Implement automated code reviews to catch issues early.")
           "Add code quality gates to your pull request workflow."
    else recs in
  recs.

Definition analyzeCodeQuality : result CodeQuality :=
  try_catch
    (do commits <- getCommits githubService 30;
     let commitQualityScore := analyzeCommitMessages commits in
     let score := Z.min (Qfloor (commitQualityScore * 100)) 100 in
     let issues := {| critical := (100 - score) / 25;
                      high := (100 - score) / 20;
                      medium := (100 - score) / 10;
                      low := (100 - score) / 5 |} in
     let recs := generateCodeQualityRecommendations issues commits in
     Ok {| cq_score := score; cq_issues := issues; cq_recommendations := recs |})
    (fun error => Throw error).

Definition generateTechnicalDebtRecommendations (metrics : DebtMetrics) : list string :=
  let recs : list string := [] in
  let recs := if Qlt_bool 0.5 (complexityScore metrics)
    then push recs "Refactor complex code modules to improve maintainability."
    else recs in
  let recs := if Qlt_bool 15 (duplications metrics)
    then push recs "Reduce code duplication by creating reusable components and utilities."
    else recs in
  let recs := if testCoverage metrics <? 60
    then push recs "Increase test coverage to at least 80% for critical code paths."
    else recs in
  let recs := if 3 <? outdatedDependencies metrics
    then push recs "Update outdated dependencies to reduce security risks and technical debt."
    else recs in
  let recs := if len recs <? 2
    then push (push recs "Implement regular technical debt reviews in your development process.")
           "Set up dependency scanning to identify outdated packages."
    else recs in
  recs.

Definition calculateDeploymentScore
    (freq lead failureRate recover : Q) : Z :=
  let frequencyScore := Qmin (freq * 10) 30 in
  let leadTimeScore := Qmax 0 (30 - lead / 2) in
  let failureScore := Qmax 0 (25 - failureRate) in
  let recoveryScore := Qmax 0 (15 - recover / 2) in
  Qfloor (frequencyScore + leadTimeScore + failureScore + recoveryScore).

Definition generateDeploymentRecommendations
    (freq lead failureRate recover : Q) : list string :=
  let recs : list string := [] in
  let recs := if Qlt_bool freq 1
    then push recs "Increase deployment frequency by implementing continuous delivery practices."
    else recs in
  let recs := if Qlt_bool 24 lead
    then push recs "Reduce lead time by streamlining your CI/CD pipeline and approval processes."
    else recs in
  let recs := if Qlt_bool 10 failureRate
    then push recs "Reduce change failure rate by implementing more comprehensive pre-deployment testing."
    else recs in
  let recs := if Qlt_bool 12 recover
    then push recs "Improve mean time to recovery by implementing automated rollback mechanisms."
    else recs in
  let recs := if len recs <? 2
    then push (push recs "Implement feature flags to safely deploy and test new features.")
           "Adopt infrastructure as code to make deployments more reliable."
    else recs in
  recs.

(** The sum [totalComments] of the source is computed and never read; it
    is left out. *)
Definition calculateComplexityScore
    (commits : list Commit) (pullRequests : list PullRequest) : Q :=
  let commitQualityScore := analyzeCommitMessages commits in
  let reviewScore :=
    if 0 <? len pullRequests then
      let prsWithReviews :=
        List.filter (fun pr => truthy_number (pr_review_comments pr)
                               || truthy_number (pr_comments pr)) pullRequests in
      (inject_Z (len prsWithReviews) / inject_Z (len pullRequests))%Q
    else 0.5%Q in
  let complexity := (1 - (commitQualityScore * 0.6 + reviewScore * 0.4))%Q in
  Qmax 0 (Qmin 1 complexity).

Definition calculateDuplications : result Q :=
  try_catch
    (do langs <- getLanguages githubService;
     let duplicationScore := 0%Q in
     do repo <- getRepository host githubService;
     let repoAgeInMonths := (inject_Z (calculateRepositoryAge (created_at repo)) / 30)%Q in
     let duplicationScore := (duplicationScore + Qmin repoAgeInMonths 25)%Q in
     let keys := Z.of_nat (stdpp.base.size langs) in
     let duplicationScore :=
       if 3 <? keys then (duplicationScore + inject_Z ((keys - 3) * 2))%Q
       else duplicationScore in
     Ok (Qmin duplicationScore 40))
    (fun _ => Ok 15%Q).

Definition names_a_test (item : ContentItem) : bool :=
  let name := match item_name item with
              | Some n => toLowerCase n
              | None => EmptyString
              end in
  existsb (fun pattern => includes name pattern) testPatterns.

Definition mentions_tests (packageJson : string) : bool :=
  includes packageJson (quoted "test") || includes packageJson (quoted "jest")
  || includes packageJson (quoted "vitest") || includes packageJson (quoted "cypress").

(** The two counters [testScore] and [indicators] are threaded as a pair;
    a block whose [catch] is empty leaves them as they were. *)
Definition calculateTestCoverage : result Z :=
  try_catch
    (do rootContents <- getDirectoryContents githubService EmptyString;
     do langs <- getLanguages githubService;
     let counters :=
       fold_left (fun '(testScore, indicators) item =>
                    if names_a_test item then (testScore + 15, indicators + 1)
                    else (testScore, indicators))
                 rootContents (0, 0) in
     do counters <-
       try_catch
         (if js_or_ts langs then
            do packageJson <- getFileContent host githubService "package.json";
            if mentions_tests packageJson
            then Ok (fst counters + 20, snd counters + 1)
            else Ok counters
          else Ok counters)
         (fun _ => Ok counters);
     do counters <-
       try_catch
         (do workflows <- getDirectoryContents githubService ".github/workflows";
          if 0 <? len workflows
          then Ok (fst counters + 10, snd counters + 1)
          else Ok counters)
         (fun _ => Ok counters);
     if snd counters =? 0 then Ok 5
     else Ok (Z.min (fst counters) 95))
    (fun _ => Ok 25).

(** The [for (const file of depFiles)] loop: the first file that can be
    read (and after which the repository can be fetched) ends it. *)
Fixpoint count_other_manifests (filesToTry : list string) (outdatedCount : Z) : Z :=
  match filesToTry with
  | [] => outdatedCount
  | file :: rest =>
      match
        (do await getFileContent host githubService file;
         do repo <- getRepository host githubService;
         let repoAgeInMonths := (inject_Z (calculateRepositoryAge (created_at repo)) / 30)%Q in
         Ok (outdatedCount + Qfloor (repoAgeInMonths / 6)))
      with
      | Ok n => n
      | Throw _ => count_other_manifests rest outdatedCount
      end
  end.

Definition calculateOutdatedDependencies : result Z :=
  try_catch
    (do langs <- getLanguages githubService;
     let outdatedCount := 0 in
     do outdatedCount <-
       (if js_or_ts langs then
          try_catch
            (do packageJson <- getFileContent host githubService "package.json";
             do depCount <- match JSON_parse_dependencies host packageJson with
                            | Some n => Ok n
                            | None => Throw SyntaxError
                            end;
             do repo <- getRepository host githubService;
             let repoAgeInMonths := (inject_Z (calculateRepositoryAge (created_at repo)) / 30)%Q in
             Ok (outdatedCount
                 + Qfloor ((inject_Z (Z.of_nat depCount) / 10) * (repoAgeInMonths / 6))))
            (fun _ => Ok outdatedCount)
        else Ok outdatedCount);
     do outdatedCount <-
       (if truthy_number (langs !! "Python") then
          try_catch
            (do await getFileContent host githubService "requirements.txt";
             do repo <- getRepository host githubService;
             let repoAgeInMonths := (inject_Z (calculateRepositoryAge (created_at repo)) / 30)%Q in
             Ok (outdatedCount + Qfloor (repoAgeInMonths / 4)))
            (fun _ => Ok outdatedCount)
        else Ok outdatedCount);
     let outdatedCount := count_other_manifests depFiles outdatedCount in
     Ok (Z.min outdatedCount 20))
    (fun _ => Ok 2).

Definition analyzeTechnicalDebt : result TechnicalDebt :=
  try_catch
    (do await getRepository host githubService;
     do commits <- getCommits githubService 100;
     do pullRequests <- getPullRequests githubService st_all 50;
     do await getIssues githubService st_all 100;
     let complexity := calculateComplexityScore commits pullRequests in
     do dups <- calculateDuplications;
     do coverage <- calculateTestCoverage;
     do outdated <- calculateOutdatedDependencies;
     let score :=
       Qfloor (100 - complexity * 25 - dups * 0.4
               - (100 - inject_Z coverage) * 0.25 - inject_Z outdated * 3) in
     let recs := generateTechnicalDebtRecommendations
                   {| complexityScore := complexity;
                      duplications := dups;
                      testCoverage := coverage;
                      outdatedDependencies := outdated |} in
     Ok {| td_score := Z.max 0 (Z.min 100 score);
           td_metrics := {| complexityScore := toFixed2 complexity;
                            duplications := inject_Z (Math_round dups);
                            testCoverage := Math_round (inject_Z coverage);
                            outdatedDependencies := outdated |};
           td_recommendations := recs |})
    (fun error => Throw error).

(** [run.name.toLowerCase().includes('deploy') || ... 'release' || ...
    'production']: reading [toLowerCase] off a [null] name throws. *)
Definition names_a_deployment (run : WorkflowRun) : result bool :=
  match run_name run with
  | Some name =>
      Ok (includes (toLowerCase name) "deploy"
          || includes (toLowerCase name) "release"
          || includes (toLowerCase name) "production")
  | None => Throw TypeError
  end.

(** [run.conclusion === 'success' && (...)]: the name is read only of a run
    that succeeded. *)
Definition successful_deployment (run : WorkflowRun) : result bool :=
  if concluded run "success" then names_a_deployment run else Ok false.

Definition calculateDeploymentFrequency
    (releases : list Release) (workflowRuns : WorkflowRuns) : result Q :=
  let repoAgeInWeeks := (inject_Z (calculateRepositoryAge epoch_2020) / 7)%Q in
  if Qlt_bool repoAgeInWeeks 1 then Ok 0%Q
  else
    let releaseFreq := (inject_Z (len releases) / repoAgeInWeeks)%Q in
    do successfulRuns <-
      filter_throwing successful_deployment (workflow_runs workflowRuns);
    let workflowFreq := (inject_Z (len successfulRuns) / repoAgeInWeeks)%Q in
    Ok (Qmax releaseFreq workflowFreq).

(** The [reduce] over [releases.slice(0, 5)]: the sum of the gaps between
    each release of the slice and the one after it. *)
Fixpoint release_gaps (slice : list Release) (acc : Z) : Z :=
  match slice with
  | current :: (next :: _) as rest =>
      release_gaps rest (acc + (published_at current - published_at next))
  | _ => acc
  end.

(** The body of the loop over [mergedPRs], on the pair
    [(totalLeadTime, validSamples)]. *)
Definition lead_time_sample (releases : list Release)
    (acc : Q * Z) (pr : PullRequest) : Q * Z :=
  let mergeDate := match pr_merged_at pr with
                   | Some t => t
                   | None => Date_now host
                   end in
  match find (fun release => mergeDate <? published_at release) releases with
  | Some nextRelease =>
      let leadTimeHours :=
        (inject_Z (published_at nextRelease - mergeDate)
         / inject_Z (1000 * 60 * 60))%Q in
      if Qlt_bool 0 leadTimeHours && Qlt_bool leadTimeHours (inject_Z (30 * 24))
      then ((fst acc + leadTimeHours)%Q, snd acc + 1)
      else acc
  | None => acc
  end.

Definition calculateLeadTime (pullRequests : list PullRequest)
    (releases : list Release) (commits : list Commit) : Q :=
  if (len pullRequests =? 0) || (len releases =? 0) then
    match commits with
    | lastC :: _ :: _ =>
        let firstCommit := author_date (List.last commits lastC) in
        let lastCommit := author_date lastC in
        let avgTimeBetweenCommits :=
          (inject_Z (lastCommit - firstCommit) / inject_Z (len commits))%Q in
        Qmax 1 (avgTimeBetweenCommits / inject_Z (1000 * 60 * 60))
    | _ => 24%Q
    end
  else
    let mergedPRs :=
      firstn 10 (List.filter (fun pr => is_some (pr_merged_at pr)) pullRequests) in
    let '(totalLeadTime, validSamples) :=
      fold_left (lead_time_sample releases) mergedPRs (0%Q, 0) in
    if 0 <? validSamples then (totalLeadTime / inject_Z validSamples)%Q
    else if 1 <? len releases then
      let avgTimeBetweenReleases :=
        (inject_Z (release_gaps (firstn 5 releases) 0)
         / inject_Z (len releases - 1))%Q in
      Qmax 1 (avgTimeBetweenReleases / inject_Z (1000 * 60 * 60 * 2))
    else 48%Q.

Definition is_revert (commit : Commit) : bool :=
  includes (toLowerCase (message commit)) "revert"
  || includes (toLowerCase (message commit)) "rollback"
  || includes (toLowerCase (message commit)) "hotfix".

(** [... || run.event === 'release']: the name is read first, of every
    run. *)
Definition deployment_related (run : WorkflowRun) : result bool :=
  do named <- names_a_deployment run;
  Ok (named || String.eqb (run_event run) "release").

Definition calculateChangeFailureRate
    (workflowRuns : WorkflowRuns) (commits : list Commit) : result Q :=
  let runs := workflow_runs workflowRuns in
  if len runs =? 0 then
    let revertCommits := List.filter is_revert commits in
    if 0 <? len commits
    then Ok (inject_Z (len revertCommits) / inject_Z (len commits) * 100)%Q
    else Ok 0%Q
  else
    do deploymentRuns <- filter_throwing deployment_related runs;
    if len deploymentRuns =? 0 then
      let failedRuns := List.filter (fun run => concluded run "failure") runs in
      Ok (inject_Z (len failedRuns) / inject_Z (len runs) * 100)%Q
    else
      let failedDeployments :=
        List.filter (fun run => concluded run "failure") deploymentRuns in
      Ok (inject_Z (len failedDeployments) / inject_Z (len deploymentRuns) * 100)%Q.

Definition is_fix (commit : Commit) : bool :=
  let m := toLowerCase (message commit) in
  includes m "fix" || includes m "hotfix" || includes m "patch"
  || includes m "urgent" || includes m "critical".

(** The [for] loop over consecutive fix commits, on the pair
    [(totalRecoveryTime, recoveryInstances)]. *)
Fixpoint recovery_gaps (fixCommits : list Commit) (acc : Q * Z) : Q * Z :=
  match fixCommits with
  | currentFix :: (nextFix :: _) as rest =>
      let timeDiff :=
        (inject_Z (Z.abs (author_date currentFix - author_date nextFix))
         / inject_Z (1000 * 60 * 60))%Q in
      recovery_gaps rest
        (if Qle_bool 1 timeDiff && Qle_bool timeDiff 168
         then ((fst acc + timeDiff)%Q, snd acc + 1)
         else acc)
  | _ => acc
  end.

Definition is_bug_fix (pr : PullRequest) : bool :=
  let title := match pr_title pr with
               | Some t => toLowerCase t
               | None => EmptyString
               end in
  is_some (pr_merged_at pr)
  && (includes title "fix" || includes title "bug"
      || includes title "hotfix" || includes title "patch").

Definition resolution_time (acc : Z) (pr : PullRequest) : Z :=
  let created := match pr_created_at pr with
                 | Some t => t
                 | None => Date_now host
                 end in
  let merged := match pr_merged_at pr with
                | Some t => t
                | None => Date_now host
                end in
  acc + (merged - created).

Definition calculateMeanTimeToRecover
    (commits : list Commit) (pullRequests : list PullRequest) : Q :=
  let fixCommits := List.filter is_fix commits in
  if len fixCommits =? 0 then 12%Q
  else
    let '(totalRecoveryTime, recoveryInstances) :=
      recovery_gaps fixCommits (0%Q, 0) in
    if 0 <? recoveryInstances
    then (totalRecoveryTime / inject_Z recoveryInstances)%Q
    else
      let bugFixPRs := List.filter is_bug_fix pullRequests in
      if 0 <? len bugFixPRs then
        let avgPRTime :=
          (inject_Z (fold_left resolution_time bugFixPRs 0%Z)
           / inject_Z (len bugFixPRs))%Q in
        Qmax 1 (avgPRTime / inject_Z (1000 * 60 * 60))
      else 8%Q.

Definition analyzeDeploymentMetrics : result DeploymentMetrics :=
  try_catch
    (do workflowRuns <- getWorkflowRuns githubService;
     do releases <- getReleases githubService 50;
     do pullRequests <- getPullRequests githubService st_closed 50;
     do commits <- getCommits githubService 100;
     do freq <- calculateDeploymentFrequency releases workflowRuns;
     let lead := calculateLeadTime pullRequests releases commits in
     do failureRate <- calculateChangeFailureRate workflowRuns commits;
     let recover := calculateMeanTimeToRecover commits pullRequests in
     let score := calculateDeploymentScore freq lead failureRate recover in
     let recs := generateDeploymentRecommendations freq lead failureRate recover in
     Ok {| frequency := toFixed2 freq;
           leadTime := Math_round lead;
           changeFailureRate := (inject_Z (Math_round (failureRate * 100)) / 100)%Q;
           meanTimeToRecover := Math_round recover;
           dm_score := score;
           dm_recommendations := recs |})
    (fun error => Throw error).

Definition generateHealthReport : result HealthReport :=
  try_catch
    (do repo <- getRepository host githubService;
     do metrics <- analyzeCodeMetrics;
     do quality <- analyzeCodeQuality;
     do debt <- analyzeTechnicalDebt;
     do deployment <- analyzeDeploymentMetrics;
     let overall :=
       Qfloor (inject_Z (cq_score quality) * 0.3
               + inject_Z (td_score debt) * 0.4
               + inject_Z (dm_score deployment) * 0.3) in
     let benchmark := Qfloor (Math_random host 0 * 30) + 50 in
     Ok {| repository := repo;
           codeMetrics := metrics;
           codeQuality := quality;
           technicalDebt := debt;
           deploymentMetrics := deployment;
           overallScore := overall;
           benchmarkScore := benchmark;
           generatedAt := Date_now host |})
    (fun error => Throw error).

End CodeAnalysisService.

(** ** The earlier code-analysis-service.ts

    The repository also holds an earlier revision of the analysis service,
    written against a client whose methods all rethrow the error of their
    request.  Its [analyzeCodeMetrics], [analyzeCodeQuality],
    [analyzeCommitMessages], [calculateRepositoryAge] and recommendation
    generators are the ones above, word for word; its technical-debt
    estimator is not. *)
Module Legacy.
Section CodeAnalysisService.
Variable host : Host.
Variable githubService : GitHubService.

Definition getRepository : result Repository :=
  try_catch (request (get_repo (octokit githubService)))
    (fun error => Throw error).

Definition analyzeTechnicalDebt : result TechnicalDebt :=
  try_catch
    (do repo <- getRepository;
     do commits <- getCommits githubService 30;
     let complexity := (1 - analyzeCommitMessages commits)%Q in
     let repoAgeInDays := calculateRepositoryAge host (created_at repo) in
     let dups := Z.min (Qfloor (inject_Z repoAgeInDays / 30) * 5) 40 in
     let coverage := Qfloor (Math_random host 0 * 60) + 20 in
     let outdated := Qfloor (Math_random host 1 * 8) in
     let score :=
       Qfloor (100 - complexity * 30 - inject_Z dups * 0.5
               - (100 - inject_Z coverage) * 0.3 - inject_Z outdated * 5) in
     let recs := generateTechnicalDebtRecommendations
                   {| complexityScore := complexity;
                      duplications := inject_Z dups;
                      testCoverage := coverage;
                      outdatedDependencies := outdated |} in
     Ok {| td_score := Z.max 0 score;
           td_metrics := {| complexityScore := toFixed2 complexity;
                            duplications := inject_Z dups;
                            testCoverage := coverage;
                            outdatedDependencies := outdated |};
           td_recommendations := recs |})
    (fun error => Throw error).

End CodeAnalysisService.
End Legacy.

(** ** What the specification says of the deployment frequency

    The larger of the two weekly rates, both per week of the age of the
    repository, a run counting when it succeeded and its name contains one
    of the three words. *)
Definition spec_deploy_related (run : WorkflowRun) : bool :=
  concluded run "success"
  && match run_name run with
     | Some name =>
         includes name "deploy" || includes name "release"
         || includes name "production"
     | None => false
     end.

Definition spec_frequency (host : Host) (repo : Repository)
    (releases : list Release) (workflowRuns : WorkflowRuns) : Q :=
  let weeks := (inject_Z (calculateRepositoryAge host (created_at repo)) / 7)%Q in
  Qmax (inject_Z (len releases) / weeks)
       (inject_Z (len (List.filter spec_deploy_related (workflow_runs workflowRuns)))
        / weeks).

(** ** Concrete forges and hosts *)

Definition day : Z := 1000 * 60 * 60 * 24.

(** [new Date('2026-01-01T00:00:00Z').getTime()] *)
Definition epoch_2026 : Z := epoch_2020 + 2192 * day.

Definition forge_of (repo : response Repository) (commits : response (list Commit))
    (langs : response (gmap string Z)) (contents : string -> response Contents)
    (runs : response WorkflowRuns) (pulls : response (list PullRequest))
    (issues : response (list Issue)) (releases : response (list Release)) : Forge :=
  {| get_repo := repo;
     get_commits := fun _ => commits;
     get_languages := langs;
     get_contributors := Resolved [];
     get_contents := contents;
     get_actions_runs := runs;
     get_pulls := fun _ _ => pulls;
     get_issues := fun _ _ => issues;
     get_releases := fun _ => releases;
     get_code_frequency := Resolved None;
     get_commit_activity := Resolved None |}.

Definition host_at (now : Z) (draw : Q) : Host :=
  {| Date_now := now;
     Math_random := fun _ => draw;
     Buffer_from_base64 := fun s => s;
     JSON_parse_dependencies := fun _ => Some 0%nat |}.

Definition repo_created (created : Z) : Repository :=
  {| repo_id := 1; repo_name := "appendix"; full_name := "acme/appendix";
     owner_login := "acme"; description := EmptyString;
     created_at := created; updated_at := created; pushed_at := created;
     size := 1000; language := "Python"; default_branch := "main" |}.

Definition commit_saying (text : string) (date : Z) : Commit :=
  {| sha := "c0ffee"; author_name := "dev"; author_email := "dev@acme.test";
     author_date := date; message := text |}.

Definition long_conventional_message : string :=
  "feat(report): compute the overall score from the three estimator scores".

Definition rate_limited : RequestError :=
  {| status := Some 403;
     error_message := Some "API rate limit exceeded for 203.0.113.7.";
     error_response :=
       Some {| data_message := Some "API rate limit exceeded for 203.0.113.7.";
               headers := Some {| x_ratelimit_reset := Some 1767229200;
                                  x_ratelimit_limit := Some 60;
                                  x_ratelimit_remaining := Some 0 |} |} |}.

Definition forbidden : RequestError :=
  {| status := Some 403;
     error_message := Some "Resource not accessible by integration";
     error_response := None |}.

Definition not_found : RequestError :=
  {| status := Some 404; error_message := Some "Not Found"; error_response := None |}.

Definition server_error : RequestError :=
  {| status := Some 500; error_message := Some "Server Error"; error_response := None |}.

Definition no_runs : WorkflowRuns := {| workflow_runs := []; total_count := 0 |}.

(** Every request is refused: the quota is spent. *)
Definition exhausted_forge : Forge :=
  {| get_repo := Rejected rate_limited;
     get_commits := fun _ => Rejected rate_limited;
     get_languages := Rejected rate_limited;
     get_contributors := Rejected rate_limited;
     get_contents := fun _ => Rejected rate_limited;
     get_actions_runs := Rejected rate_limited;
     get_pulls := fun _ _ => Rejected rate_limited;
     get_issues := fun _ _ => Rejected rate_limited;
     get_releases := fun _ => Rejected rate_limited;
     get_code_frequency := Rejected rate_limited;
     get_commit_activity := Rejected rate_limited |}.

(** A public Python repository created at [created], with thirty commits
    and nothing else; no file can be found in it. *)
Definition python_forge (created : Z) : Forge :=
  forge_of (Resolved (repo_created created))
           (Resolved (repeat (commit_saying "fix: correct bug" epoch_2026) 30))
           (Resolved {[ "Python" := 120000 ]})
           (fun _ => Rejected not_found)
           (Resolved no_runs) (Resolved []) (Resolved []) (Resolved []).

(** The same repository seen without the scopes for runs, pull requests and
    issues. *)
Definition refusing_forge : Forge :=
  forge_of (Resolved (repo_created (epoch_2026 - 400 * day)))
           (Resolved []) (Resolved ∅) (fun _ => Rejected not_found)
           (Rejected forbidden) (Rejected forbidden) (Rejected forbidden)
           (Resolved []).


(** A repository created two weeks before 2026-01-01, with two releases. *)
Definition young_forge : Forge :=
  forge_of (Resolved (repo_created (epoch_2026 - 14 * day)))
           (Resolved []) (Resolved ∅) (fun _ => Rejected not_found)
           (Resolved no_runs) (Resolved []) (Resolved [])
           (Resolved (repeat {| tag_name := "v1"; published_at := epoch_2026 - day |} 2)).

(** ** Vocabulary of the statements *)

(** The test of [checkRateLimitError]: a 403 whose message, or whose response
    body, tells of the exhausted quota. *)
Definition is_rate_limit_response (error : RequestError) : bool :=
  status_is error 403
  && (says_rate_limit (error_message error)
      || match error_response error with
         | Some r => says_rate_limit (data_message r)
         | None => false
         end).

(** A 401 or a 403. *)
Definition authorization_refusal (error : RequestError) : bool :=
  status_is error 401 || status_is error 403.

(** The same commit with an empty message. *)
Definition with_empty_message (c : Commit) : Commit :=
  {| sha := sha c; author_name := author_name c; author_email := author_email c;
     author_date := author_date c; message := EmptyString |}.

(** A message that follows the conventional-commit pattern and is longer
    than fifty characters. *)
Definition well_written (c : Commit) : Prop :=
  conventional_commit (message c) = true /\ 50 < str_length (message c).

(** Two computations that both resolve, with the same value, or both
    reject, with whatever errors. *)
Definition same_outcome {A} (m m' : result A) : Prop :=
  match m, m' with
  | Ok a, Ok a' => a = a'
  | Throw _, Throw _ => True
  | _, _ => False
  end.


(** The forge [forge] answering the request for the repository with
    [answer] instead of what it answers. *)
Definition with_repository (forge : Forge) (answer : response Repository) : Forge :=
  {| get_repo := answer;
     get_commits := get_commits forge;
     get_languages := get_languages forge;
     get_contributors := get_contributors forge;
     get_contents := get_contents forge;
     get_actions_runs := get_actions_runs forge;
     get_pulls := get_pulls forge;
     get_issues := get_issues forge;
     get_releases := get_releases forge;
     get_code_frequency := get_code_frequency forge;
     get_commit_activity := get_commit_activity forge |}.


(** The two counters of [calculateTestCoverage]: every indicator found has
    added at least 10 to the score. *)
Definition counters_sound (counters : Z * Z) : Prop :=
  0 <= snd counters /\ 10 * snd counters <= fst counters.

(** The share of the pull requests that carry a comment or a review
    comment, as [calculateComplexityScore] computes it; 0.5 when there is no
    pull request. *)
Definition review_score (pullRequests : list PullRequest) : Q :=
  if 0 <? len pullRequests then
    (inject_Z (len (List.filter (fun pr => truthy_number (pr_review_comments pr)
                                           || truthy_number (pr_comments pr))
                                pullRequests))
     / inject_Z (len pullRequests))%Q
  else 0.5%Q.

(** The forge [forge] answering the three gated requests with empty data
    instead of what it answers. *)
Definition with_gated_empty (forge : Forge) : Forge :=
  {| get_repo := get_repo forge;
     get_commits := get_commits forge;
     get_languages := get_languages forge;
     get_contributors := get_contributors forge;
     get_contents := get_contents forge;
     get_actions_runs := Resolved {| workflow_runs := []; total_count := 0 |};
     get_pulls := fun _ _ => Resolved [];
     get_issues := fun _ _ => Resolved [];
     get_releases := get_releases forge;
     get_code_frequency := get_code_frequency forge;
     get_commit_activity := get_commit_activity forge |}.

(** The forge refuses the three gated requests, whatever their parameters,
    with a 401 or a 403. *)
Definition refuses_gated_requests (forge : Forge) : Prop :=
  (exists error, get_actions_runs forge = Rejected error
                 /\ authorization_refusal error = true)
  /\ (forall state count,
         exists error, get_pulls forge state count = Rejected error
                       /\ authorization_refusal error = true)
  /\ (forall state count,
         exists error, get_issues forge state count = Rejected error
                       /\ authorization_refusal error = true).

(** A text without line terminator. *)
Fixpoint one_line (s : string) : bool :=
  match s with
  | EmptyString => true
  | String c s' => negb (is_line_terminator c) && one_line s'
  end.

(** What the conventional-commit pattern asks of a message, read off the
    regular expression: one of the types at the very start, then either a
    colon, or a non-empty one-line scope between parentheses and then a
    colon; anything may follow. *)
Definition matches_conventional (m : string) : Prop :=
  exists ty rest,
    In ty commit_types
    /\ m = (ty ++ rest)%string
    /\ ((exists tail, rest = String ":"%char tail)
        \/ (exists scope tail,
               rest = String "("%char (scope ++ String ")"%char (String ":"%char tail))%string
               /\ scope <> EmptyString
               /\ one_line scope = true)).

(** The counters of [calculateTestCoverage] after its loop over the root
    directory. *)
Definition root_counters (rootContents : list ContentItem) : Z * Z :=
  fold_left (fun '(testScore, indicators) item =>
               if names_a_test item then (testScore + 15, indicators + 1)
               else (testScore, indicators))
            rootContents (0, 0).

(** * Properties *)

(** ** The error monad *)

Lemma try_catch_rethrow {A} (m : result A) : try_catch m (fun error => Throw error) = m.
Proof. destruct m; reflexivity. Qed.

Lemma try_catch_default {A} (m : result A) (d : A) :
  exists a, try_catch m (fun _ => Ok d) = Ok a.
Proof. destruct m; simpl; eauto. Qed.

Lemma bind_Ok_inv {A B} (m : result A) (k : A -> result B) (b : B) :
  bind m k = Ok b -> exists a, m = Ok a /\ k a = Ok b.
Proof. destruct m; simpl; [eauto | discriminate]. Qed.

Lemma bind_Throw_inv {A B} (m : result A) (k : A -> result B) (e : exn) :
  bind m k = Throw e -> m = Throw e \/ exists a, m = Ok a /\ k a = Throw e.
Proof. destruct m; simpl; [eauto | intros [= ->]; auto]. Qed.

(** ** The forge client *)

(** [checkRateLimitError] turns a 403 whose message tells of the exhausted
    quota into the distinguished error, and nothing else. *)
Lemma checkRateLimitError_distinguishes (host : Host) (error : RequestError) :
  if is_rate_limit_response error
  then exists msg reset limit remaining,
         checkRateLimitError host error = GitHubRateLimitError msg reset limit remaining
  else checkRateLimitError host error = ApiFailure error.
Proof.
  unfold checkRateLimitError, is_rate_limit_response.
  destruct (status_is error 403 && _); eauto.
Qed.

Lemma getRepository_rate_limited (host : Host) (this : GitHubService) (error : RequestError) :
  get_repo (octokit this) = Rejected error ->
  is_rate_limit_response error = true ->
  exists msg reset limit remaining,
    getRepository host this = Throw (GitHubRateLimitError msg reset limit remaining).
Proof.
  intros Hreq Hrate. unfold getRepository. rewrite Hreq. simpl.
  pose proof (checkRateLimitError_distinguishes host error) as H.
  rewrite Hrate in H. destruct H as (m & t & l & r & ->). eauto 6.
Qed.

(** The other methods that rethrow do so with the error of the request, be
    it a rate-limit response or not. *)
Lemma getCommits_rethrows (this : GitHubService) (count : Z) (error : RequestError) :
  get_commits (octokit this) count = Rejected error ->
  getCommits this count = Throw (ApiFailure error).
Proof. intros H. unfold getCommits. rewrite H. reflexivity. Qed.

Lemma getLanguages_rethrows (this : GitHubService) (error : RequestError) :
  get_languages (octokit this) = Rejected error ->
  getLanguages this = Throw (ApiFailure error).
Proof. intros H. unfold getLanguages. rewrite H. reflexivity. Qed.

Lemma getReleases_rethrows (this : GitHubService) (count : Z) (error : RequestError) :
  get_releases (octokit this) count = Rejected error ->
  getReleases this count = Throw (ApiFailure error).
Proof. intros H. unfold getReleases. rewrite H. reflexivity. Qed.

Lemma getDirectoryContents_total (this : GitHubService) (path : string) :
  exists items, getDirectoryContents this path = Ok items.
Proof. unfold getDirectoryContents. apply try_catch_default. Qed.

(** C1, at a forge whose every answer is the 403 of an exhausted quota
    (message "API rate limit exceeded ...", with the three rate-limit
    headers): only [getRepository] surfaces the distinguished
    [GitHubRateLimitError] carrying reset time, limit and remaining quota.
    [getCommits], [getLanguages], [getContributors], [getFileContent] and
    [getReleases] surface the plain request error; [getDirectoryContents]
    and [getCodeFrequencyStats] answer an empty list; the three gated
    methods answer an empty result without a credential and the plain
    request error with one. *)
Theorem rate_limit_surfaces_from_getRepository_only :
  let host := host_at epoch_2026 0.5 in
  let anonymous := new_GitHubService exhausted_forge None in
  let authenticated :=
    new_GitHubService exhausted_forge
      (Some {| token := Some "ghp_token"; username := None; password := None |}) in
  getRepository host anonymous
    = Throw (GitHubRateLimitError
               "GitHub API rate limit exceeded. Please try again later or provide an access token."
               1767229200000 60 0)
  /\ getCommits anonymous 30 = Throw (ApiFailure rate_limited)
  /\ getLanguages anonymous = Throw (ApiFailure rate_limited)
  /\ getContributors anonymous = Throw (ApiFailure rate_limited)
  /\ getFileContent host anonymous "package.json" = Throw (ApiFailure rate_limited)
  /\ getReleases anonymous 50 = Throw (ApiFailure rate_limited)
  /\ getDirectoryContents anonymous EmptyString = Ok []
  /\ getCodeFrequencyStats anonymous = Ok []
  /\ getWorkflowRuns anonymous = Ok no_runs
  /\ getPullRequests anonymous st_all 50 = Ok []
  /\ getIssues anonymous st_all 100 = Ok []
  /\ getWorkflowRuns authenticated = Throw (ApiFailure rate_limited)
  /\ getPullRequests authenticated st_all 50 = Throw (ApiFailure rate_limited)
  /\ getIssues authenticated st_all 100 = Throw (ApiFailure rate_limited).
Proof. cbv zeta. repeat split; vm_compute; reflexivity. Qed.

Lemma getWorkflowRuns_refused (this : GitHubService) (error : RequestError) :
  get_actions_runs (octokit this) = Rejected error ->
  authorization_refusal error = true ->
  getWorkflowRuns this
  = if hasAuth this then Throw (ApiFailure error)
    else Ok {| workflow_runs := []; total_count := 0 |}.
Proof.
  intros Hreq Hrefused. unfold getWorkflowRuns, unauthorized. rewrite Hreq. simpl.
  unfold authorization_refusal in Hrefused. rewrite Hrefused.
  destruct (hasAuth this); reflexivity.
Qed.

Lemma getPullRequests_refused (this : GitHubService) (state : PrState) (count : Z)
    (error : RequestError) :
  get_pulls (octokit this) state count = Rejected error ->
  authorization_refusal error = true ->
  getPullRequests this state count
  = if hasAuth this then Throw (ApiFailure error) else Ok [].
Proof.
  intros Hreq Hrefused. unfold getPullRequests, unauthorized. rewrite Hreq. simpl.
  unfold authorization_refusal in Hrefused. rewrite Hrefused.
  destruct (hasAuth this); reflexivity.
Qed.

Lemma getIssues_refused (this : GitHubService) (state : PrState) (count : Z)
    (error : RequestError) :
  get_issues (octokit this) state count = Rejected error ->
  authorization_refusal error = true ->
  getIssues this state count
  = if hasAuth this then Throw (ApiFailure error) else Ok [].
Proof.
  intros Hreq Hrefused. unfold getIssues, unauthorized. rewrite Hreq. simpl.
  unfold authorization_refusal in Hrefused. rewrite Hrefused.
  destruct (hasAuth this); reflexivity.
Qed.

(** C2: when the forge refuses workflow runs, pull requests or issues with a
    401 or a 403, a client constructed without a credential (no [auth], or an
    [auth] whose [token] is absent or empty) answers the empty result, and a
    client constructed with a token rethrows the refusal. *)
Theorem gated_endpoints_degrade_without_credential
    (forge : Forge) (auth : option GitHubAuth) (error : RequestError)
    (state : PrState) (count : Z) :
  authorization_refusal error = true ->
  let this := new_GitHubService forge auth in
  ((auth = None
    \/ exists a, auth = Some a /\ (token a = None \/ token a = Some EmptyString)) ->
   (get_actions_runs forge = Rejected error ->
    getWorkflowRuns this = Ok {| workflow_runs := []; total_count := 0 |})
   /\ (get_pulls forge state count = Rejected error ->
       getPullRequests this state count = Ok [])
   /\ (get_issues forge state count = Rejected error ->
       getIssues this state count = Ok []))
  /\ ((exists a c s, auth = Some a /\ token a = Some (String c s)) ->
      (get_actions_runs forge = Rejected error ->
       getWorkflowRuns this = Throw (ApiFailure error))
      /\ (get_pulls forge state count = Rejected error ->
          getPullRequests this state count = Throw (ApiFailure error))
      /\ (get_issues forge state count = Rejected error ->
          getIssues this state count = Throw (ApiFailure error))).
Proof.
  intros Hrefused this. split.
  - intros Hanon.
    assert (Hauth : hasAuth this = false).
    { destruct Hanon as [-> | (a & -> & [Htok | Htok])]; simpl;
        [reflexivity | rewrite Htok; reflexivity ..]. }
    repeat split; intros Hreq.
    + rewrite (getWorkflowRuns_refused this error Hreq Hrefused), Hauth. reflexivity.
    + rewrite (getPullRequests_refused this state count error Hreq Hrefused), Hauth.
      reflexivity.
    + rewrite (getIssues_refused this state count error Hreq Hrefused), Hauth.
      reflexivity.
  - intros (a & c & s & -> & Htok).
    assert (Hauth : hasAuth this = true).
    { simpl. rewrite Htok. reflexivity. }
    repeat split; intros Hreq.
    + rewrite (getWorkflowRuns_refused this error Hreq Hrefused), Hauth. reflexivity.
    + rewrite (getPullRequests_refused this state count error Hreq Hrefused), Hauth.
      reflexivity.
    + rewrite (getIssues_refused this state count error Hreq Hrefused), Hauth.
      reflexivity.
Qed.

Lemma gated_endpoints_degrade_without_credential_witness :
  authorization_refusal forbidden = true
  /\ getWorkflowRuns (new_GitHubService refusing_forge None) = Ok no_runs
  /\ getPullRequests (new_GitHubService refusing_forge None) st_all 50 = Ok []
  /\ getIssues (new_GitHubService refusing_forge None) st_all 50 = Ok [].
Proof.
  assert (H : authorization_refusal forbidden = true) by reflexivity.
  split; [exact H |].
  destruct (gated_endpoints_degrade_without_credential
              refusing_forge None forbidden st_all 50 H) as [Hanon _].
  destruct (Hanon (or_introl eq_refl)) as (Hruns & Hpulls & Hissues).
  split; [| split].
  - apply Hruns. reflexivity.
  - apply Hpulls. reflexivity.
  - apply Hissues. reflexivity.
Defined.

(** ** Code metrics *)

Lemma floor_three_quarters (n : Z) : Qfloor (inject_Z n * 0.75) = 3 * n / 4.
Proof.
  unfold Qfloor, Qmult, inject_Z. cbn [Qnum Qden]. rewrite Pos.mul_1_l.
  replace (n * 75) with (3 * n * 25) by ring.
  change (Z.pos 100) with (4 * 25). apply Z.div_mul_cancel_r; discriminate.
Qed.

Lemma floor_fifteen_percent (n : Z) : Qfloor (inject_Z n * 0.15) = 3 * n / 20.
Proof.
  unfold Qfloor, Qmult, inject_Z. cbn [Qnum Qden]. rewrite Pos.mul_1_l.
  replace (n * 15) with (3 * n * 5) by ring.
  change (Z.pos 100) with (20 * 5). apply Z.div_mul_cancel_r; discriminate.
Qed.

Lemma floor_tenth (n : Z) : Qfloor (inject_Z n / 10) = n / 10.
Proof.
  unfold Qfloor, Qdiv, Qmult, Qinv, inject_Z. cbn [Qnum Qden].
  rewrite Z.mul_1_r, Pos.mul_1_l. reflexivity.
Qed.

(** C6: when the languages and the repository can be fetched,
    [analyzeCodeMetrics] returns [totalLines = size * 50],
    [codeLines = floor (0.75 * totalLines)],
    [commentLines = floor (0.15 * totalLines)], [files = floor (size / 10)],
    the fetched language breakdown, and lines that add up:
    [codeLines + commentLines + blankLines = totalLines]. *)
Theorem analyzeCodeMetrics_estimates
    (host : Host) (this : GitHubService) (langs : gmap string Z) (repo : Repository) :
  getLanguages this = Ok langs ->
  getRepository host this = Ok repo ->
  exists m,
    analyzeCodeMetrics host this = Ok m
    /\ totalLines m = size repo * 50
    /\ codeLines m = Qfloor (0.75 * inject_Z (totalLines m))
    /\ commentLines m = Qfloor (0.15 * inject_Z (totalLines m))
    /\ files m = Qfloor (inject_Z (size repo) / 10)
    /\ codeLines m = 3 * totalLines m / 4
    /\ commentLines m = 3 * totalLines m / 20
    /\ files m = size repo / 10
    /\ codeLines m + commentLines m + blankLines m = totalLines m
    /\ languages m = langs.
Proof.
  intros Hlangs Hrepo. unfold analyzeCodeMetrics.
  rewrite Hlangs, Hrepo. cbn [bind try_catch]. eexists. split; [reflexivity |].
  cbn [totalLines codeLines commentLines blankLines files languages].
  repeat match goal with |- _ /\ _ => split end.
  - reflexivity.
  - apply Qfloor_comp. ring.
  - apply Qfloor_comp. ring.
  - reflexivity.
  - apply floor_three_quarters.
  - apply floor_fifteen_percent.
  - apply floor_tenth.
  - ring.
  - reflexivity.
Qed.

Lemma analyzeCodeMetrics_estimates_witness :
  exists m,
    analyzeCodeMetrics (host_at epoch_2026 0.5)
                       (new_GitHubService (python_forge epoch_2020) None) = Ok m
    /\ totalLines m = 50000 /\ codeLines m = 37500 /\ commentLines m = 7500
    /\ blankLines m = 5000 /\ files m = 100.
Proof.
  destruct (analyzeCodeMetrics_estimates
              (host_at epoch_2026 0.5)
              (new_GitHubService (python_forge epoch_2020) None)
              {[ "Python" := 120000 ]} (repo_created epoch_2020)
              eq_refl eq_refl)
    as (m & Hm & Htotal & _ & _ & _ & Hcode & Hcomment & Hfiles & Hsum & _).
  assert (Ht : totalLines m = 50000) by (rewrite Htotal; reflexivity).
  assert (Hc : codeLines m = 37500) by (rewrite Hcode, Ht; reflexivity).
  assert (Hk : commentLines m = 7500) by (rewrite Hcomment, Ht; reflexivity).
  assert (Hf : files m = 100) by (rewrite Hfiles; reflexivity).
  exists m. repeat match goal with |- _ /\ _ => split end; try assumption.
  lia.
Defined.

(** ** Commit messages *)

Lemma score_commit_empty (score : Q) (c : Commit) :
  message c = EmptyString -> score_commit score c = score.
Proof. intros H. unfold score_commit. rewrite H. reflexivity. Qed.

Lemma fold_score_empty (commits : list Commit) (score : Q) :
  fold_left score_commit (map with_empty_message commits) score = score.
Proof.
  revert score. induction commits as [| c l IH]; intros score; simpl.
  - reflexivity.
  - rewrite score_commit_empty by reflexivity. apply IH.
Qed.

Lemma score_commit_well_written (score : Q) (c : Commit) :
  well_written c -> (score + 1.1 <= score_commit score c)%Q.
Proof.
  intros [Hconv Hlen]. unfold score_commit. rewrite Hconv.
  replace (10 <? str_length (message c)) with true by (symmetry; apply Z.ltb_lt; lia).
  replace (20 <? str_length (message c)) with true by (symmetry; apply Z.ltb_lt; lia).
  replace (50 <? str_length (message c)) with true by (symmetry; apply Z.ltb_lt; lia).
  destruct (includes (message c) blank_line); lra.
Qed.

Lemma score_commit_grows (score : Q) (c : Commit) :
  (score <= score_commit score c)%Q.
Proof.
  unfold score_commit.
  destruct (10 <? _), (20 <? _), (50 <? _), (conventional_commit _), (includes _ _); lra.
Qed.

Lemma fold_score_grows (commits : list Commit) (score : Q) :
  (score <= fold_left score_commit commits score)%Q.
Proof.
  revert score. induction commits as [| c l IH]; intros score; simpl.
  - lra.
  - eapply Qle_trans; [apply (score_commit_grows score c) | apply IH].
Qed.

Lemma fold_score_well_written (commits : list Commit) (score : Q) :
  Forall well_written commits ->
  (score + 1.1 * inject_Z (len commits) <= fold_left score_commit commits score)%Q.
Proof.
  intros Hall. revert score.
  induction Hall as [| c l Hc _ IH]; intros score.
  - simpl. change (inject_Z (len [])) with 0%Q. lra.
  - simpl fold_left.
    replace (len (c :: l)) with (1 + len l) by (unfold len; simpl length; lia).
    rewrite inject_Z_plus.
    pose proof (score_commit_well_written score c Hc).
    pose proof (IH (score_commit score c)).
    change (inject_Z 1) with 1%Q. lra.
Qed.

Lemma len_pos {A} (x : A) (l : list A) : 1 <= len (x :: l).
Proof. unfold len. simpl length. lia. Qed.

Lemma Qle_div_r (a b c : Q) : (0 < c -> a * c <= b -> a <= b / c)%Q.
Proof. intros Hc H. apply Qle_shift_div_l; assumption. Qed.

(** Messages that follow the convention and are longer than fifty characters
    saturate the score. *)
Lemma analyzeCommitMessages_well_written (commits : list Commit) :
  commits <> [] -> Forall well_written commits ->
  (analyzeCommitMessages commits == 1)%Q.
Proof.
  intros Hne Hall. destruct commits as [| c l]; [congruence |].
  unfold analyzeCommitMessages.
  pose proof (fold_score_well_written (c :: l) 0 Hall) as Hsum.
  pose proof (len_pos c l) as Hlen.
  assert (Hn : (1 <= inject_Z (len (c :: l)))%Q).
  { change 1%Q with (inject_Z 1). rewrite <- Zle_Qle. exact Hlen. }
  apply Q.min_r. apply Qle_div_r; lra.
Qed.

Lemma analyzeCommitMessages_empty_messages (commits : list Commit) :
  commits <> [] ->
  (analyzeCommitMessages (map with_empty_message commits) == 0)%Q.
Proof.
  intros Hne. destruct commits as [| c l]; [congruence |].
  unfold analyzeCommitMessages. simpl map.
  change (with_empty_message c :: map with_empty_message l)
    with (map with_empty_message (c :: l)).
  cbv beta iota. rewrite fold_score_empty.
  set (n := inject_Z (len (map with_empty_message (c :: l)))).
  assert (H0 : (0 / n == 0)%Q) by (unfold Qdiv; ring).
  apply Qeq_trans with (0 / n)%Q; [| exact H0].
  apply Q.min_l. apply Qle_trans with 0%Q; [apply Qle_lteq; right; exact H0 | lra].
Qed.

(** C8: for every list of [n >= 1] commits whose messages all match the
    conventional-commit pattern and are longer than 50 characters,
    [analyzeCommitMessages] scores the list strictly higher than the same
    list with every message emptied (the scores are 1 and 0). *)
Theorem well_written_commits_score_higher (commits : list Commit) :
  (1 <= length commits)%nat ->
  Forall well_written commits ->
  (analyzeCommitMessages (map with_empty_message commits)
   < analyzeCommitMessages commits)%Q
  /\ (analyzeCommitMessages commits == 1)%Q
  /\ (analyzeCommitMessages (map with_empty_message commits) == 0)%Q.
Proof.
  intros Hn Hall.
  assert (Hne : commits <> []) by (destruct commits; simpl in Hn; [lia | discriminate]).
  pose proof (analyzeCommitMessages_well_written commits Hne Hall) as H1.
  pose proof (analyzeCommitMessages_empty_messages commits Hne) as H0.
  repeat split; try assumption. rewrite H1, H0. reflexivity.
Qed.

Lemma well_written_commits_score_higher_witness :
  well_written (commit_saying long_conventional_message epoch_2026)
  /\ (analyzeCommitMessages [commit_saying EmptyString epoch_2026]
      < analyzeCommitMessages [commit_saying long_conventional_message epoch_2026])%Q.
Proof.
  assert (Hw : well_written (commit_saying long_conventional_message epoch_2026)).
  { split; [reflexivity | vm_compute; reflexivity]. }
  split; [exact Hw |].
  assert (Hall : Forall well_written
                   [commit_saying long_conventional_message epoch_2026]).
  { constructor; [exact Hw | constructor]. }
  exact (proj1 (well_written_commits_score_higher
                  [commit_saying long_conventional_message epoch_2026]
                  (le_n 1) Hall)).
Defined.

(** ** Code quality *)

Ltac invert_binds H :=
  repeat (apply bind_Ok_inv in H; destruct H as (? & ? & H)).

Lemma analyzeCodeQuality_of_commits (this : GitHubService) (commits : list Commit) :
  getCommits this 30 = Ok commits ->
  analyzeCodeQuality this
  = let score := Z.min (Qfloor (analyzeCommitMessages commits * 100)) 100 in
    let issues := {| critical := (100 - score) / 25; high := (100 - score) / 20;
                     medium := (100 - score) / 10; low := (100 - score) / 5 |} in
    Ok {| cq_score := score; cq_issues := issues;
          cq_recommendations := generateCodeQualityRecommendations issues commits |}.
Proof. intros H. unfold analyzeCodeQuality. rewrite H. reflexivity. Qed.

Lemma analyzeCodeQuality_Ok_inv (this : GitHubService) (q : CodeQuality) :
  analyzeCodeQuality this = Ok q ->
  exists commits,
    getCommits this 30 = Ok commits
    /\ cq_score q = Z.min (Qfloor (analyzeCommitMessages commits * 100)) 100
    /\ cq_recommendations q = generateCodeQualityRecommendations (cq_issues q) commits.
Proof.
  unfold analyzeCodeQuality. rewrite try_catch_rethrow. intros H.
  invert_binds H. injection H as <-. eauto.
Qed.

(** C9: [analyzeCommitMessages] gives the empty list the score 0.5, and when
    the commit fetch returns an empty list [analyzeCodeQuality] returns
    score 50 with 2 critical, 2 high, 5 medium and 10 low issues, the floors
    of 50/25, 50/20, 50/10 and 50/5 (and then all four specific
    recommendations, no generic one). *)
Theorem no_commits_default_quality (this : GitHubService) :
  getCommits this 30 = Ok [] ->
  analyzeCommitMessages [] = 0.5%Q
  /\ exists q,
       analyzeCodeQuality this = Ok q
       /\ cq_score q = 50
       /\ cq_issues q = {| critical := 2; high := 2; medium := 5; low := 10 |}
       /\ cq_issues q = {| critical := 50 / 25; high := 50 / 20;
                           medium := 50 / 10; low := 50 / 5 |}
       /\ cq_recommendations q
          = ["Address critical security vulnerabilities in your codebase.";
             "Fix high-priority code quality issues to improve maintainability.";
             "Implement a code quality scanning tool in your CI/CD pipeline.";
             "Improve commit message quality by adopting conventional commit format."].
Proof.
  intros H. split; [reflexivity |].
  rewrite (analyzeCodeQuality_of_commits this [] H).
  eexists. split; [reflexivity |]. repeat split.
Qed.

Lemma no_commits_default_quality_witness :
  exists q,
    analyzeCodeQuality (new_GitHubService refusing_forge None) = Ok q
    /\ cq_score q = 50.
Proof.
  destruct (no_commits_default_quality (new_GitHubService refusing_forge None) eq_refl)
    as (_ & q & Hq & Hscore & _).
  exists q. split; assumption.
Defined.

(** ** Recommendations *)

Lemma length_push (recs : list string) (s : string) :
  length (push recs s) = S (length recs).
Proof. unfold push. rewrite length_app. simpl. lia. Qed.

Lemma generateCodeQualityRecommendations_length (issues : Issues) (commits : list Commit) :
  (2 <= length (generateCodeQualityRecommendations issues commits))%nat.
Proof.
  unfold generateCodeQualityRecommendations.
  destruct (0 <? critical issues), (0 <? high issues), (3 <? medium issues),
    (Qlt_bool (analyzeCommitMessages commits) 0.6);
    cbv [len push app length Z.of_nat Pos.of_succ_nat Pos.succ Z.ltb Z.compare Pos.compare
         Pos.compare_cont]; lia.
Qed.

Lemma generateTechnicalDebtRecommendations_length (metrics : DebtMetrics) :
  (2 <= length (generateTechnicalDebtRecommendations metrics))%nat.
Proof.
  unfold generateTechnicalDebtRecommendations.
  destruct (Qlt_bool 0.5 (complexityScore metrics)), (Qlt_bool 15 (duplications metrics)),
    (testCoverage metrics <? 60), (3 <? outdatedDependencies metrics);
    cbv [len push app length Z.of_nat Pos.of_succ_nat Pos.succ Z.ltb Z.compare Pos.compare
         Pos.compare_cont]; lia.
Qed.

Lemma generateDeploymentRecommendations_length (freq lead failureRate recover : Q) :
  (2 <= length (generateDeploymentRecommendations freq lead failureRate recover))%nat.
Proof.
  unfold generateDeploymentRecommendations.
  destruct (Qlt_bool freq 1), (Qlt_bool 24 lead), (Qlt_bool 10 failureRate),
    (Qlt_bool 12 recover);
    cbv [len push app length Z.of_nat Pos.of_succ_nat Pos.succ Z.ltb Z.compare Pos.compare
         Pos.compare_cont]; lia.
Qed.

(** ** Rational arithmetic used by the estimators *)

Lemma Qdiv_nonneg (a b : Q) : (0 <= a -> 0 <= b -> 0 <= a / b)%Q.
Proof.
  intros Ha Hb. unfold Qdiv. apply Qmult_le_0_compat; [exact Ha |].
  apply Qinv_le_0_compat. exact Hb.
Qed.

Lemma inject_Z_nonneg (n : Z) : 0 <= n -> (0 <= inject_Z n)%Q.
Proof. intros H. change 0%Q with (inject_Z 0). rewrite <- Zle_Qle. exact H. Qed.

Lemma len_nonneg {A} (l : list A) : 0 <= len l.
Proof. unfold len. lia. Qed.

Lemma inject_len_nonneg {A} (l : list A) : (0 <= inject_Z (len l))%Q.
Proof. apply inject_Z_nonneg, len_nonneg. Qed.

Lemma Qlt_bool_true (x y : Q) : Qlt_bool x y = true -> (x < y)%Q.
Proof.
  unfold Qlt_bool. intros H. apply Qnot_le_lt. intros Hle.
  apply Qle_bool_iff in Hle. rewrite Hle in H. discriminate.
Qed.

Lemma Qlt_bool_false (x y : Q) : Qlt_bool x y = false -> (y <= x)%Q.
Proof.
  unfold Qlt_bool. intros H. apply Qle_bool_iff.
  destruct (Qle_bool y x); [reflexivity | discriminate].
Qed.

Lemma Qmax_nonneg_l (a b : Q) : (0 <= a -> 0 <= Qmax a b)%Q.
Proof. intros H. eapply Qle_trans; [exact H | apply Q.le_max_l]. Qed.

Lemma Qmax_one_nonneg (a : Q) : (0 <= Qmax 1 a)%Q.
Proof. apply Qmax_nonneg_l. lra. Qed.

Lemma Qfloor_between (x : Q) (lo hi : Z) :
  (inject_Z lo <= x)%Q -> (x <= inject_Z hi)%Q -> lo <= Qfloor x <= hi.
Proof.
  intros Hlo Hhi. split.
  - rewrite <- (Qfloor_Z lo). apply Qfloor_resp_le. exact Hlo.
  - rewrite <- (Qfloor_Z hi). apply Qfloor_resp_le. exact Hhi.
Qed.

(** ** Ranges of the scores *)

Lemma analyzeCommitMessages_nonneg (commits : list Commit) :
  (0 <= analyzeCommitMessages commits)%Q.
Proof.
  destruct commits as [| c l]; [simpl; lra |].
  unfold analyzeCommitMessages. apply Q.min_glb; [| lra].
  apply Qdiv_nonneg; [apply fold_score_grows | apply inject_len_nonneg].
Qed.

Lemma code_quality_score_range (commits : list Commit) :
  0 <= Z.min (Qfloor (analyzeCommitMessages commits * 100)) 100 <= 100.
Proof.
  pose proof (analyzeCommitMessages_nonneg commits) as H.
  assert (0 <= Qfloor (analyzeCommitMessages commits * 100)).
  { rewrite <- (Qfloor_Z 0). apply Qfloor_resp_le. change (inject_Z 0) with 0%Q.
    apply Qmult_le_0_compat; [exact H | lra]. }
  lia.
Qed.

Lemma calculateDeploymentScore_range (freq lead failureRate recover : Q) :
  (0 <= freq)%Q -> (0 <= lead)%Q -> (0 <= failureRate)%Q -> (0 <= recover)%Q ->
  0 <= calculateDeploymentScore freq lead failureRate recover <= 100.
Proof.
  intros Hf Hl Hc Hr. unfold calculateDeploymentScore.
  assert (H1 : (0 <= Qmin (freq * 10) 30 <= 30)%Q).
  { split; [apply Q.min_glb; lra | apply Q.le_min_r]. }
  assert (H2 : (0 <= Qmax 0 (30 - lead / 2) <= 30)%Q).
  { split; [apply Q.le_max_l |]. apply Q.max_lub; [lra |].
    assert (0 <= lead / 2)%Q by (apply Qdiv_nonneg; lra). lra. }
  assert (H3 : (0 <= Qmax 0 (25 - failureRate) <= 25)%Q).
  { split; [apply Q.le_max_l |]. apply Q.max_lub; lra. }
  assert (H4 : (0 <= Qmax 0 (15 - recover / 2) <= 15)%Q).
  { split; [apply Q.le_max_l |]. apply Q.max_lub; [lra |].
    assert (0 <= recover / 2)%Q by (apply Qdiv_nonneg; lra). lra. }
  apply Qfloor_between.
  - change (inject_Z 0) with 0%Q. lra.
  - change (inject_Z 100) with 100%Q. lra.
Qed.

Lemma calculateDeploymentFrequency_nonneg
    (host : Host) (releases : list Release) (runs : WorkflowRuns) (freq : Q) :
  calculateDeploymentFrequency host releases runs = Ok freq -> (0 <= freq)%Q.
Proof.
  unfold calculateDeploymentFrequency.
  destruct (Qlt_bool _ 1) eqn:Hweeks; [intros [= <-]; lra |].
  apply Qlt_bool_false in Hweeks. intros H.
  invert_binds H. injection H as <-.
  apply Qmax_nonneg_l. apply Qdiv_nonneg; [apply inject_len_nonneg | lra].
Qed.

Lemma lead_time_sample_nonneg (host : Host) (releases : list Release)
    (acc : Q * Z) (pr : PullRequest) :
  (0 <= fst acc)%Q -> (0 <= fst (lead_time_sample host releases acc pr))%Q.
Proof.
  intros Hacc. unfold lead_time_sample.
  destruct (find _ releases) as [nextRelease |]; [| exact Hacc].
  destruct (Qlt_bool 0 _) eqn:Hpos; simpl; [| exact Hacc].
  destruct (Qlt_bool _ (inject_Z (30 * 24))); simpl; [| exact Hacc].
  apply Qlt_bool_true in Hpos. lra.
Qed.

Lemma lead_time_samples_nonneg (host : Host) (releases : list Release)
    (prs : list PullRequest) (acc : Q * Z) :
  (0 <= fst acc)%Q ->
  (0 <= fst (fold_left (lead_time_sample host releases) prs acc))%Q.
Proof.
  revert acc. induction prs as [| pr l IH]; intros acc Hacc; simpl.
  - exact Hacc.
  - apply IH. apply lead_time_sample_nonneg. exact Hacc.
Qed.

Lemma calculateLeadTime_nonneg (host : Host) (prs : list PullRequest)
    (releases : list Release) (commits : list Commit) :
  (0 <= calculateLeadTime host prs releases commits)%Q.
Proof.
  unfold calculateLeadTime.
  destruct ((len prs =? 0) || (len releases =? 0)).
  - destruct commits as [| c [| c' l]]; try lra. apply Qmax_one_nonneg.
  - pose proof (lead_time_samples_nonneg host releases
                  (firstn 10 (List.filter (fun pr => is_some (pr_merged_at pr)) prs))
                  (0%Q, 0)) as Hsum.
    destruct (fold_left _ _ _) as [totalLeadTime validSamples].
    simpl in Hsum.
    destruct (0 <? validSamples) eqn:Hvalid.
    + apply Z.ltb_lt in Hvalid.
      apply Qdiv_nonneg; [apply Hsum; lra | apply inject_Z_nonneg; lia].
    + destruct (1 <? len releases); [apply Qmax_one_nonneg | lra].
Qed.

Lemma ratio_percent_nonneg {A B} (part : list A) (whole : list B) :
  (0 <= inject_Z (len part) / inject_Z (len whole) * 100)%Q.
Proof.
  apply Qmult_le_0_compat; [| lra].
  apply Qdiv_nonneg; apply inject_len_nonneg.
Qed.

Lemma calculateChangeFailureRate_nonneg
    (runs : WorkflowRuns) (commits : list Commit) (rate : Q) :
  calculateChangeFailureRate runs commits = Ok rate -> (0 <= rate)%Q.
Proof.
  unfold calculateChangeFailureRate.
  destruct (len (workflow_runs runs) =? 0).
  - destruct (0 <? len commits); intros [= <-]; [apply ratio_percent_nonneg | lra].
  - intros H. invert_binds H.
    destruct (len _ =? 0); injection H as <-; apply ratio_percent_nonneg.
Qed.

Lemma recovery_gaps_nonneg (fixCommits : list Commit) (acc : Q * Z) :
  (0 <= fst acc)%Q -> 0 <= snd acc ->
  (0 <= fst (recovery_gaps fixCommits acc))%Q /\ 0 <= snd (recovery_gaps fixCommits acc).
Proof.
  revert acc. induction fixCommits as [| c l IH]; intros acc Hfst Hsnd.
  - simpl. auto.
  - destruct l as [| c' l']; [simpl; auto |].
    change (recovery_gaps (c :: c' :: l') acc)
      with (let timeDiff :=
              (inject_Z (Z.abs (author_date c - author_date c'))
               / inject_Z (1000 * 60 * 60))%Q in
            recovery_gaps (c' :: l')
              (if Qle_bool 1 timeDiff && Qle_bool timeDiff 168
               then ((fst acc + timeDiff)%Q, snd acc + 1) else acc)).
    cbv zeta. apply IH.
    + destruct (Qle_bool 1 _) eqn:Hone; simpl; [| exact Hfst].
      destruct (Qle_bool _ 168); simpl; [| exact Hfst].
      apply Qle_bool_iff in Hone. lra.
    + destruct (Qle_bool 1 _ && Qle_bool _ 168); simpl; lia.
Qed.

Lemma calculateMeanTimeToRecover_nonneg
    (host : Host) (commits : list Commit) (prs : list PullRequest) :
  (0 <= calculateMeanTimeToRecover host commits prs)%Q.
Proof.
  unfold calculateMeanTimeToRecover.
  destruct (len (List.filter is_fix commits) =? 0); [lra |].
  destruct (recovery_gaps_nonneg (List.filter is_fix commits) (0%Q, 0)) as [Hsum Hcount];
    [simpl; lra | simpl; lia |].
  destruct (recovery_gaps _ _) as [totalRecoveryTime recoveryInstances].
  simpl in Hsum, Hcount.
  destruct (0 <? recoveryInstances).
  - apply Qdiv_nonneg; [exact Hsum | apply inject_Z_nonneg; exact Hcount].
  - destruct (0 <? len _); [apply Qmax_one_nonneg | lra].
Qed.

(** ** What a returned report is made of *)

Lemma analyzeTechnicalDebt_Ok_inv (host : Host) (this : GitHubService) (d : TechnicalDebt) :
  analyzeTechnicalDebt host this = Ok d ->
  exists commits prs dups coverage outdated score,
    getCommits this 100 = Ok commits
    /\ getPullRequests this st_all 50 = Ok prs
    /\ calculateDuplications host this = Ok dups
    /\ calculateTestCoverage host this = Ok coverage
    /\ calculateOutdatedDependencies host this = Ok outdated
    /\ td_score d = Z.max 0 (Z.min 100 score)
    /\ td_recommendations d
       = generateTechnicalDebtRecommendations
           {| complexityScore := calculateComplexityScore commits prs;
              duplications := dups;
              testCoverage := coverage;
              outdatedDependencies := outdated |}.
Proof.
  unfold analyzeTechnicalDebt. rewrite try_catch_rethrow. intros H.
  invert_binds H. injection H as <-. cbn [td_score td_recommendations].
  do 6 eexists.
  repeat match goal with |- _ /\ _ => split end; first [eassumption | reflexivity].
Qed.

Lemma analyzeDeploymentMetrics_Ok_inv (host : Host) (this : GitHubService)
    (d : DeploymentMetrics) :
  analyzeDeploymentMetrics host this = Ok d ->
  exists runs releases prs commits freq failureRate,
    getWorkflowRuns this = Ok runs
    /\ getReleases this 50 = Ok releases
    /\ getPullRequests this st_closed 50 = Ok prs
    /\ getCommits this 100 = Ok commits
    /\ calculateDeploymentFrequency host releases runs = Ok freq
    /\ calculateChangeFailureRate runs commits = Ok failureRate
    /\ frequency d = toFixed2 freq
    /\ dm_score d
       = calculateDeploymentScore
           freq (calculateLeadTime host prs releases commits)
           failureRate (calculateMeanTimeToRecover host commits prs)
    /\ dm_recommendations d
       = generateDeploymentRecommendations
           freq (calculateLeadTime host prs releases commits)
           failureRate (calculateMeanTimeToRecover host commits prs).
Proof.
  unfold analyzeDeploymentMetrics. rewrite try_catch_rethrow. intros H.
  invert_binds H. injection H as <-.
  cbn [frequency dm_score dm_recommendations].
  do 6 eexists.
  repeat match goal with |- _ /\ _ => split end; first [eassumption | reflexivity].
Qed.

Lemma generateHealthReport_Ok_inv (host : Host) (this : GitHubService) (report : HealthReport) :
  generateHealthReport host this = Ok report ->
  getRepository host this = Ok (repository report)
  /\ analyzeCodeMetrics host this = Ok (codeMetrics report)
  /\ analyzeCodeQuality this = Ok (codeQuality report)
  /\ analyzeTechnicalDebt host this = Ok (technicalDebt report)
  /\ analyzeDeploymentMetrics host this = Ok (deploymentMetrics report)
  /\ overallScore report
     = Qfloor (inject_Z (cq_score (codeQuality report)) * 0.3
               + inject_Z (td_score (technicalDebt report)) * 0.4
               + inject_Z (dm_score (deploymentMetrics report)) * 0.3)
  /\ benchmarkScore report = Qfloor (Math_random host 0 * 30) + 50
  /\ generatedAt report = Date_now host.
Proof.
  unfold generateHealthReport. rewrite try_catch_rethrow. intros H.
  invert_binds H. injection H as <-.
  cbn [repository codeMetrics codeQuality technicalDebt deploymentMetrics
       overallScore benchmarkScore generatedAt].
  repeat match goal with |- _ /\ _ => split end; first [assumption | reflexivity].
Qed.

Lemma code_quality_range (this : GitHubService) (q : CodeQuality) :
  analyzeCodeQuality this = Ok q -> 0 <= cq_score q <= 100.
Proof.
  intros H. apply analyzeCodeQuality_Ok_inv in H.
  destruct H as (commits & _ & -> & _). apply code_quality_score_range.
Qed.

Lemma technical_debt_range (host : Host) (this : GitHubService) (d : TechnicalDebt) :
  analyzeTechnicalDebt host this = Ok d -> 0 <= td_score d <= 100.
Proof.
  intros H. apply analyzeTechnicalDebt_Ok_inv in H.
  destruct H as (? & ? & ? & ? & ? & score & _ & _ & _ & _ & _ & -> & _). lia.
Qed.

Lemma deployment_range (host : Host) (this : GitHubService) (d : DeploymentMetrics) :
  analyzeDeploymentMetrics host this = Ok d -> 0 <= dm_score d <= 100.
Proof.
  intros H. apply analyzeDeploymentMetrics_Ok_inv in H.
  destruct H as (runs & releases & prs & commits & freq & failureRate
                 & _ & _ & _ & _ & Hfreq & Hrate & _ & -> & _).
  apply calculateDeploymentScore_range.
  - exact (calculateDeploymentFrequency_nonneg _ _ _ _ Hfreq).
  - apply calculateLeadTime_nonneg.
  - exact (calculateChangeFailureRate_nonneg _ _ _ Hrate).
  - apply calculateMeanTimeToRecover_nonneg.
Qed.

Lemma inject_Z_at_most_100 (n : Z) : n <= 100 -> (inject_Z n <= 100)%Q.
Proof. intros H. change 100%Q with (inject_Z 100). rewrite <- Zle_Qle. exact H. Qed.

Lemma overall_range (a b c : Z) :
  0 <= a <= 100 -> 0 <= b <= 100 -> 0 <= c <= 100 ->
  0 <= Qfloor (inject_Z a * 0.3 + inject_Z b * 0.4 + inject_Z c * 0.3) <= 100.
Proof.
  intros [Ha Ha'] [Hb Hb'] [Hc Hc'].
  apply inject_Z_nonneg in Ha, Hb, Hc.
  apply inject_Z_at_most_100 in Ha', Hb', Hc'.
  apply Qfloor_between.
  - change (inject_Z 0) with 0%Q. lra.
  - change (inject_Z 100) with 100%Q. lra.
Qed.

(** C3: in every report that is generated, and in every result of the three
    estimators, the code-quality score, the technical-debt score, the
    deployment score and the overall score are integers between 0 and 100. *)
Theorem scores_within_0_100 (host : Host) (this : GitHubService) (report : HealthReport) :
  generateHealthReport host this = Ok report ->
  0 <= cq_score (codeQuality report) <= 100
  /\ 0 <= td_score (technicalDebt report) <= 100
  /\ 0 <= dm_score (deploymentMetrics report) <= 100
  /\ 0 <= overallScore report <= 100.
Proof.
  intros H. apply generateHealthReport_Ok_inv in H.
  destruct H as (_ & _ & Hq & Hd & Hm & Hoverall & _).
  pose proof (code_quality_range this _ Hq) as Rq.
  pose proof (technical_debt_range host this _ Hd) as Rd.
  pose proof (deployment_range host this _ Hm) as Rm.
  repeat split; try lia; rewrite Hoverall; apply overall_range; assumption.
Qed.

Lemma scores_within_0_100_witness :
  exists report,
    generateHealthReport (host_at epoch_2026 0.5)
                         (new_GitHubService (python_forge epoch_2020) None) = Ok report
    /\ 0 <= overallScore report <= 100.
Proof.
  assert (Hrun : exists report,
             generateHealthReport (host_at epoch_2026 0.5)
               (new_GitHubService (python_forge epoch_2020) None) = Ok report)
    by (eexists; vm_compute; reflexivity).
  destruct Hrun as [report Hrun]. exists report. split; [exact Hrun |].
  apply (scores_within_0_100 _ _ report Hrun).
Defined.

(** C10: in every report that is generated, each of the three lists of
    recommendations (code quality, technical debt, deployment) has at least
    two entries, whatever the scores. *)
Theorem report_recommendations_at_least_two
    (host : Host) (this : GitHubService) (report : HealthReport) :
  generateHealthReport host this = Ok report ->
  (2 <= length (cq_recommendations (codeQuality report)))%nat
  /\ (2 <= length (td_recommendations (technicalDebt report)))%nat
  /\ (2 <= length (dm_recommendations (deploymentMetrics report)))%nat.
Proof.
  intros H. apply generateHealthReport_Ok_inv in H.
  destruct H as (_ & _ & Hq & Hd & Hm & _).
  apply analyzeCodeQuality_Ok_inv in Hq. destruct Hq as (? & _ & _ & ->).
  apply analyzeTechnicalDebt_Ok_inv in Hd.
  destruct Hd as (? & ? & ? & ? & ? & ? & _ & _ & _ & _ & _ & _ & ->).
  apply analyzeDeploymentMetrics_Ok_inv in Hm.
  destruct Hm as (? & ? & ? & ? & ? & ? & _ & _ & _ & _ & _ & _ & _ & _ & ->).
  split; [apply generateCodeQualityRecommendations_length |].
  split; [apply generateTechnicalDebtRecommendations_length |].
  apply generateDeploymentRecommendations_length.
Qed.

Lemma report_recommendations_at_least_two_witness :
  exists report,
    generateHealthReport (host_at epoch_2026 0.5)
                         (new_GitHubService refusing_forge None) = Ok report
    /\ (2 <= length (cq_recommendations (codeQuality report)))%nat.
Proof.
  assert (Hrun : exists report,
             generateHealthReport (host_at epoch_2026 0.5)
               (new_GitHubService refusing_forge None) = Ok report)
    by (eexists; vm_compute; reflexivity).
  destruct Hrun as [report Hrun]. exists report. split; [exact Hrun |].
  apply (report_recommendations_at_least_two _ _ report Hrun).
Defined.

(** ** Deployment frequency *)

(** C7: the weeks [calculateDeploymentFrequency] divides by are counted from
    2020-01-01 and not from the creation of the repository.  The deployment
    metrics are the same whatever the forge answers about the repository;
    and a repository that is two weeks old on 2026-01-01 and has two
    releases and no workflow run, one release per week of its age, is
    reported at 0.01 deployments a week, two releases over the 2192 days
    since 2020-01-01. *)
Theorem frequency_counts_weeks_since_2020 :
  (forall host forge auth answer,
      analyzeDeploymentMetrics host (new_GitHubService (with_repository forge answer) auth)
      = analyzeDeploymentMetrics host (new_GitHubService forge auth))
  /\ (let host := host_at epoch_2026 0.5 in
      let this := new_GitHubService young_forge None in
      exists d repo releases runs,
        analyzeDeploymentMetrics host this = Ok d
        /\ getRepository host this = Ok repo
        /\ getReleases this 50 = Ok releases
        /\ getWorkflowRuns this = Ok runs
        /\ calculateRepositoryAge host (created_at repo) = 14
        /\ calculateRepositoryAge host epoch_2020 = 2192
        /\ (spec_frequency host repo releases runs == 1)%Q
        /\ (frequency d == 0.01)%Q).
Proof.
  split; [intros host forge auth answer; reflexivity |].
  cbv zeta. do 4 eexists.
  split; [vm_compute; reflexivity |].
  split; [vm_compute; reflexivity |].
  split; [vm_compute; reflexivity |].
  split; [vm_compute; reflexivity |].
  split; [vm_compute; reflexivity |].
  split; [vm_compute; reflexivity |].
  split; [vm_compute; reflexivity |].
  vm_compute; reflexivity.
Qed.

(** ** Callbacks that throw *)

Lemma filter_throwing_Ok_inv {A} (p : A -> result bool) (l kept : list A) :
  filter_throwing p l = Ok kept -> Forall (fun x => exists b, p x = Ok b) l.
Proof.
  revert kept. induction l as [| x rest IH]; intros kept H; [constructor |].
  cbn [filter_throwing] in H.
  destruct (p x) as [keep |] eqn:Hx; cbn [bind] in H; [| discriminate].
  destruct (filter_throwing p rest) as [kept' |]; cbn [bind] in H; [| discriminate].
  constructor; [exists keep; exact Hx | exact (IH kept' eq_refl)].
Qed.

Lemma filter_throwing_total {A} (p : A -> result bool) (l : list A) :
  Forall (fun x => exists b, p x = Ok b) l -> exists kept, filter_throwing p l = Ok kept.
Proof.
  induction 1 as [| x rest [b Hx] _ [kept IH]]; [exists []; reflexivity |].
  cbn [filter_throwing]. rewrite Hx, IH. cbn [bind]. eauto.
Qed.

Lemma filter_throwing_rejects_tail {A} (p : A -> result bool) (l others : list A) :
  Forall (fun x => p x = Ok false) others ->
  filter_throwing p (l ++ others) = filter_throwing p l.
Proof.
  intros Hothers. induction l as [| x rest IH]; cbn [app filter_throwing].
  - induction Hothers as [| x rest Hx _ IH]; [reflexivity |].
    cbn [filter_throwing]. rewrite Hx, IH. reflexivity.
  - rewrite IH. reflexivity.
Qed.

Lemma filter_throwing_Throw_inv {A} (p : A -> result bool) (l : list A) (e : exn) :
  filter_throwing p l = Throw e -> Exists (fun x => p x = Throw e) l.
Proof.
  induction l as [| x rest IH]; cbn [filter_throwing]; [discriminate |].
  destruct (p x) as [keep | e'] eqn:Hx; cbn [bind].
  - destruct (filter_throwing p rest) as [kept | e']; cbn [bind]; [discriminate |].
    intros [= <-]. right. apply IH. reflexivity.
  - intros [= <-]. left. exact Hx.
Qed.

Lemma filter_throwing_throws {A} (p : A -> result bool) (l : list A) :
  Exists (fun x => exists e, p x = Throw e) l -> exists e, filter_throwing p l = Throw e.
Proof.
  induction 1 as [x rest [e Hx] | x rest _ [e IH]]; cbn [filter_throwing].
  - rewrite Hx. cbn [bind]. eauto.
  - destruct (p x) as [keep | e']; cbn [bind]; [| eauto].
    rewrite IH. cbn [bind]. eauto.
Qed.

Lemma names_a_deployment_Throw_inv (run : WorkflowRun) (e : exn) :
  names_a_deployment run = Throw e -> e = TypeError.
Proof.
  unfold names_a_deployment. destruct (run_name run); [discriminate | congruence].
Qed.

Lemma names_a_deployment_named (run : WorkflowRun) :
  run_name run <> None <-> exists b, names_a_deployment run = Ok b.
Proof.
  unfold names_a_deployment. destruct (run_name run) as [name |].
  - split; [eauto | discriminate].
  - split; [congruence | intros [b H]; discriminate].
Qed.

Lemma calculateChangeFailureRate_Ok_named
    (runs : WorkflowRuns) (commits : list Commit) (rate : Q) :
  calculateChangeFailureRate runs commits = Ok rate ->
  Forall (fun run => run_name run <> None) (workflow_runs runs).
Proof.
  unfold calculateChangeFailureRate.
  destruct (workflow_runs runs) as [| run rest] eqn:Hruns; [constructor |].
  change (len (run :: rest) =? 0) with false. cbv iota. intros H.
  apply bind_Ok_inv in H. destruct H as (kept & Hkept & _).
  apply filter_throwing_Ok_inv in Hkept.
  eapply Forall_impl; [| exact Hkept].
  intros r [b Hb]. apply names_a_deployment_named.
  unfold deployment_related in Hb.
  destruct (names_a_deployment r) as [named |]; [eauto | discriminate].
Qed.

Lemma calculateChangeFailureRate_total (runs : WorkflowRuns) (commits : list Commit) :
  Forall (fun run => run_name run <> None) (workflow_runs runs) ->
  exists rate, calculateChangeFailureRate runs commits = Ok rate.
Proof.
  intros Hnamed. unfold calculateChangeFailureRate.
  destruct (len (workflow_runs runs) =? 0).
  - destruct (0 <? len commits); eauto.
  - destruct (filter_throwing_total deployment_related (workflow_runs runs))
      as [kept ->].
    + eapply Forall_impl; [| exact Hnamed].
      intros r Hr. apply names_a_deployment_named in Hr. destruct Hr as [b Hb].
      unfold deployment_related. rewrite Hb. cbn [bind]. eauto.
    + cbn [bind]. destruct (len kept =? 0); eauto.
Qed.

Lemma calculateDeploymentFrequency_total
    (host : Host) (releases : list Release) (runs : WorkflowRuns) :
  Forall (fun run => run_name run <> None) (workflow_runs runs) ->
  exists freq, calculateDeploymentFrequency host releases runs = Ok freq.
Proof.
  intros Hnamed. unfold calculateDeploymentFrequency.
  destruct (Qlt_bool _ 1); [eauto |].
  destruct (filter_throwing_total successful_deployment (workflow_runs runs))
    as [kept ->].
  - eapply Forall_impl; [| exact Hnamed].
    intros r Hr. apply names_a_deployment_named in Hr. destruct Hr as [b Hb].
    unfold successful_deployment. destruct (concluded r "success"); eauto.
  - cbn [bind]. eauto.
Qed.

(** ** The report as a function of what the client returns *)

Lemma same_outcome_refl {A} (m : result A) : same_outcome m m.
Proof. destruct m; simpl; auto. Qed.

Lemma bind_same_outcome {A B} (m m' : result A) (k : A -> result B) :
  same_outcome m m' -> same_outcome (bind m k) (bind m' k).
Proof.
  destruct m, m'; simpl; intros H; try contradiction.
  - subst. apply same_outcome_refl.
  - exact I.
Qed.

Lemma try_catch_same_outcome {A} (m m' : result A) (r : result A) :
  same_outcome m m' -> try_catch m (fun _ => r) = try_catch m' (fun _ => r).
Proof. destruct m, m'; simpl; intros H; try contradiction; congruence. Qed.

(** Two runs, each with its host and its client: when the client methods
    return the same to both (a file read may fail with different errors),
    the repository has the same age in days for both, and [JSON.parse] is
    the same function, the technical-debt estimators agree. *)
Section TwoRuns.
Variables (h h' : Host) (this this' : GitHubService).
Hypothesis Hrepo : getRepository h this = getRepository h' this'.
Hypothesis Hage :
  forall repo, getRepository h this = Ok repo ->
               calculateRepositoryAge h (created_at repo)
               = calculateRepositoryAge h' (created_at repo).
Hypothesis Hlangs : getLanguages this = getLanguages this'.
Hypothesis Hjson : JSON_parse_dependencies h = JSON_parse_dependencies h'.
Hypothesis Hfile :
  forall path, same_outcome (getFileContent h this path) (getFileContent h' this' path).
Hypothesis Hdir :
  forall path, getDirectoryContents this path = getDirectoryContents this' path.
Hypothesis Hcommits : forall count, getCommits this count = getCommits this' count.
Hypothesis Hpulls :
  forall state count, getPullRequests this state count = getPullRequests this' state count.
Hypothesis Hissues :
  forall state count, getIssues this state count = getIssues this' state count.

Lemma calculateDuplications_ext :
  calculateDuplications h this = calculateDuplications h' this'.
Proof.
  unfold calculateDuplications. rewrite <- Hlangs, <- Hrepo.
  destruct (getLanguages this) as [langs | e]; cbn [bind try_catch]; [| reflexivity].
  destruct (getRepository h this) as [repo | e] eqn:Hr; cbn [bind try_catch];
    [| reflexivity].
  rewrite (Hage repo eq_refl). reflexivity.
Qed.

Lemma calculateTestCoverage_ext :
  calculateTestCoverage h this = calculateTestCoverage h' this'.
Proof.
  unfold calculateTestCoverage. rewrite <- !Hdir, <- Hlangs.
  destruct (getDirectoryContents this EmptyString) as [rootContents | e];
    cbn [bind try_catch]; [| reflexivity].
  destruct (getLanguages this) as [langs | e]; cbn [bind try_catch]; [| reflexivity].
  match goal with
  | |- try_catch (bind (try_catch ?a ?handler) _) _
       = try_catch (bind (try_catch ?a' _) _) _ =>
      assert (E : try_catch a handler = try_catch a' handler)
  end.
  { destruct (js_or_ts langs); [| reflexivity].
    apply try_catch_same_outcome, bind_same_outcome, Hfile. }
  rewrite E. reflexivity.
Qed.

Lemma count_other_manifests_ext (filesToTry : list string) (outdatedCount : Z) :
  count_other_manifests h this filesToTry outdatedCount
  = count_other_manifests h' this' filesToTry outdatedCount.
Proof.
  induction filesToTry as [| file rest IH]; cbn [count_other_manifests]; [reflexivity |].
  pose proof (Hfile file) as Hf. rewrite <- Hrepo.
  destruct (getFileContent h this file), (getFileContent h' this' file);
    simpl in Hf; try contradiction; cbn [bind]; [| exact IH].
  destruct (getRepository h this) as [repo | e] eqn:Hr; cbn [bind]; [| exact IH].
  rewrite (Hage repo eq_refl). reflexivity.
Qed.

Lemma calculateOutdatedDependencies_ext :
  calculateOutdatedDependencies h this = calculateOutdatedDependencies h' this'.
Proof.
  unfold calculateOutdatedDependencies. rewrite <- Hlangs, <- Hrepo, <- Hjson.
  destruct (getLanguages this) as [langs | e]; cbn [bind try_catch]; [| reflexivity].
  match goal with
  | |- try_catch (bind ?a _) _ = try_catch (bind ?a' _) _ => assert (E : a = a')
  end.
  { destruct (js_or_ts langs); [| reflexivity].
    pose proof (Hfile "package.json") as Hf.
    destruct (getFileContent h this "package.json") as [packageJson |],
             (getFileContent h' this' "package.json") as [packageJson' |];
      simpl in Hf; try contradiction; cbn [bind try_catch];
      [subst packageJson' | reflexivity].
    destruct (JSON_parse_dependencies h packageJson); cbn [bind try_catch];
      [| reflexivity].
    destruct (getRepository h this) as [repo | e] eqn:Hr; cbn [bind try_catch];
      [| reflexivity].
    rewrite (Hage repo eq_refl). reflexivity. }
  rewrite E. clear E.
  match goal with
  | |- try_catch (bind ?a _) _ = _ => destruct a as [n1 | e]
  end; cbn [bind try_catch]; [| reflexivity].
  match goal with
  | |- try_catch (bind ?a _) _ = try_catch (bind ?a' _) _ => assert (E : a = a')
  end.
  { destruct (truthy_number (langs !! "Python")); [| reflexivity].
    pose proof (Hfile "requirements.txt") as Hf.
    destruct (getFileContent h this "requirements.txt"),
             (getFileContent h' this' "requirements.txt");
      simpl in Hf; try contradiction; cbn [bind try_catch]; [| reflexivity].
    destruct (getRepository h this) as [repo | e] eqn:Hr; cbn [bind try_catch];
      [| reflexivity].
    rewrite (Hage repo eq_refl). reflexivity. }
  rewrite E. clear E.
  match goal with
  | |- try_catch (bind ?a _) _ = _ => destruct a as [n2 | e]
  end; cbn [bind try_catch]; [| reflexivity].
  rewrite count_other_manifests_ext. reflexivity.
Qed.

Lemma analyzeTechnicalDebt_ext :
  analyzeTechnicalDebt h this = analyzeTechnicalDebt h' this'.
Proof.
  unfold analyzeTechnicalDebt.
  rewrite calculateDuplications_ext, calculateTestCoverage_ext,
    calculateOutdatedDependencies_ext.
  rewrite Hrepo, !Hcommits, !Hpulls, !Hissues. reflexivity.
Qed.

End TwoRuns.

(** The report depends on the client through the results of its methods
    only, and not on the error a file read fails with. *)
Lemma generateHealthReport_ext (host : Host) (this this' : GitHubService) :
  getRepository host this = getRepository host this' ->
  getLanguages this = getLanguages this' ->
  (forall count, getCommits this count = getCommits this' count) ->
  (forall state count, getPullRequests this state count = getPullRequests this' state count) ->
  (forall state count, getIssues this state count = getIssues this' state count) ->
  getWorkflowRuns this = getWorkflowRuns this' ->
  (forall count, getReleases this count = getReleases this' count) ->
  (forall path,
      same_outcome (getFileContent host this path) (getFileContent host this' path)) ->
  (forall path, getDirectoryContents this path = getDirectoryContents this' path) ->
  generateHealthReport host this = generateHealthReport host this'.
Proof.
  intros Hrepo Hlangs Hcommits Hpulls Hissues Hruns Hreleases Hfile Hdir.
  unfold generateHealthReport, analyzeCodeMetrics, analyzeCodeQuality,
    analyzeDeploymentMetrics.
  rewrite (analyzeTechnicalDebt_ext host host this this' Hrepo (fun _ _ => eq_refl)
             Hlangs eq_refl Hfile Hdir Hcommits Hpulls Hissues).
  rewrite Hrepo, Hlangs, Hruns.
  rewrite !Hcommits, !Hpulls, !Hreleases.
  reflexivity.
Qed.

(** ** Which failures fail the report *)

Lemma calculateDuplications_total (host : Host) (this : GitHubService) :
  exists dups, calculateDuplications host this = Ok dups.
Proof. unfold calculateDuplications. apply try_catch_default. Qed.

Lemma calculateTestCoverage_total (host : Host) (this : GitHubService) :
  exists coverage, calculateTestCoverage host this = Ok coverage.
Proof. unfold calculateTestCoverage. apply try_catch_default. Qed.

Lemma calculateOutdatedDependencies_total (host : Host) (this : GitHubService) :
  exists outdated, calculateOutdatedDependencies host this = Ok outdated.
Proof. unfold calculateOutdatedDependencies. apply try_catch_default. Qed.

Lemma analyzeCodeMetrics_Ok_inv (host : Host) (this : GitHubService) (m : CodeMetrics) :
  analyzeCodeMetrics host this = Ok m ->
  exists langs repo,
    getLanguages this = Ok langs /\ getRepository host this = Ok repo
    /\ m = {| totalLines := size repo * 50;
              codeLines := Qfloor (inject_Z (size repo * 50) * 0.75);
              commentLines := Qfloor (inject_Z (size repo * 50) * 0.15);
              blankLines := size repo * 50
                            - Qfloor (inject_Z (size repo * 50) * 0.75)
                            - Qfloor (inject_Z (size repo * 50) * 0.15);
              files := Qfloor (inject_Z (size repo) / 10);
              languages := langs |}.
Proof.
  unfold analyzeCodeMetrics. rewrite try_catch_rethrow. intros H.
  invert_binds H. injection H as <-. eauto.
Qed.









(** ** Two runs over the same forge *)

Lemma getRepository_Ok_any_host (h1 h2 : Host) (this : GitHubService) (repo : Repository) :
  getRepository h1 this = Ok repo -> getRepository h2 this = Ok repo.
Proof.
  unfold getRepository. destruct (get_repo (octokit this)); simpl; [auto | discriminate].
Qed.

Lemma analyzeCodeMetrics_any_host (h1 h2 : Host) (this : GitHubService) (m : CodeMetrics) :
  analyzeCodeMetrics h1 this = Ok m -> analyzeCodeMetrics h2 this = Ok m.
Proof.
  intros H. apply analyzeCodeMetrics_Ok_inv in H.
  destruct H as (langs & repo & Hlangs & Hrepo & ->).
  apply (getRepository_Ok_any_host h1 h2) in Hrepo.
  unfold analyzeCodeMetrics. rewrite Hlangs, Hrepo. reflexivity.
Qed.

Lemma getFileContent_any_host (h1 h2 : Host) (this : GitHubService) (path : string) :
  Buffer_from_base64 h1 = Buffer_from_base64 h2 ->
  getFileContent h1 this path = getFileContent h2 this path.
Proof.
  intros Hbuffer. unfold getFileContent, decode_base64. rewrite Hbuffer. reflexivity.
Qed.

Lemma analyzeTechnicalDebt_same_age (h1 h2 : Host) (this : GitHubService)
    (repo : Repository) :
  Buffer_from_base64 h1 = Buffer_from_base64 h2 ->
  JSON_parse_dependencies h1 = JSON_parse_dependencies h2 ->
  getRepository h1 this = Ok repo ->
  calculateRepositoryAge h1 (created_at repo) = calculateRepositoryAge h2 (created_at repo) ->
  analyzeTechnicalDebt h1 this = analyzeTechnicalDebt h2 this.
Proof.
  intros Hbuffer Hjson Hrepo Hage.
  apply analyzeTechnicalDebt_ext; try reflexivity; try assumption.
  - rewrite Hrepo. symmetry. exact (getRepository_Ok_any_host h1 h2 this repo Hrepo).
  - intros repo' Hrepo'. rewrite Hrepo in Hrepo'. injection Hrepo' as <-. exact Hage.
  - intros path. rewrite (getFileContent_any_host h1 h2 this path Hbuffer).
    apply same_outcome_refl.
Qed.

Lemma analyzeTechnicalDebt_Ok_any_host (h1 h2 : Host) (this : GitHubService)
    (d1 : TechnicalDebt) :
  analyzeTechnicalDebt h1 this = Ok d1 ->
  exists d2, analyzeTechnicalDebt h2 this = Ok d2.
Proof.
  unfold analyzeTechnicalDebt. rewrite !try_catch_rethrow. intros H.
  apply bind_Ok_inv in H. destruct H as (repo & Hrepo & H).
  apply bind_Ok_inv in H. destruct H as (commits & -> & H).
  apply bind_Ok_inv in H. destruct H as (prs & -> & H).
  apply bind_Ok_inv in H. destruct H as (issues & -> & _).
  rewrite (getRepository_Ok_any_host h1 h2 this repo Hrepo).
  destruct (calculateDuplications_total h2 this) as [dups ->].
  destruct (calculateTestCoverage_total h2 this) as [coverage ->].
  destruct (calculateOutdatedDependencies_total h2 this) as [outdated ->].
  cbn [bind]. eauto.
Qed.

Lemma analyzeDeploymentMetrics_Ok_any_host (h1 h2 : Host) (this : GitHubService)
    (d1 : DeploymentMetrics) :
  analyzeDeploymentMetrics h1 this = Ok d1 ->
  exists d2, analyzeDeploymentMetrics h2 this = Ok d2.
Proof.
  intros H. apply analyzeDeploymentMetrics_Ok_inv in H.
  destruct H as (runs & releases & prs & commits & freq & failureRate
                 & Hruns & Hreleases & Hprs & Hcommits & _ & Hrate & _).
  pose proof (calculateChangeFailureRate_Ok_named runs commits failureRate Hrate)
    as Hnamed.
  destruct (calculateDeploymentFrequency_total h2 releases runs Hnamed) as [freq2 Hfreq2].
  unfold analyzeDeploymentMetrics.
  rewrite Hruns, Hreleases, Hprs, Hcommits. cbn [bind].
  rewrite Hfreq2, Hrate. cbn [bind try_catch]. eauto.
Qed.

Lemma Legacy_analyzeTechnicalDebt_agree (h1 h2 : Host) (this : GitHubService)
    (repo : Repository) (d1 : TechnicalDebt) :
  Legacy.getRepository this = Ok repo ->
  Legacy.analyzeTechnicalDebt h1 this = Ok d1 ->
  exists d2,
    Legacy.analyzeTechnicalDebt h2 this = Ok d2
    /\ (calculateRepositoryAge h1 (created_at repo)
        = calculateRepositoryAge h2 (created_at repo) ->
        testCoverage (td_metrics d2) = testCoverage (td_metrics d1) ->
        outdatedDependencies (td_metrics d2) = outdatedDependencies (td_metrics d1) ->
        d2 = d1).
Proof.
  intros Hrepo. unfold Legacy.analyzeTechnicalDebt. rewrite !try_catch_rethrow, Hrepo.
  destruct (getCommits this 30) as [commits | e]; cbn [bind]; [| discriminate].
  intros [= <-]. eexists. split; [reflexivity |].
  cbn [td_metrics testCoverage outdatedDependencies].
  intros -> -> ->. reflexivity.
Qed.

(** C5, as the code has it: when a run over a forge returns a report, so does
    any other run over the same forge, whatever its clock and its random
    draws, with the same repository snapshot, the same CodeMetrics and the
    same CodeQuality; and with the same TechnicalDebt when the age of the
    repository in whole days, as [calculateRepositoryAge] rounds it up, is
    the same in both runs.  The earlier technical-debt estimator returns in
    both runs or in neither, and the same TechnicalDebt when the age in days
    is the same and the two random estimates, test coverage and outdated
    dependencies, come out the same. *)
Theorem runs_agree_at_the_same_age
    (this : GitHubService) (h1 h2 : Host) (r1 : HealthReport) :
  Buffer_from_base64 h1 = Buffer_from_base64 h2 ->
  JSON_parse_dependencies h1 = JSON_parse_dependencies h2 ->
  generateHealthReport h1 this = Ok r1 ->
  (exists r2,
     generateHealthReport h2 this = Ok r2
     /\ repository r2 = repository r1
     /\ codeMetrics r2 = codeMetrics r1
     /\ codeQuality r2 = codeQuality r1
     /\ (calculateRepositoryAge h1 (created_at (repository r1))
         = calculateRepositoryAge h2 (created_at (repository r1)) ->
         technicalDebt r2 = technicalDebt r1))
  /\ (forall repo d1,
         Legacy.getRepository this = Ok repo ->
         Legacy.analyzeTechnicalDebt h1 this = Ok d1 ->
         exists d2,
           Legacy.analyzeTechnicalDebt h2 this = Ok d2
           /\ (calculateRepositoryAge h1 (created_at repo)
               = calculateRepositoryAge h2 (created_at repo) ->
               testCoverage (td_metrics d2) = testCoverage (td_metrics d1) ->
               outdatedDependencies (td_metrics d2) = outdatedDependencies (td_metrics d1) ->
               d2 = d1)).
Proof.
  intros Hbuffer Hjson Hrun1.
  split; [| intros repo d1; apply Legacy_analyzeTechnicalDebt_agree].
  pose proof (generateHealthReport_Ok_inv h1 this r1 Hrun1)
    as (Hrepo1 & Hmetrics1 & Hquality1 & Hdebt1 & Hdeployment1 & _).
  pose proof (getRepository_Ok_any_host h1 h2 this _ Hrepo1) as Hrepo2.
  pose proof (analyzeCodeMetrics_any_host h1 h2 this _ Hmetrics1) as Hmetrics2.
  destruct (analyzeTechnicalDebt_Ok_any_host h1 h2 this _ Hdebt1) as [debt2 Hdebt2].
  destruct (analyzeDeploymentMetrics_Ok_any_host h1 h2 this _ Hdeployment1)
    as [deployment2 Hdeployment2].
  eexists. split.
  { unfold generateHealthReport.
    rewrite Hrepo2, Hmetrics2, Hquality1, Hdebt2, Hdeployment2. reflexivity. }
  cbn [repository codeMetrics codeQuality technicalDebt].
  split; [reflexivity |]. split; [reflexivity |]. split; [reflexivity |].
  intros Hage.
  rewrite (analyzeTechnicalDebt_same_age h1 h2 this _ Hbuffer Hjson Hrepo1 Hage) in Hdebt1.
  congruence.
Qed.

Lemma runs_agree_at_the_same_age_witness :
  let this := new_GitHubService (python_forge epoch_2020) None in
  let h1 := host_at (epoch_2026 + 1) 0.2 in
  let h2 := host_at (epoch_2026 + 3600000) 0.21 in
  (exists r1 r2,
      generateHealthReport h1 this = Ok r1
      /\ generateHealthReport h2 this = Ok r2
      /\ codeMetrics r2 = codeMetrics r1
      /\ codeQuality r2 = codeQuality r1
      /\ technicalDebt r2 = technicalDebt r1
      /\ generatedAt r2 <> generatedAt r1)
  /\ (exists d1 d2,
         Legacy.analyzeTechnicalDebt h1 this = Ok d1
         /\ Legacy.analyzeTechnicalDebt h2 this = Ok d2
         /\ d2 = d1).
Proof.
  cbv zeta.
  assert (Hrun : exists r1,
             generateHealthReport (host_at (epoch_2026 + 1) 0.2)
               (new_GitHubService (python_forge epoch_2020) None) = Ok r1)
    by (eexists; vm_compute; reflexivity).
  destruct Hrun as [r1 Hrun].
  assert (Hlegacy : exists d1,
             Legacy.analyzeTechnicalDebt (host_at (epoch_2026 + 1) 0.2)
               (new_GitHubService (python_forge epoch_2020) None) = Ok d1)
    by (eexists; vm_compute; reflexivity).
  destruct Hlegacy as [d1 Hlegacy].
  destruct (runs_agree_at_the_same_age
              (new_GitHubService (python_forge epoch_2020) None)
              (host_at (epoch_2026 + 1) 0.2) (host_at (epoch_2026 + 3600000) 0.21) r1
              eq_refl eq_refl Hrun)
    as ((r2 & Hrun2 & _ & Hmetrics & Hquality & Hdebt) & Hearlier).
  split.
  - exists r1, r2.
    split; [exact Hrun |]. split; [exact Hrun2 |].
    split; [exact Hmetrics |]. split; [exact Hquality |].
    split.
    + apply Hdebt.
      apply generateHealthReport_Ok_inv in Hrun. destruct Hrun as (Hrepo & _).
      assert (E : Ok (repo_created epoch_2020) = Ok (repository r1)) by exact Hrepo.
      injection E as E. rewrite <- E. vm_compute. reflexivity.
    + apply generateHealthReport_Ok_inv in Hrun, Hrun2.
      destruct Hrun as (_ & _ & _ & _ & _ & _ & _ & ->).
      destruct Hrun2 as (_ & _ & _ & _ & _ & _ & _ & ->).
      vm_compute. discriminate.
  - destruct (Hearlier (repo_created epoch_2020) d1 eq_refl Hlegacy)
      as (d2 & Hlegacy2 & Hsame).
    exists d1, d2. split; [exact Hlegacy |]. split; [exact Hlegacy2 |].
    apply Hsame.
    + vm_compute. reflexivity.
    + vm_compute in Hlegacy, Hlegacy2.
      injection Hlegacy as <-. injection Hlegacy2 as <-. reflexivity.
    + vm_compute in Hlegacy, Hlegacy2.
      injection Hlegacy as <-. injection Hlegacy2 as <-. reflexivity.
Defined.

(** C5, as the specification words it, fails twice.  Over one forge (a
    Python repository created 314 days before 2026-01-01), a run at midnight
    and a run one millisecond later report 10 and 11 percent of duplication:
    the age of the repository passes from 314 to 315 days.  And over one
    forge and one clock, two runs of the earlier technical-debt estimator
    whose random draws are 0.1 and 0.9 report 26 and 74 percent of test
    coverage. *)
Lemma technical_debt_varies_counterexample :
  let this := new_GitHubService (python_forge (epoch_2026 - 314 * day)) None in
  (exists r1 r2,
     generateHealthReport (host_at epoch_2026 0.5) this = Ok r1
     /\ generateHealthReport (host_at (epoch_2026 + 1) 0.5) this = Ok r2
     /\ (duplications (td_metrics (technicalDebt r1)) == 10)%Q
     /\ (duplications (td_metrics (technicalDebt r2)) == 11)%Q
     /\ technicalDebt r1 <> technicalDebt r2)
  /\ (exists d1 d2,
        Legacy.analyzeTechnicalDebt (host_at epoch_2026 0.1) this = Ok d1
        /\ Legacy.analyzeTechnicalDebt (host_at epoch_2026 0.9) this = Ok d2
        /\ testCoverage (td_metrics d1) = 26
        /\ testCoverage (td_metrics d2) = 74
        /\ d1 <> d2).
Proof.
  cbv zeta. split.
  - do 2 eexists.
    split; [vm_compute; reflexivity |]. split; [vm_compute; reflexivity |].
    split; [reflexivity |]. split; [reflexivity |].
    intros H. apply (f_equal (fun d => Qnum (duplications (td_metrics d)))) in H.
    vm_compute in H. discriminate.
  - do 2 eexists.
    split; [vm_compute; reflexivity |]. split; [vm_compute; reflexivity |].
    split; [reflexivity |]. split; [reflexivity |].
    intros H. apply (f_equal (fun d => testCoverage (td_metrics d))) in H.
    vm_compute in H. discriminate.
Qed.

(** * Further properties of the estimators *)

(** ** Commit-message score and code quality *)

Lemma analyzeCommitMessages_at_most_1 (commits : list Commit) :
  (analyzeCommitMessages commits <= 1)%Q.
Proof.
  destruct commits as [| c l]; [simpl; lra |].
  unfold analyzeCommitMessages. apply Q.le_min_r.
Qed.

(** X1: the commit-message score lies between 0 and 1, as its documentation
    says, for every list of commits. *)
Theorem analyzeCommitMessages_between_0_and_1 (commits : list Commit) :
  (0 <= analyzeCommitMessages commits)%Q /\ (analyzeCommitMessages commits <= 1)%Q.
Proof.
  split; [apply analyzeCommitMessages_nonneg | apply analyzeCommitMessages_at_most_1].
Qed.

Lemma analyzeCodeQuality_issues_inv (this : GitHubService) (q : CodeQuality) :
  analyzeCodeQuality this = Ok q ->
  cq_issues q = {| critical := (100 - cq_score q) / 25;
                   high := (100 - cq_score q) / 20;
                   medium := (100 - cq_score q) / 10;
                   low := (100 - cq_score q) / 5 |}.
Proof.
  intros H. destruct (analyzeCodeQuality_Ok_inv this q H) as (commits & Hcommits & _).
  rewrite (analyzeCodeQuality_of_commits this commits Hcommits) in H.
  cbv zeta in H. injection H as <-. reflexivity.
Qed.

(** X2: in every code-quality result the issue counts are bounded by 4
    critical, 5 high, 10 medium and 20 low, none is negative, and a more
    severe class never counts more than a less severe one. *)
Theorem issue_counts_bounded_and_ordered (this : GitHubService) (q : CodeQuality) :
  analyzeCodeQuality this = Ok q ->
  0 <= critical (cq_issues q) <= 4
  /\ 0 <= high (cq_issues q) <= 5
  /\ 0 <= medium (cq_issues q) <= 10
  /\ 0 <= low (cq_issues q) <= 20
  /\ critical (cq_issues q) <= high (cq_issues q)
  /\ high (cq_issues q) <= medium (cq_issues q)
  /\ medium (cq_issues q) <= low (cq_issues q).
Proof.
  intros H. pose proof (code_quality_range this q H) as Hrange.
  rewrite (analyzeCodeQuality_issues_inv this q H). cbn [critical high medium low].
  repeat match goal with |- _ /\ _ => split end; Z.div_mod_to_equations; lia.
Qed.

Lemma issue_counts_bounded_and_ordered_witness :
  exists q,
    analyzeCodeQuality (new_GitHubService (python_forge epoch_2020) None) = Ok q
    /\ 0 <= critical (cq_issues q) <= 4.
Proof.
  assert (Hrun : exists q,
             analyzeCodeQuality (new_GitHubService (python_forge epoch_2020) None) = Ok q)
    by (eexists; vm_compute; reflexivity).
  destruct Hrun as [q Hq]. exists q. split; [exact Hq |].
  exact (proj1 (issue_counts_bounded_and_ordered _ q Hq)).
Defined.

(** X3: a code-quality score of 100 comes with no issue at all and with
    exactly the two generic recommendations: none of the four specific
    rules fires, the one on commit messages included. *)
Theorem perfect_quality_gets_generic_recommendations (this : GitHubService) (q : CodeQuality) :
  analyzeCodeQuality this = Ok q ->
  cq_score q = 100 ->
  cq_issues q = {| critical := 0; high := 0; medium := 0; low := 0 |}
  /\ cq_recommendations q
     = ["Implement automated code reviews to catch issues early.";
        "Add code quality gates to your pull request workflow."].
Proof.
  intros H Hscore.
  pose proof (analyzeCodeQuality_issues_inv this q H) as Hissues.
  rewrite Hscore in Hissues. change ((100 - 100) / 25) with 0 in Hissues.
  change ((100 - 100) / 20) with 0 in Hissues. change ((100 - 100) / 10) with 0 in Hissues.
  change ((100 - 100) / 5) with 0 in Hissues.
  split; [exact Hissues |].
  destruct (analyzeCodeQuality_Ok_inv this q H) as (commits & _ & Hs & ->).
  rewrite Hissues. rewrite Hscore in Hs.
  assert (Hfloor : 100 <= Qfloor (analyzeCommitMessages commits * 100)) by lia.
  assert (Hone : (1 <= analyzeCommitMessages commits)%Q).
  { pose proof (Qfloor_le (analyzeCommitMessages commits * 100)) as Hle.
    rewrite Zle_Qle in Hfloor. change (inject_Z 100) with 100%Q in Hfloor. lra. }
  unfold generateCodeQualityRecommendations. cbn [critical high medium].
  replace (Qlt_bool (analyzeCommitMessages commits) 0.6) with false.
  - reflexivity.
  - symmetry. unfold Qlt_bool. apply negb_false_iff. apply Qle_bool_iff. lra.
Qed.

Lemma perfect_quality_gets_generic_recommendations_witness :
  exists q,
    analyzeCodeQuality
      (new_GitHubService
         (forge_of (Resolved (repo_created epoch_2020))
                   (Resolved [commit_saying long_conventional_message epoch_2026])
                   (Resolved ∅) (fun _ => Rejected not_found)
                   (Resolved no_runs) (Resolved []) (Resolved []) (Resolved []))
         None) = Ok q
    /\ length (cq_recommendations q) = 2%nat.
Proof.
  assert (Hrun : exists q,
             analyzeCodeQuality
               (new_GitHubService
                  (forge_of (Resolved (repo_created epoch_2020))
                     (Resolved [commit_saying long_conventional_message epoch_2026])
                     (Resolved ∅) (fun _ => Rejected not_found)
                     (Resolved no_runs) (Resolved []) (Resolved []) (Resolved []))
                  None) = Ok q /\ cq_score q = 100)
    by (eexists; split; vm_compute; reflexivity).
  destruct Hrun as (q & Hq & Hscore). exists q. split; [exact Hq |].
  destruct (perfect_quality_gets_generic_recommendations _ q Hq Hscore) as [_ ->].
  reflexivity.
Defined.

(** ** Recommendations *)

Ltac recommendation_cases :=
  cbv [len push app length Z.of_nat Pos.of_succ_nat Pos.succ Z.ltb Z.compare Pos.compare
       Pos.compare_cont];
  split; [lia |];
  apply (proj1 (NoDup_ListNoDup _)); apply (bool_decide_unpack _); vm_compute; reflexivity.

(** X4: each of the three generators returns at most four recommendations
    and never the same recommendation twice. *)
Theorem recommendations_at_most_four_distinct :
  (forall issues commits,
      (length (generateCodeQualityRecommendations issues commits) <= 4)%nat
      /\ NoDup (generateCodeQualityRecommendations issues commits))
  /\ (forall metrics,
         (length (generateTechnicalDebtRecommendations metrics) <= 4)%nat
         /\ NoDup (generateTechnicalDebtRecommendations metrics))
  /\ (forall freq lead failureRate recover,
         (length (generateDeploymentRecommendations freq lead failureRate recover) <= 4)%nat
         /\ NoDup (generateDeploymentRecommendations freq lead failureRate recover)).
Proof.
  split; [| split].
  - intros issues commits. unfold generateCodeQualityRecommendations.
    destruct (0 <? critical issues), (0 <? high issues), (3 <? medium issues),
      (Qlt_bool (analyzeCommitMessages commits) 0.6); recommendation_cases.
  - intros metrics. unfold generateTechnicalDebtRecommendations.
    destruct (Qlt_bool 0.5 (complexityScore metrics)),
      (Qlt_bool 15 (duplications metrics)),
      (testCoverage metrics <? 60), (3 <? outdatedDependencies metrics);
      recommendation_cases.
  - intros freq lead failureRate recover. unfold generateDeploymentRecommendations.
    destruct (Qlt_bool freq 1), (Qlt_bool 24 lead), (Qlt_bool 10 failureRate),
      (Qlt_bool 12 recover); recommendation_cases.
Qed.

(** ** Deployment score, overall score, benchmark *)

Lemma Qmin_monotone (a b c : Q) : (a <= b -> Qmin a c <= Qmin b c)%Q.
Proof.
  intros H. apply Q.min_glb.
  - eapply Qle_trans; [apply Q.le_min_l | exact H].
  - apply Q.le_min_r.
Qed.

Lemma Qmax_monotone (a b c : Q) : (a <= b -> Qmax c a <= Qmax c b)%Q.
Proof.
  intros H. apply Q.max_lub.
  - apply Q.le_max_l.
  - eapply Qle_trans; [exact H | apply Q.le_max_r].
Qed.

Lemma Qdiv_2_monotone (a b : Q) : (a <= b -> a / 2 <= b / 2)%Q.
Proof.
  intros H. unfold Qdiv. apply Qmult_le_compat_r; [exact H |].
  vm_compute. discriminate.
Qed.

(** X5: the deployment score never drops when deployments get more
    frequent, lead time shorter, failures rarer or recovery faster. *)
Theorem calculateDeploymentScore_monotone
    (freq freq' lead lead' failureRate failureRate' recover recover' : Q) :
  (freq <= freq')%Q -> (lead' <= lead)%Q ->
  (failureRate' <= failureRate)%Q -> (recover' <= recover)%Q ->
  calculateDeploymentScore freq lead failureRate recover
  <= calculateDeploymentScore freq' lead' failureRate' recover'.
Proof.
  intros Hf Hl Hc Hr. unfold calculateDeploymentScore. apply Qfloor_resp_le.
  assert (H1 : (Qmin (freq * 10) 30 <= Qmin (freq' * 10) 30)%Q)
    by (apply Qmin_monotone; lra).
  assert (H2 : (Qmax 0 (30 - lead / 2) <= Qmax 0 (30 - lead' / 2))%Q).
  { apply Qmax_monotone. pose proof (Qdiv_2_monotone lead' lead Hl). lra. }
  assert (H3 : (Qmax 0 (25 - failureRate) <= Qmax 0 (25 - failureRate'))%Q)
    by (apply Qmax_monotone; lra).
  assert (H4 : (Qmax 0 (15 - recover / 2) <= Qmax 0 (15 - recover' / 2))%Q).
  { apply Qmax_monotone. pose proof (Qdiv_2_monotone recover' recover Hr). lra. }
  lra.
Qed.

Lemma calculateDeploymentScore_monotone_witness :
  calculateDeploymentScore 1 48 20 24 <= calculateDeploymentScore 3 12 5 4.
Proof.
  apply calculateDeploymentScore_monotone; vm_compute; discriminate.
Defined.

(** X6: the overall score of a report is never below the lowest of its
    three section scores and never above the highest. *)
Theorem overall_score_between_sections
    (host : Host) (this : GitHubService) (report : HealthReport) :
  generateHealthReport host this = Ok report ->
  let a := cq_score (codeQuality report) in
  let b := td_score (technicalDebt report) in
  let c := dm_score (deploymentMetrics report) in
  Z.min a (Z.min b c) <= overallScore report <= Z.max a (Z.max b c).
Proof.
  intros H a b c. apply generateHealthReport_Ok_inv in H.
  destruct H as (_ & _ & _ & _ & _ & -> & _). fold a b c.
  set (lo := Z.min a (Z.min b c)). set (hi := Z.max a (Z.max b c)).
  assert (Ha : lo <= a <= hi) by lia.
  assert (Hb : lo <= b <= hi) by lia.
  assert (Hc : lo <= c <= hi) by lia.
  destruct Ha as [Ha Ha'], Hb as [Hb Hb'], Hc as [Hc Hc'].
  rewrite Zle_Qle in Ha, Ha', Hb, Hb', Hc, Hc'.
  apply Qfloor_between; lra.
Qed.

Lemma overall_score_between_sections_witness :
  exists report,
    generateHealthReport (host_at epoch_2026 0.5)
                         (new_GitHubService (python_forge epoch_2020) None) = Ok report
    /\ overallScore report <= 70.
Proof.
  assert (Hrun : exists report,
             generateHealthReport (host_at epoch_2026 0.5)
               (new_GitHubService (python_forge epoch_2020) None) = Ok report
             /\ Z.max (cq_score (codeQuality report))
                      (Z.max (td_score (technicalDebt report))
                             (dm_score (deploymentMetrics report))) = 70)
    by (eexists; split; vm_compute; reflexivity).
  destruct Hrun as (report & Hrun & Hmax). exists report. split; [exact Hrun |].
  pose proof (overall_score_between_sections _ _ report Hrun) as H.
  cbv zeta in H. rewrite Hmax in H. exact (proj2 H).
Defined.

(** X7: when the random source draws from [0,1), the benchmark score of a
    report lies between 50 and 79. *)
Theorem benchmark_between_50_and_79
    (host : Host) (this : GitHubService) (report : HealthReport) :
  (0 <= Math_random host 0%nat)%Q -> (Math_random host 0%nat < 1)%Q ->
  generateHealthReport host this = Ok report ->
  50 <= benchmarkScore report <= 79.
Proof.
  intros Hlo Hhi H. apply generateHealthReport_Ok_inv in H.
  destruct H as (_ & _ & _ & _ & _ & _ & -> & _).
  assert (0 <= Qfloor (Math_random host 0%nat * 30) <= 29); [| lia].
  split.
  - rewrite <- (Qfloor_Z 0). apply Qfloor_resp_le. change (inject_Z 0) with 0%Q. lra.
  - assert (Qfloor (Math_random host 0%nat * 30) < 30); [| lia].
    rewrite Zlt_Qlt. change (inject_Z 30) with 30%Q.
    eapply Qle_lt_trans; [apply Qfloor_le | lra].
Qed.

Lemma benchmark_between_50_and_79_witness :
  exists report,
    generateHealthReport (host_at epoch_2026 0.5)
                         (new_GitHubService (python_forge epoch_2020) None) = Ok report
    /\ 50 <= benchmarkScore report <= 79.
Proof.
  assert (Hrun : exists report,
             generateHealthReport (host_at epoch_2026 0.5)
               (new_GitHubService (python_forge epoch_2020) None) = Ok report)
    by (eexists; vm_compute; reflexivity).
  destruct Hrun as [report Hrun]. exists report. split; [exact Hrun |].
  apply (benchmark_between_50_and_79 (host_at epoch_2026 0.5)
           (new_GitHubService (python_forge epoch_2020) None) report);
    [vm_compute; discriminate | vm_compute; reflexivity | exact Hrun].
Defined.

(** ** Technical-debt metrics *)

Lemma calculateRepositoryAge_nonneg (host : Host) (created : Z) :
  0 <= calculateRepositoryAge host created.
Proof.
  unfold calculateRepositoryAge.
  set (x := (inject_Z (Z.abs (Date_now host - created))
             / inject_Z (1000 * 60 * 60 * 24))%Q).
  assert (Hx : (0 <= x)%Q).
  { apply Qdiv_nonneg; apply inject_Z_nonneg; lia. }
  pose proof (Qle_ceiling x) as Hceil.
  rewrite Zle_Qle. change (inject_Z 0) with 0%Q. lra.
Qed.

Lemma repoAgeInMonths_nonneg (host : Host) (created : Z) :
  (0 <= inject_Z (calculateRepositoryAge host created) / 30)%Q.
Proof.
  apply Qdiv_nonneg; [| lra].
  apply inject_Z_nonneg, calculateRepositoryAge_nonneg.
Qed.

Lemma calculateDuplications_range (host : Host) (this : GitHubService) :
  exists dups,
    calculateDuplications host this = Ok dups /\ (0 <= dups)%Q /\ (dups <= 40)%Q.
Proof.
  unfold calculateDuplications.
  destruct (getLanguages this) as [langs | e]; cbn [bind try_catch];
    [| exists 15%Q; repeat split; lra].
  destruct (getRepository host this) as [repo | e]; cbn [bind try_catch];
    [| exists 15%Q; repeat split; lra].
  eexists. split; [reflexivity |].
  pose proof (repoAgeInMonths_nonneg host (created_at repo)) as Hage.
  set (months := (inject_Z (calculateRepositoryAge host (created_at repo)) / 30)%Q) in *.
  assert (Hbase : (0 <= 0 + Qmin months 25)%Q).
  { assert (0 <= Qmin months 25)%Q by (apply Q.min_glb; lra). lra. }
  split; [| apply Q.le_min_r].
  apply Q.min_glb; [| lra].
  destruct (3 <? Z.of_nat (stdpp.base.size langs)) eqn:Hkeys; [| exact Hbase].
  apply Z.ltb_lt in Hkeys.
  assert (0 <= inject_Z ((Z.of_nat (stdpp.base.size langs) - 3) * 2))%Q
    by (apply inject_Z_nonneg; lia).
  lra.
Qed.

Lemma root_counters_sound (items : list ContentItem) (counters : Z * Z) :
  counters_sound counters ->
  counters_sound
    (fold_left (fun '(testScore, indicators) item =>
                  if names_a_test item then (testScore + 15, indicators + 1)
                  else (testScore, indicators))
               items counters).
Proof.
  revert counters. induction items as [| item l IH]; intros [ts ind] H; simpl.
  - exact H.
  - apply IH. destruct (names_a_test item); [| exact H].
    unfold counters_sound in *. simpl in *. lia.
Qed.

Lemma coverage_of_counters (counters : Z * Z) :
  counters_sound counters ->
  5 <= (if snd counters =? 0 then 5 else Z.min (fst counters) 95) <= 95.
Proof.
  intros [Hind Hscore]. destruct (snd counters =? 0) eqn:Hzero; [lia |].
  apply Z.eqb_neq in Hzero. lia.
Qed.

Lemma calculateTestCoverage_range (host : Host) (this : GitHubService) :
  exists coverage,
    calculateTestCoverage host this = Ok coverage /\ 5 <= coverage <= 95.
Proof.
  unfold calculateTestCoverage.
  destruct (getDirectoryContents_total this EmptyString) as [rootContents ->].
  cbn [bind].
  destruct (getLanguages this) as [langs | e]; cbn [bind try_catch];
    [| exists 25; split; [reflexivity | lia]].
  pose proof (root_counters_sound rootContents (0, 0)) as Hroot.
  set (c0 := fold_left _ rootContents (0, 0)) in *.
  assert (H0 : counters_sound c0) by (apply Hroot; unfold counters_sound; simpl; lia).
  clearbody c0. clear Hroot.
  assert (H1 : exists c1,
             try_catch
               (if js_or_ts langs
                then do packageJson <- getFileContent host this "package.json";
                     if mentions_tests packageJson
                     then Ok (fst c0 + 20, snd c0 + 1) else Ok c0
                else Ok c0)
               (fun _ => Ok c0) = Ok c1 /\ counters_sound c1).
  { destruct (js_or_ts langs); [| exists c0; split; [reflexivity | exact H0]].
    destruct (getFileContent host this "package.json") as [packageJson | e];
      cbn [bind try_catch]; [| exists c0; split; [reflexivity | exact H0]].
    destruct (mentions_tests packageJson); cbn [try_catch];
      [| exists c0; split; [reflexivity | exact H0]].
    eexists. split; [reflexivity |]. unfold counters_sound in *. simpl. lia. }
  destruct H1 as (c1 & -> & H1). cbn [bind].
  assert (H2 : exists c2,
             try_catch
               (do workflows <- getDirectoryContents this ".github/workflows";
                if 0 <? len workflows
                then Ok (fst c1 + 10, snd c1 + 1) else Ok c1)
               (fun _ => Ok c1) = Ok c2 /\ counters_sound c2).
  { destruct (getDirectoryContents_total this ".github/workflows") as [workflows ->].
    cbn [bind]. destruct (0 <? len workflows); cbn [try_catch];
      [| exists c1; split; [reflexivity | exact H1]].
    eexists. split; [reflexivity |]. unfold counters_sound in *. simpl. lia. }
  destruct H2 as (c2 & -> & H2). cbn [bind].
  pose proof (coverage_of_counters c2 H2) as Hfinal.
  destruct (snd c2 =? 0); cbn [try_catch]; eexists; (split; [reflexivity | exact Hfinal]).
Qed.

Lemma count_other_manifests_nonneg (host : Host) (this : GitHubService)
    (filesToTry : list string) (outdatedCount : Z) :
  0 <= outdatedCount -> 0 <= count_other_manifests host this filesToTry outdatedCount.
Proof.
  intros Hcount.
  induction filesToTry as [| file rest IH]; cbn [count_other_manifests];
    [exact Hcount |].
  destruct (getFileContent host this file) as [content | e]; cbn [bind]; [| exact IH].
  destruct (getRepository host this) as [repo | e]; cbn [bind]; [| exact IH].
  assert (0 <= Qfloor (inject_Z (calculateRepositoryAge host (created_at repo)) / 30 / 6)).
  { rewrite <- (Qfloor_Z 0). apply Qfloor_resp_le. change (inject_Z 0) with 0%Q.
    apply Qdiv_nonneg; [apply repoAgeInMonths_nonneg | lra]. }
  lia.
Qed.

Lemma calculateOutdatedDependencies_range (host : Host) (this : GitHubService) :
  exists outdated,
    calculateOutdatedDependencies host this = Ok outdated /\ 0 <= outdated <= 20.
Proof.
  unfold calculateOutdatedDependencies.
  destruct (getLanguages this) as [langs | e]; cbn [bind try_catch];
    [| exists 2; split; [reflexivity | lia]].
  assert (H1 : exists n1,
             (if js_or_ts langs
              then try_catch
                     (do packageJson <- getFileContent host this "package.json";
                      do depCount <- match JSON_parse_dependencies host packageJson with
                                     | Some n => Ok n
                                     | None => Throw SyntaxError
                                     end;
                      do repo <- getRepository host this;
                      Ok (0 + Qfloor (inject_Z (Z.of_nat depCount) / 10
                                      * (inject_Z (calculateRepositoryAge host (created_at repo))
                                         / 30 / 6))))
                     (fun _ => Ok 0)
              else Ok 0) = Ok n1 /\ 0 <= n1).
  { destruct (js_or_ts langs); [| exists 0; split; [reflexivity | lia]].
    destruct (getFileContent host this "package.json") as [packageJson | e];
      cbn [bind try_catch]; [| exists 0; split; [reflexivity | lia]].
    destruct (JSON_parse_dependencies host packageJson) as [depCount |];
      cbn [bind try_catch]; [| exists 0; split; [reflexivity | lia]].
    destruct (getRepository host this) as [repo | e]; cbn [bind try_catch];
      [| exists 0; split; [reflexivity | lia]].
    eexists. split; [reflexivity |].
    assert (0 <= Qfloor (inject_Z (Z.of_nat depCount) / 10
                         * (inject_Z (calculateRepositoryAge host (created_at repo))
                            / 30 / 6))); [| lia].
    rewrite <- (Qfloor_Z 0). apply Qfloor_resp_le. change (inject_Z 0) with 0%Q.
    apply Qmult_le_0_compat.
    - apply Qdiv_nonneg; [apply inject_Z_nonneg; lia | lra].
    - apply Qdiv_nonneg; [apply repoAgeInMonths_nonneg | lra]. }
  destruct H1 as (n1 & -> & H1). cbn [bind].
  assert (H2 : exists n2,
             (if truthy_number (langs !! "Python")
              then try_catch
                     (do await getFileContent host this "requirements.txt";
                      do repo <- getRepository host this;
                      Ok (n1 + Qfloor (inject_Z (calculateRepositoryAge host (created_at repo))
                                       / 30 / 4)))
                     (fun _ => Ok n1)
              else Ok n1) = Ok n2 /\ 0 <= n2).
  { destruct (truthy_number (langs !! "Python")); [| exists n1; split; [reflexivity | lia]].
    destruct (getFileContent host this "requirements.txt") as [content | e];
      cbn [bind try_catch]; [| exists n1; split; [reflexivity | lia]].
    destruct (getRepository host this) as [repo | e]; cbn [bind try_catch];
      [| exists n1; split; [reflexivity | lia]].
    eexists. split; [reflexivity |].
    assert (0 <= Qfloor (inject_Z (calculateRepositoryAge host (created_at repo)) / 30 / 4));
      [| lia].
    rewrite <- (Qfloor_Z 0). apply Qfloor_resp_le. change (inject_Z 0) with 0%Q.
    apply Qdiv_nonneg; [apply repoAgeInMonths_nonneg | lra]. }
  destruct H2 as (n2 & -> & H2). cbn [bind try_catch].
  pose proof (count_other_manifests_nonneg host this depFiles n2 H2) as H3.
  eexists. split; [reflexivity |]. lia.
Qed.

(** X8: [calculateDuplications] never throws and answers a percentage
    between 0 and 40; when the languages or the repository cannot be fetched
    the answer is 15. *)
Theorem calculateDuplications_between_0_and_40 (host : Host) (this : GitHubService) :
  (exists dups,
     calculateDuplications host this = Ok dups /\ (0 <= dups)%Q /\ (dups <= 40)%Q)
  /\ (forall e, getLanguages this = Throw e \/ getRepository host this = Throw e ->
                calculateDuplications host this = Ok 15%Q).
Proof.
  split; [apply calculateDuplications_range |].
  intros e [H | H]; unfold calculateDuplications.
  - rewrite H. reflexivity.
  - destruct (getLanguages this); cbn [bind try_catch]; [rewrite H |]; reflexivity.
Qed.

(** X9: [calculateTestCoverage] never throws and answers a percentage
    between 5 and 95; when the languages cannot be fetched the answer is
    25. *)
Theorem calculateTestCoverage_between_5_and_95 (host : Host) (this : GitHubService) :
  (exists coverage,
     calculateTestCoverage host this = Ok coverage /\ 5 <= coverage <= 95)
  /\ (forall e, getLanguages this = Throw e -> calculateTestCoverage host this = Ok 25).
Proof.
  split; [apply calculateTestCoverage_range |].
  intros e H. unfold calculateTestCoverage.
  destruct (getDirectoryContents_total this EmptyString) as [rootContents ->].
  cbn [bind]. rewrite H. reflexivity.
Qed.

(** X10: [calculateOutdatedDependencies] never throws and answers a count
    between 0 and 20, whatever the manifests hold and whichever of their
    reads fail; when the languages cannot be fetched the answer is 2. *)
Theorem calculateOutdatedDependencies_between_0_and_20
    (host : Host) (this : GitHubService) :
  (exists outdated,
     calculateOutdatedDependencies host this = Ok outdated /\ 0 <= outdated <= 20)
  /\ (forall e, getLanguages this = Throw e ->
                calculateOutdatedDependencies host this = Ok 2).
Proof.
  split; [apply calculateOutdatedDependencies_range |].
  intros e H. unfold calculateOutdatedDependencies. rewrite H. reflexivity.
Qed.

Lemma toFixed2_unit (x : Q) :
  (0 <= x)%Q -> (x <= 1)%Q -> (0 <= toFixed2 x)%Q /\ (toFixed2 x <= 1)%Q.
Proof.
  intros Hlo Hhi. unfold toFixed2.
  replace (Qle_bool 0 x) with true by (symmetry; apply Qle_bool_iff; exact Hlo).
  assert (Hfloor : 0 <= Qfloor (x * 100 + 0.5) <= 100).
  { split.
    - rewrite <- (Qfloor_Z 0). apply Qfloor_resp_le. change (inject_Z 0) with 0%Q. lra.
    - assert (Qfloor (x * 100 + 0.5) < 101); [| lia].
      rewrite Zlt_Qlt. change (inject_Z 101) with 101%Q.
      eapply Qle_lt_trans; [apply Qfloor_le | lra]. }
  destruct Hfloor as [H0 H100]. rewrite Zle_Qle in H0, H100.
  change (inject_Z 0) with 0%Q in H0. change (inject_Z 100) with 100%Q in H100.
  split.
  - apply Qle_shift_div_l; lra.
  - apply Qle_shift_div_r; lra.
Qed.

Lemma Math_round_between (x : Q) (lo hi : Z) :
  (inject_Z lo <= x)%Q -> (x <= inject_Z hi)%Q -> lo <= Math_round x <= hi.
Proof.
  intros Hlo Hhi. unfold Math_round. split.
  - rewrite <- (Qfloor_Z lo). apply Qfloor_resp_le. lra.
  - assert (Qfloor (x + 0.5) < hi + 1); [| lia].
    rewrite Zlt_Qlt, inject_Z_plus. change (inject_Z 1) with 1%Q.
    eapply Qle_lt_trans; [apply Qfloor_le | lra].
Qed.

Lemma Math_round_integer (n : Z) : Math_round (inject_Z n) = n.
Proof.
  pose proof (Math_round_between (inject_Z n) n n) as H.
  assert (n <= Math_round (inject_Z n) <= n) by (apply H; lra). lia.
Qed.

Lemma calculateComplexityScore_unit (commits : list Commit) (prs : list PullRequest) :
  (0 <= calculateComplexityScore commits prs)%Q
  /\ (calculateComplexityScore commits prs <= 1)%Q.
Proof.
  unfold calculateComplexityScore. split; [apply Q.le_max_l |].
  apply Q.max_lub; [lra | apply Q.le_min_l].
Qed.

Lemma analyzeTechnicalDebt_metrics_inv (host : Host) (this : GitHubService)
    (d : TechnicalDebt) :
  analyzeTechnicalDebt host this = Ok d ->
  exists commits prs dups coverage outdated,
    calculateDuplications host this = Ok dups
    /\ calculateTestCoverage host this = Ok coverage
    /\ calculateOutdatedDependencies host this = Ok outdated
    /\ td_metrics d
       = {| complexityScore := toFixed2 (calculateComplexityScore commits prs);
            duplications := inject_Z (Math_round dups);
            testCoverage := Math_round (inject_Z coverage);
            outdatedDependencies := outdated |}.
Proof.
  unfold analyzeTechnicalDebt. rewrite try_catch_rethrow. intros H.
  invert_binds H. injection H as <-. cbn [td_metrics].
  do 5 eexists.
  repeat match goal with |- _ /\ _ => split end; first [eassumption | reflexivity].
Qed.

(** X11: in every technical-debt result the reported metrics are in range:
    complexity between 0 and 1, duplication between 0 and 40 percent, test
    coverage between 5 and 95 percent, outdated dependencies between 0 and
    20. *)
Theorem technical_debt_metrics_in_range
    (host : Host) (this : GitHubService) (d : TechnicalDebt) :
  analyzeTechnicalDebt host this = Ok d ->
  (0 <= complexityScore (td_metrics d))%Q /\ (complexityScore (td_metrics d) <= 1)%Q
  /\ (0 <= duplications (td_metrics d))%Q /\ (duplications (td_metrics d) <= 40)%Q
  /\ 5 <= testCoverage (td_metrics d) <= 95
  /\ 0 <= outdatedDependencies (td_metrics d) <= 20.
Proof.
  intros H. apply analyzeTechnicalDebt_metrics_inv in H.
  destruct H as (commits & prs & dups & coverage & outdated & Hd & Hc & Ho & ->).
  cbn [complexityScore duplications testCoverage outdatedDependencies].
  destruct (calculateComplexityScore_unit commits prs) as [Hc0 Hc1].
  destruct (toFixed2_unit _ Hc0 Hc1) as [Hf0 Hf1].
  destruct (calculateDuplications_range host this) as (dups' & Hd' & Hd0 & Hd40).
  rewrite Hd in Hd'. injection Hd' as <-.
  destruct (calculateTestCoverage_range host this) as (coverage' & Hc' & Hcov).
  rewrite Hc in Hc'. injection Hc' as <-.
  destruct (calculateOutdatedDependencies_range host this)
    as (outdated' & Ho' & Hout).
  rewrite Ho in Ho'. injection Ho' as <-.
  assert (Hround : 0 <= Math_round dups <= 40)
    by (apply Math_round_between; [change (inject_Z 0) with 0%Q
                                  | change (inject_Z 40) with 40%Q]; lra).
  destruct Hround as [Hr0 Hr40]. rewrite Zle_Qle in Hr0, Hr40.
  rewrite Math_round_integer.
  repeat match goal with |- _ /\ _ => split end; try assumption; lia.
Qed.

Lemma technical_debt_metrics_in_range_witness :
  exists d,
    analyzeTechnicalDebt (host_at epoch_2026 0.5)
                         (new_GitHubService (python_forge epoch_2020) None) = Ok d
    /\ 5 <= testCoverage (td_metrics d) <= 95.
Proof.
  assert (Hrun : exists d,
             analyzeTechnicalDebt (host_at epoch_2026 0.5)
               (new_GitHubService (python_forge epoch_2020) None) = Ok d)
    by (eexists; vm_compute; reflexivity).
  destruct Hrun as [d Hd]. exists d. split; [exact Hd |].
  exact (proj1 (proj2 (proj2 (proj2 (proj2
           (technical_debt_metrics_in_range _ _ d Hd)))))).
Defined.

Lemma review_score_unit (prs : list PullRequest) :
  (0 <= review_score prs)%Q /\ (review_score prs <= 1)%Q.
Proof.
  unfold review_score. destruct (0 <? len prs) eqn:Hlen; [| split; lra].
  apply Z.ltb_lt in Hlen.
  split; [apply Qdiv_nonneg; apply inject_len_nonneg |].
  apply Qle_shift_div_r.
  - change 0%Q with (inject_Z 0). rewrite <- Zlt_Qlt. exact Hlen.
  - rewrite Qmult_1_l. rewrite <- Zle_Qle. unfold len.
    apply Nat2Z.inj_le. apply List.filter_length_le.
Qed.

(** X12: the complexity score is exactly one minus the blend of 60 percent
    commit-message score and 40 percent review share; the clamping to
    [0,1] never changes it, both ingredients being between 0 and 1. *)
Theorem complexity_is_the_weighted_blend (commits : list Commit) (prs : list PullRequest) :
  (calculateComplexityScore commits prs
   == 1 - (analyzeCommitMessages commits * 0.6 + review_score prs * 0.4))%Q
  /\ (0 <= review_score prs)%Q /\ (review_score prs <= 1)%Q.
Proof.
  destruct (review_score_unit prs) as [Hr0 Hr1].
  pose proof (analyzeCommitMessages_nonneg commits) as Hs0.
  pose proof (analyzeCommitMessages_at_most_1 commits) as Hs1.
  split; [| split; assumption].
  unfold calculateComplexityScore. fold (review_score prs).
  set (c := (1 - (analyzeCommitMessages commits * 0.6 + review_score prs * 0.4))%Q).
  assert (Hc0 : (0 <= c)%Q) by (unfold c; lra).
  assert (Hc1 : (c <= 1)%Q) by (unfold c; lra).
  assert (Hmin : (Qmin 1 c == c)%Q) by (apply Q.min_r; exact Hc1).
  apply Qeq_trans with (Qmin 1 c); [| exact Hmin].
  apply Q.max_r. apply Qle_trans with c; [exact Hc0 |].
  apply Qle_lteq. right. apply Qeq_sym. exact Hmin.
Qed.

(** ** Deployment metrics *)

Lemma share_percent_range {A} (f : A -> bool) (whole : list A) :
  0 < len whole ->
  (0 <= inject_Z (len (List.filter f whole)) / inject_Z (len whole) * 100)%Q
  /\ (inject_Z (len (List.filter f whole)) / inject_Z (len whole) * 100 <= 100)%Q.
Proof.
  intros Hpos. split; [apply ratio_percent_nonneg |].
  assert (Hshare : (inject_Z (len (List.filter f whole)) / inject_Z (len whole) <= 1)%Q).
  { apply Qle_shift_div_r.
    - change 0%Q with (inject_Z 0). rewrite <- Zlt_Qlt. exact Hpos.
    - rewrite Qmult_1_l. rewrite <- Zle_Qle. unfold len.
      apply Nat2Z.inj_le. apply List.filter_length_le. }
  set (share := (inject_Z (len (List.filter f whole)) / inject_Z (len whole))%Q) in *.
  lra.
Qed.

Lemma calculateChangeFailureRate_at_most_100
    (runs : WorkflowRuns) (commits : list Commit) (rate : Q) :
  calculateChangeFailureRate runs commits = Ok rate -> (rate <= 100)%Q.
Proof.
  unfold calculateChangeFailureRate.
  destruct (len (workflow_runs runs) =? 0) eqn:Hruns.
  - destruct (0 <? len commits) eqn:Hcommits; intros [= <-]; [| lra].
    apply Z.ltb_lt in Hcommits. apply share_percent_range. exact Hcommits.
  - apply Z.eqb_neq in Hruns. pose proof (len_nonneg (workflow_runs runs)) as Hlen.
    intros H. apply bind_Ok_inv in H. destruct H as (deploymentRuns & _ & H).
    destruct (len deploymentRuns =? 0) eqn:Hdeploy; injection H as <-.
    + apply share_percent_range. lia.
    + apply Z.eqb_neq in Hdeploy. pose proof (len_nonneg deploymentRuns).
      apply share_percent_range. lia.
Qed.

(** X13: whenever [calculateChangeFailureRate] returns, the change failure
    rate is a percentage between 0 and 100, whether it is taken from the
    deployment runs, from all runs, or from the reverting commits; it does
    return when every workflow run has a name, and it is 0 when there is
    neither a run nor a commit. *)
Theorem calculateChangeFailureRate_is_a_percentage
    (runs : WorkflowRuns) (commits : list Commit) :
  (forall rate, calculateChangeFailureRate runs commits = Ok rate ->
                (0 <= rate)%Q /\ (rate <= 100)%Q)
  /\ (Forall (fun run => run_name run <> None) (workflow_runs runs) ->
      exists rate, calculateChangeFailureRate runs commits = Ok rate)
  /\ (workflow_runs runs = [] -> commits = [] ->
      calculateChangeFailureRate runs commits = Ok 0%Q).
Proof.
  split.
  { intros rate H. split.
    - exact (calculateChangeFailureRate_nonneg runs commits rate H).
    - exact (calculateChangeFailureRate_at_most_100 runs commits rate H). }
  split; [apply calculateChangeFailureRate_total |].
  intros Hruns Hcommits. unfold calculateChangeFailureRate.
  rewrite Hruns, Hcommits. reflexivity.
Qed.

Lemma recovery_gaps_bounds (fixCommits : list Commit) (acc : Q * Z) :
  0 <= snd acc ->
  (inject_Z (snd acc) <= fst acc)%Q ->
  (fst acc <= 168 * inject_Z (snd acc))%Q ->
  0 <= snd (recovery_gaps fixCommits acc)
  /\ (inject_Z (snd (recovery_gaps fixCommits acc)) <= fst (recovery_gaps fixCommits acc))%Q
  /\ (fst (recovery_gaps fixCommits acc)
      <= 168 * inject_Z (snd (recovery_gaps fixCommits acc)))%Q.
Proof.
  revert acc. induction fixCommits as [| c l IH]; intros acc Hcount Hlo Hhi.
  - simpl. auto.
  - destruct l as [| c' l']; [simpl; auto |].
    change (recovery_gaps (c :: c' :: l') acc)
      with (let timeDiff :=
              (inject_Z (Z.abs (author_date c - author_date c'))
               / inject_Z (1000 * 60 * 60))%Q in
            recovery_gaps (c' :: l')
              (if Qle_bool 1 timeDiff && Qle_bool timeDiff 168
               then ((fst acc + timeDiff)%Q, snd acc + 1) else acc)).
    cbv zeta.
    set (timeDiff := (inject_Z (Z.abs (author_date c - author_date c'))
                      / inject_Z (1000 * 60 * 60))%Q).
    destruct (Qle_bool 1 timeDiff) eqn:Hone; cbn [andb]; [| apply IH; assumption].
    destruct (Qle_bool timeDiff 168) eqn:Hweek; [| apply IH; assumption].
    apply Qle_bool_iff in Hone, Hweek.
    apply IH; cbn [fst snd].
    + lia.
    + rewrite inject_Z_plus. change (inject_Z 1) with 1%Q. lra.
    + rewrite inject_Z_plus. change (inject_Z 1) with 1%Q. lra.
Qed.

Lemma calculateMeanTimeToRecover_at_least_1
    (host : Host) (commits : list Commit) (prs : list PullRequest) :
  (1 <= calculateMeanTimeToRecover host commits prs)%Q.
Proof.
  unfold calculateMeanTimeToRecover.
  destruct (len (List.filter is_fix commits) =? 0); [lra |].
  destruct (recovery_gaps_bounds (List.filter is_fix commits) (0%Q, 0))
    as (Hcount & Hlo & Hhi);
    [cbn [snd]; lia
    | cbn [fst snd]; change (inject_Z 0) with 0%Q; lra
    | cbn [fst snd]; change (inject_Z 0) with 0%Q; lra |].
  destruct (recovery_gaps _ _) as [totalRecoveryTime recoveryInstances].
  cbn [fst snd] in *.
  destruct (0 <? recoveryInstances) eqn:Hpos.
  - apply Z.ltb_lt in Hpos. apply Qle_shift_div_l.
    + change 0%Q with (inject_Z 0). rewrite <- Zlt_Qlt. exact Hpos.
    + lra.
  - destruct (0 <? len _); [apply Q.le_max_l | lra].
Qed.

(** X14: the mean time to recover is never under one hour, and it is 12
    hours when no commit message mentions a fix. *)
Theorem mean_time_to_recover_at_least_an_hour
    (host : Host) (commits : list Commit) (prs : list PullRequest) :
  (1 <= calculateMeanTimeToRecover host commits prs)%Q
  /\ (List.filter is_fix commits = [] ->
      calculateMeanTimeToRecover host commits prs = 12%Q).
Proof.
  split; [apply calculateMeanTimeToRecover_at_least_1 |].
  intros H. unfold calculateMeanTimeToRecover. rewrite H. reflexivity.
Qed.

Lemma lead_time_sample_positive (host : Host) (releases : list Release)
    (acc : Q * Z) (pr : PullRequest) :
  0 <= snd acc -> (0 <= fst acc)%Q -> (0 < snd acc -> (0 < fst acc)%Q) ->
  0 <= snd (lead_time_sample host releases acc pr)
  /\ (0 <= fst (lead_time_sample host releases acc pr))%Q
  /\ (0 < snd (lead_time_sample host releases acc pr) ->
      (0 < fst (lead_time_sample host releases acc pr))%Q).
Proof.
  intros Hcount Hsum Hpos. unfold lead_time_sample.
  destruct (find _ releases) as [nextRelease |]; [| auto].
  destruct (Qlt_bool 0 _) eqn:Hlead; cbn [andb]; [| auto].
  destruct (Qlt_bool _ (inject_Z (30 * 24))); [| auto].
  apply Qlt_bool_true in Hlead. cbn [fst snd].
  repeat split; [lia | lra | intros _; lra].
Qed.

Lemma lead_time_samples_positive (host : Host) (releases : list Release)
    (prs : list PullRequest) (acc : Q * Z) :
  0 <= snd acc -> (0 <= fst acc)%Q -> (0 < snd acc -> (0 < fst acc)%Q) ->
  0 < snd (fold_left (lead_time_sample host releases) prs acc) ->
  (0 < fst (fold_left (lead_time_sample host releases) prs acc))%Q.
Proof.
  revert acc. induction prs as [| pr l IH]; intros acc Hcount Hsum Hpos; simpl.
  - exact Hpos.
  - destruct (lead_time_sample_positive host releases acc pr Hcount Hsum Hpos)
      as (H1 & H2 & H3).
    apply IH; assumption.
Qed.

Lemma calculateLeadTime_positive (host : Host) (prs : list PullRequest)
    (releases : list Release) (commits : list Commit) :
  (0 < calculateLeadTime host prs releases commits)%Q.
Proof.
  unfold calculateLeadTime.
  destruct ((len prs =? 0) || (len releases =? 0)).
  - destruct commits as [| c [| c' l]]; try lra.
    eapply Qlt_le_trans; [| apply Q.le_max_l]. lra.
  - pose proof (lead_time_samples_positive host releases
                  (firstn 10 (List.filter (fun pr => is_some (pr_merged_at pr)) prs))
                  (0%Q, 0)) as Hsum.
    destruct (fold_left _ _ _) as [totalLeadTime validSamples].
    cbn [fst snd] in Hsum.
    destruct (0 <? validSamples) eqn:Hvalid.
    + apply Z.ltb_lt in Hvalid.
      apply Qlt_shift_div_l.
      * change 0%Q with (inject_Z 0). rewrite <- Zlt_Qlt. exact Hvalid.
      * rewrite Qmult_0_l. apply Hsum; [lia | lra | intros; lia | exact Hvalid].
    + destruct (1 <? len releases); [| lra].
      eapply Qlt_le_trans; [| apply Q.le_max_l]. lra.
Qed.

(** X15: the lead time is always positive; it is 24 hours when pull
    requests or releases are missing and there are fewer than two commits,
    and at least one hour whenever pull requests or releases are missing. *)
Theorem lead_time_positive_with_defaults (host : Host) (prs : list PullRequest)
    (releases : list Release) (commits : list Commit) :
  (0 < calculateLeadTime host prs releases commits)%Q
  /\ (prs = [] \/ releases = [] ->
      (1 <= calculateLeadTime host prs releases commits)%Q
      /\ ((length commits <= 1)%nat ->
          calculateLeadTime host prs releases commits = 24%Q)).
Proof.
  split; [apply calculateLeadTime_positive |].
  intros Hmissing. unfold calculateLeadTime.
  replace ((len prs =? 0) || (len releases =? 0)) with true
    by (destruct Hmissing as [-> | ->]; [reflexivity | apply eq_sym, orb_true_r]).
  split.
  - destruct commits as [| c [| c' l]]; try lra. apply Q.le_max_l.
  - intros Hfew. destruct commits as [| c [| c' l]]; try reflexivity.
    simpl in Hfew. lia.
Qed.

Lemma lead_time_positive_with_defaults_witness :
  (calculateLeadTime (host_at epoch_2026 0.5) [] [] [] = 24)%Q.
Proof.
  exact (proj2 (proj2 (lead_time_positive_with_defaults
                         (host_at epoch_2026 0.5) [] [] []) (or_introl eq_refl))
               (le_0_n 1)).
Defined.

Lemma toFixed2_nonneg (x : Q) : (0 <= x)%Q -> (0 <= toFixed2 x)%Q.
Proof.
  intros Hx. unfold toFixed2.
  replace (Qle_bool 0 x) with true by (symmetry; apply Qle_bool_iff; exact Hx).
  apply Qdiv_nonneg; [| lra]. apply inject_Z_nonneg.
  rewrite <- (Qfloor_Z 0). apply Qfloor_resp_le. change (inject_Z 0) with 0%Q. lra.
Qed.

Lemma Math_round_at_least (x : Q) (lo : Z) : (inject_Z lo <= x)%Q -> lo <= Math_round x.
Proof.
  intros H. unfold Math_round. rewrite <- (Qfloor_Z lo). apply Qfloor_resp_le. lra.
Qed.

Lemma analyzeDeploymentMetrics_fields_inv (host : Host) (this : GitHubService)
    (d : DeploymentMetrics) :
  analyzeDeploymentMetrics host this = Ok d ->
  exists runs releases prs commits freq failureRate,
    calculateDeploymentFrequency host releases runs = Ok freq
    /\ calculateChangeFailureRate runs commits = Ok failureRate
    /\ frequency d = toFixed2 freq
    /\ leadTime d = Math_round (calculateLeadTime host prs releases commits)
    /\ changeFailureRate d = (inject_Z (Math_round (failureRate * 100)) / 100)%Q
    /\ meanTimeToRecover d = Math_round (calculateMeanTimeToRecover host commits prs).
Proof.
  unfold analyzeDeploymentMetrics. rewrite try_catch_rethrow. intros H.
  invert_binds H. injection H as <-.
  cbn [frequency leadTime changeFailureRate meanTimeToRecover].
  do 6 eexists.
  repeat match goal with |- _ /\ _ => split end; first [eassumption | reflexivity].
Qed.

(** X16: in every deployment result the reported frequency and lead time
    are not negative, the reported change failure rate is between 0 and
    100, and the reported mean time to recover is at least one hour. *)
Theorem deployment_metrics_in_range
    (host : Host) (this : GitHubService) (d : DeploymentMetrics) :
  analyzeDeploymentMetrics host this = Ok d ->
  (0 <= frequency d)%Q
  /\ 0 <= leadTime d
  /\ (0 <= changeFailureRate d)%Q /\ (changeFailureRate d <= 100)%Q
  /\ 1 <= meanTimeToRecover d.
Proof.
  intros H. apply analyzeDeploymentMetrics_fields_inv in H.
  destruct H as (runs & releases & prs & commits & freq & failureRate
                 & Hfreq & Hrate & -> & -> & -> & ->).
  split.
  { apply toFixed2_nonneg.
    exact (calculateDeploymentFrequency_nonneg host releases runs freq Hfreq). }
  split.
  { apply Math_round_at_least. change (inject_Z 0) with 0%Q.
    apply Qlt_le_weak, calculateLeadTime_positive. }
  pose proof (calculateChangeFailureRate_nonneg runs commits failureRate Hrate) as Hlo.
  pose proof (calculateChangeFailureRate_at_most_100 runs commits failureRate Hrate) as Hhi.
  assert (Hround : 0 <= Math_round (failureRate * 100) <= 10000).
  { apply Math_round_between;
      [change (inject_Z 0) with 0%Q | change (inject_Z 10000) with 10000%Q]; lra. }
  destruct Hround as [Hr0 Hr1]. rewrite Zle_Qle in Hr0, Hr1.
  change (inject_Z 0) with 0%Q in Hr0. change (inject_Z 10000) with 10000%Q in Hr1.
  split; [apply Qle_shift_div_l; lra |].
  split; [apply Qle_shift_div_r; lra |].
  apply Math_round_at_least. change (inject_Z 1) with 1%Q.
  apply calculateMeanTimeToRecover_at_least_1.
Qed.

Lemma deployment_metrics_in_range_witness :
  exists d,
    analyzeDeploymentMetrics (host_at epoch_2026 0.5)
                             (new_GitHubService (python_forge epoch_2020) None) = Ok d
    /\ 1 <= meanTimeToRecover d.
Proof.
  assert (Hrun : exists d,
             analyzeDeploymentMetrics (host_at epoch_2026 0.5)
               (new_GitHubService (python_forge epoch_2020) None) = Ok d)
    by (eexists; vm_compute; reflexivity).
  destruct Hrun as [d Hd]. exists d. split; [exact Hd |].
  exact (proj2 (proj2 (proj2 (proj2 (deployment_metrics_in_range _ _ d Hd))))).
Defined.

(** X17: only successful deployment runs count towards the frequency: runs
    that did not conclude with success (named or not), or whose name
    mentions neither deploy, release nor production, leave it unchanged, and
    so does the [total_count] of the response. *)
Theorem other_runs_never_count (host : Host) (releases : list Release)
    (runs others : list WorkflowRun) (count count' : Z) :
  Forall (fun run => concluded run "success" = false
                     \/ names_a_deployment run = Ok false)
         others ->
  calculateDeploymentFrequency host releases
    {| workflow_runs := runs ++ others; total_count := count |}
  = calculateDeploymentFrequency host releases
      {| workflow_runs := runs; total_count := count' |}.
Proof.
  intros Hothers. unfold calculateDeploymentFrequency. cbn [workflow_runs].
  rewrite filter_throwing_rejects_tail; [reflexivity |].
  eapply Forall_impl; [| exact Hothers].
  intros run Hrun. unfold successful_deployment.
  destruct (concluded run "success") eqn:Hsuccess; [| reflexivity].
  destruct Hrun as [Hrun | Hrun]; [congruence | exact Hrun].
Qed.

Lemma other_runs_never_count_witness :
  calculateDeploymentFrequency (host_at epoch_2026 0.5) []
    {| workflow_runs :=
         [ {| run_name := Some "Deploy"; run_conclusion := Some "failure";
              run_event := "push"; run_created_at := epoch_2026 |} ];
       total_count := 1 |}
  = calculateDeploymentFrequency (host_at epoch_2026 0.5) [] no_runs.
Proof.
  apply (other_runs_never_count (host_at epoch_2026 0.5) [] []).
  constructor; [left; reflexivity | constructor].
Defined.

Lemma calculateDeploymentFrequency_Throw_inv
    (host : Host) (releases : list Release) (runs : WorkflowRuns) (e : exn) :
  calculateDeploymentFrequency host releases runs = Throw e -> e = TypeError.
Proof.
  unfold calculateDeploymentFrequency.
  destruct (Qlt_bool _ 1); [discriminate |]. intros H.
  apply bind_Throw_inv in H. destruct H as [H | (kept & _ & H)]; [| discriminate].
  apply filter_throwing_Throw_inv, Exists_exists in H.
  destruct H as (run & _ & Hrun). unfold successful_deployment in Hrun.
  destruct (concluded run "success"); [| discriminate].
  exact (names_a_deployment_Throw_inv run e Hrun).
Qed.

Lemma calculateChangeFailureRate_nameless (runs : WorkflowRuns) (commits : list Commit) :
  Exists (fun run => run_name run = None) (workflow_runs runs) ->
  calculateChangeFailureRate runs commits = Throw TypeError.
Proof.
  intros Hnameless. unfold calculateChangeFailureRate.
  destruct (workflow_runs runs) as [| run rest] eqn:Hruns; [inversion Hnameless |].
  change (len (run :: rest) =? 0) with false. cbv iota.
  destruct (filter_throwing_throws deployment_related (run :: rest)) as [e He].
  { eapply Exists_impl; [| exact Hnameless].
    intros r Hr. exists TypeError. unfold deployment_related, names_a_deployment.
    rewrite Hr. reflexivity. }
  rewrite He. cbn [bind]. f_equal.
  apply filter_throwing_Throw_inv, Exists_exists in He.
  destruct He as (r & _ & Hr). unfold deployment_related in Hr.
  destruct (names_a_deployment r) as [named | e'] eqn:Hnamed; [discriminate |].
  cbn [bind] in Hr. injection Hr as <-.
  exact (names_a_deployment_Throw_inv r e' Hnamed).
Qed.

(** X29: a workflow run whose name is [null] is enough for
    [analyzeDeploymentMetrics] to fail, with a [TypeError], although every
    fetch it issues has succeeded. *)
Theorem nameless_run_fails_deployment_metrics
    (host : Host) (this : GitHubService) (runs : WorkflowRuns)
    (releases : list Release) (prs : list PullRequest) (commits : list Commit) :
  getWorkflowRuns this = Ok runs ->
  getReleases this 50 = Ok releases ->
  getPullRequests this st_closed 50 = Ok prs ->
  getCommits this 100 = Ok commits ->
  Exists (fun run => run_name run = None) (workflow_runs runs) ->
  analyzeDeploymentMetrics host this = Throw TypeError.
Proof.
  intros Hruns Hreleases Hprs Hcommits Hnameless.
  unfold analyzeDeploymentMetrics. rewrite Hruns, Hreleases, Hprs, Hcommits.
  cbn [bind].
  destruct (calculateDeploymentFrequency host releases runs) as [freq | e] eqn:Hfreq;
    cbn [bind try_catch].
  - rewrite (calculateChangeFailureRate_nameless runs commits Hnameless). reflexivity.
  - rewrite (calculateDeploymentFrequency_Throw_inv host releases runs e Hfreq).
    reflexivity.
Qed.

Lemma nameless_run_fails_deployment_metrics_witness :
  let nameless := {| run_name := None; run_conclusion := Some "success";
                     run_event := "push"; run_created_at := epoch_2026 |} in
  let this :=
    new_GitHubService
      (forge_of (Resolved (repo_created epoch_2020)) (Resolved []) (Resolved ∅)
                (fun _ => Rejected not_found)
                (Resolved {| workflow_runs := [nameless]; total_count := 1 |})
                (Resolved []) (Resolved []) (Resolved []))
      None in
  analyzeDeploymentMetrics (host_at epoch_2026 0.5) this = Throw TypeError
  /\ generateHealthReport (host_at epoch_2026 0.5) this = Throw TypeError.
Proof.
  cbv zeta. split; [| vm_compute; reflexivity].
  eapply nameless_run_fails_deployment_metrics; try reflexivity.
  left. reflexivity.
Defined.

(** * Further properties of the forge client *)

(** X18: [getFileContent] throws in two cases only: when its request is
    rejected, and then the error of the request itself, so that a 404 stays
    recognisable; and when the answer is an object whose encoding is base64
    and whose content is [null], and then the [TypeError] of the decoding.  A
    directory listing, or an object without a content key, reads as the
    empty string. *)
Theorem getFileContent_throws_exactly
    (host : Host) (this : GitHubService) (path : string) :
  (forall e,
      getFileContent host this path = Throw e
      <-> (exists error,
              get_contents (octokit this) path = Rejected error /\ e = ApiFailure error)
          \/ (exists item,
                 get_contents (octokit this) path = Resolved (ContentObject item)
                 /\ item_encoding item = Some "base64"
                 /\ item_content item = content_null
                 /\ e = TypeError))
  /\ (forall items,
         get_contents (octokit this) path = Resolved (ContentArray items) ->
         getFileContent host this path = Ok EmptyString)
  /\ (forall item,
         get_contents (octokit this) path = Resolved (ContentObject item) ->
         item_content item = content_absent ->
         getFileContent host this path = Ok EmptyString).
Proof.
  unfold getFileContent. split; [| split].
  - intros e. destruct (get_contents (octokit this) path) as [data | error].
    + cbn [request bind]. split.
      * destruct data as [items | item]; cbn [try_catch]; [discriminate |].
        destruct (item_content item) eqn:Hcontent; cbn [try_catch]; [discriminate | |].
        -- destruct (item_encoding item) as [enc |] eqn:Hencoding;
             [| discriminate].
           destruct (String.eqb enc "base64") eqn:Hbase64;
             cbn [decode_base64 try_catch]; [| discriminate].
           apply String.eqb_eq in Hbase64. subst enc.
           intros [= <-]. right. exists item. auto.
        -- destruct (match item_encoding item with
                     | Some enc => String.eqb enc "base64"
                     | None => false
                     end); discriminate.
      * intros [(error & H & _) | (item & [= ->] & Hencoding & Hcontent & ->)];
          [discriminate |].
        rewrite Hcontent, Hencoding. reflexivity.
    + cbn [request bind try_catch]. split.
      * destruct (status_is _ 404); intros [= <-]; eauto.
      * intros [(error' & [= <-] & ->) | (item & H & _)]; [| discriminate].
        destruct (status_is _ 404); reflexivity.
  - intros items ->. reflexivity.
  - intros item -> Hnone. cbn [request bind]. rewrite Hnone. reflexivity.
Qed.

(** X19: [getDirectoryContents] never throws; it wraps a single object in a
    list, and it answers the empty list exactly when the request fails or
    the directory is empty, which its caller cannot tell apart. *)
Theorem getDirectoryContents_hides_failures (this : GitHubService) (path : string) :
  (exists items, getDirectoryContents this path = Ok items)
  /\ (forall item,
         get_contents (octokit this) path = Resolved (ContentObject item) ->
         getDirectoryContents this path = Ok [item])
  /\ (getDirectoryContents this path = Ok []
      <-> (exists error, get_contents (octokit this) path = Rejected error)
          \/ get_contents (octokit this) path = Resolved (ContentArray [])).
Proof.
  split; [apply getDirectoryContents_total |]. unfold getDirectoryContents.
  split; [intros item ->; reflexivity |].
  destruct (get_contents (octokit this) path) as [[items | item] | error];
    cbn [request bind try_catch].
  - split.
    + intros [= ->]. right. reflexivity.
    + intros [[error H] | [= ->]]; [discriminate | reflexivity].
  - split; [discriminate |]. intros [[error H] | H]; discriminate.
  - split; [eauto | reflexivity].
Qed.

(** X20: [getCodeFrequencyStats] never throws; for a response that is an
    array it returns one triple per item, in order: the first three numbers
    of an item that has at least three, and three zeros for a shorter
    item. *)
Theorem getCodeFrequencyStats_one_triple_per_item
    (this : GitHubService) (items : list (list Z)) :
  get_code_frequency (octokit this) = Resolved (Some items) ->
  exists stats,
    getCodeFrequencyStats this = Ok stats
    /\ length stats = length items
    /\ (forall i a d c rest,
           nth_error items i = Some (a :: d :: c :: rest) ->
           nth_error stats i = Some (a, d, c))
    /\ (forall i item,
           nth_error items i = Some item -> (length item < 3)%nat ->
           nth_error stats i = Some (0, 0, 0)).
Proof.
  intros H. unfold getCodeFrequencyStats. rewrite H. cbn [request bind try_catch].
  eexists. split; [reflexivity |]. split; [apply length_map |]. split.
  - intros i a d c rest Hi. rewrite nth_error_map, Hi. reflexivity.
  - intros i item Hi Hshort. rewrite nth_error_map, Hi.
    destruct item as [| a [| d [| c rest]]]; try reflexivity. simpl in Hshort. lia.
Qed.

Lemma getCodeFrequencyStats_one_triple_per_item_witness :
  exists stats,
    getCodeFrequencyStats
      (new_GitHubService
         {| get_repo := Rejected not_found;
            get_commits := fun _ => Rejected not_found;
            get_languages := Rejected not_found;
            get_contributors := Rejected not_found;
            get_contents := fun _ => Rejected not_found;
            get_actions_runs := Rejected not_found;
            get_pulls := fun _ _ => Rejected not_found;
            get_issues := fun _ _ => Rejected not_found;
            get_releases := fun _ => Rejected not_found;
            get_code_frequency := Resolved (Some [[1767225600; 120; -30]; [7]]);
            get_commit_activity := Rejected not_found |}
         None) = Ok stats
    /\ length stats = 2%nat.
Proof.
  destruct (getCodeFrequencyStats_one_triple_per_item
              (new_GitHubService
                 {| get_repo := Rejected not_found;
                    get_commits := fun _ => Rejected not_found;
                    get_languages := Rejected not_found;
                    get_contributors := Rejected not_found;
                    get_contents := fun _ => Rejected not_found;
                    get_actions_runs := Rejected not_found;
                    get_pulls := fun _ _ => Rejected not_found;
                    get_issues := fun _ _ => Rejected not_found;
                    get_releases := fun _ => Rejected not_found;
                    get_code_frequency := Resolved (Some [[1767225600; 120; -30]; [7]]);
                    get_commit_activity := Rejected not_found |}
                 None)
              [[1767225600; 120; -30]; [7]] eq_refl)
    as (stats & Hstats & Hlen & _).
  exists stats. split; assumption.
Defined.

Lemma generateHealthReport_first_fetch (host : Host) (this : GitHubService) (e : exn) :
  getRepository host this = Throw e -> generateHealthReport host this = Throw e.
Proof. intros H. unfold generateHealthReport. rewrite H. reflexivity. Qed.

(** X21: when the first fetch of a report, that of the repository, is
    rejected with a rate-limit response, report generation fails with the
    distinguished [GitHubRateLimitError]; it carries the reset time, limit
    and remaining quota of the response headers when they are there, and one
    hour from now, 60 and 0 when the error has no response.  Rejected with
    any other error, report generation fails with that error unchanged. *)
Theorem first_fetch_decides_the_failure
    (host : Host) (this : GitHubService) (error : RequestError) :
  get_repo (octokit this) = Rejected error ->
  (is_rate_limit_response error = true ->
   exists msg reset limit remaining,
     generateHealthReport host this
     = Throw (GitHubRateLimitError msg reset limit remaining)
     /\ (error_response error = None ->
         reset = Date_now host + 3600000 /\ limit = 60 /\ remaining = 0)
     /\ (forall r h t l k,
            error_response error = Some r -> headers r = Some h ->
            x_ratelimit_reset h = Some t -> x_ratelimit_limit h = Some l ->
            x_ratelimit_remaining h = Some k ->
            reset = t * 1000 /\ limit = l /\ remaining = k))
  /\ (is_rate_limit_response error = false ->
      generateHealthReport host this = Throw (ApiFailure error)).
Proof.
  intros Hreq.
  assert (Hget : getRepository host this = Throw (checkRateLimitError host error)).
  { unfold getRepository. rewrite Hreq. reflexivity. }
  apply generateHealthReport_first_fetch in Hget. rewrite Hget.
  unfold checkRateLimitError. fold (is_rate_limit_response error).
  split; intros ->; [| reflexivity].
  do 4 eexists. split; [reflexivity |]. split.
  - intros ->. repeat split.
  - intros r h t l k -> -> -> -> ->. repeat split.
Qed.

Lemma first_fetch_decides_the_failure_witness :
  exists msg,
    generateHealthReport (host_at epoch_2026 0.5)
                         (new_GitHubService exhausted_forge None)
    = Throw (GitHubRateLimitError msg 1767229200000 60 0).
Proof.
  destruct (first_fetch_decides_the_failure
              (host_at epoch_2026 0.5) (new_GitHubService exhausted_forge None)
              rate_limited eq_refl) as [Hrate _].
  destruct (Hrate eq_refl) as (msg & reset & limit & remaining & Hrun & _ & Hheaders).
  destruct (Hheaders _ _ _ _ _ eq_refl eq_refl eq_refl eq_refl eq_refl)
    as (-> & -> & ->).
  exists msg. exact Hrun.
Defined.

(** ** Degraded endpoints in the whole pipeline *)

(** X22: for a client without a credential, a forge that refuses workflow
    runs, pull requests and issues with a 401 or a 403 yields the very report
    (or the very failure) of a forge that answers these three requests with
    empty data: the refusal is read as an empty repository history. *)
Theorem refusals_read_as_empty_data (host : Host) (forge : Forge) :
  refuses_gated_requests forge ->
  generateHealthReport host (new_GitHubService forge None)
  = generateHealthReport host (new_GitHubService (with_gated_empty forge) None).
Proof.
  intros ((eruns & Hruns & Rruns) & Hpulls & Hissues).
  apply generateHealthReport_ext; try reflexivity;
    try (intros path; apply same_outcome_refl).
  - intros state count. destruct (Hpulls state count) as (error & Hreq & Hrefused).
    rewrite (getPullRequests_refused (new_GitHubService forge None)
               state count error Hreq Hrefused).
    reflexivity.
  - intros state count. destruct (Hissues state count) as (error & Hreq & Hrefused).
    rewrite (getIssues_refused (new_GitHubService forge None)
               state count error Hreq Hrefused).
    reflexivity.
  - rewrite (getWorkflowRuns_refused (new_GitHubService forge None) eruns Hruns Rruns).
    reflexivity.
Qed.

Lemma refusals_read_as_empty_data_witness :
  refuses_gated_requests refusing_forge
  /\ generateHealthReport (host_at epoch_2026 0.5)
                          (new_GitHubService refusing_forge None)
     = generateHealthReport (host_at epoch_2026 0.5)
                            (new_GitHubService (with_gated_empty refusing_forge) None).
Proof.
  assert (H : refuses_gated_requests refusing_forge).
  { split; [| split]; [| intros state count | intros state count];
      exists forbidden; split; reflexivity. }
  split; [exact H |].
  exact (refusals_read_as_empty_data (host_at epoch_2026 0.5) refusing_forge H).
Defined.

(** ** The earlier technical-debt estimator *)

Lemma Legacy_analyzeTechnicalDebt_Ok_inv (host : Host) (this : GitHubService)
    (d : TechnicalDebt) :
  Legacy.analyzeTechnicalDebt host this = Ok d ->
  exists repo commits score,
    td_score d = Z.max 0 score
    /\ score
       = Qfloor (100 - (1 - analyzeCommitMessages commits) * 30
                 - inject_Z (Z.min (Qfloor (inject_Z (calculateRepositoryAge host
                                                        (created_at repo)) / 30) * 5) 40)
                   * 0.5
                 - (100 - inject_Z (Qfloor (Math_random host 0 * 60) + 20)) * 0.3
                 - inject_Z (Qfloor (Math_random host 1 * 8)) * 5)
    /\ duplications (td_metrics d)
       = inject_Z (Z.min (Qfloor (inject_Z (calculateRepositoryAge host (created_at repo))
                                  / 30) * 5) 40)
    /\ testCoverage (td_metrics d) = Qfloor (Math_random host 0 * 60) + 20
    /\ outdatedDependencies (td_metrics d) = Qfloor (Math_random host 1 * 8).
Proof.
  unfold Legacy.analyzeTechnicalDebt. rewrite try_catch_rethrow. intros H.
  invert_binds H. injection H as <-.
  cbn [td_score td_metrics duplications testCoverage outdatedDependencies].
  do 3 eexists. repeat match goal with |- _ /\ _ => split end; reflexivity.
Qed.

Lemma Qfloor_at_most (x : Q) (hi : Z) : (x <= inject_Z hi)%Q -> Qfloor x <= hi.
Proof. intros H. rewrite <- (Qfloor_Z hi). apply Qfloor_resp_le. exact H. Qed.

Lemma floor_of_draw (r : Q) (n : Z) :
  0 < n -> (0 <= r)%Q -> (r < 1)%Q -> 0 <= Qfloor (r * inject_Z n) <= n - 1.
Proof.
  intros Hn Hlo Hhi.
  assert (Hq : (0 < inject_Z n)%Q).
  { change 0%Q with (inject_Z 0). rewrite <- Zlt_Qlt. exact Hn. }
  split.
  - rewrite <- (Qfloor_Z 0). apply Qfloor_resp_le. change (inject_Z 0) with 0%Q.
    apply Qmult_le_0_compat; lra.
  - assert (Qfloor (r * inject_Z n) < n); [| lia].
    rewrite Zlt_Qlt. eapply Qle_lt_trans; [apply Qfloor_le |].
    apply Qlt_le_trans with (1 * inject_Z n)%Q;
      [apply Qmult_lt_compat_r; assumption | rewrite Qmult_1_l; apply Qle_refl].
Qed.

(** X23: with random draws in [0,1), the earlier technical-debt estimator
    reports a test coverage between 20 and 79, between 0 and 7 outdated
    dependencies, a duplication between 0 and 40, and a score between 0 and
    100. *)
Theorem Legacy_technical_debt_in_range
    (host : Host) (this : GitHubService) (d : TechnicalDebt) :
  (0 <= Math_random host 0%nat)%Q -> (Math_random host 0%nat < 1)%Q ->
  (0 <= Math_random host 1%nat)%Q -> (Math_random host 1%nat < 1)%Q ->
  Legacy.analyzeTechnicalDebt host this = Ok d ->
  20 <= testCoverage (td_metrics d) <= 79
  /\ 0 <= outdatedDependencies (td_metrics d) <= 7
  /\ (0 <= duplications (td_metrics d))%Q /\ (duplications (td_metrics d) <= 40)%Q
  /\ 0 <= td_score d <= 100.
Proof.
  intros H0 H0' H1 H1' H. apply Legacy_analyzeTechnicalDebt_Ok_inv in H.
  destruct H as (repo & commits & score & -> & Hscore & -> & -> & ->).
  pose proof (floor_of_draw (Math_random host 0) 60 eq_refl H0 H0') as Hcov.
  pose proof (floor_of_draw (Math_random host 1) 8 eq_refl H1 H1') as Hout.
  change (inject_Z 60) with 60%Q in Hcov. change (inject_Z 8) with 8%Q in Hout.
  set (coverage := Qfloor (Math_random host 0 * 60) + 20) in *.
  set (outdated := Qfloor (Math_random host 1 * 8)) in *.
  assert (Hage : 0 <= Qfloor (inject_Z (calculateRepositoryAge host (created_at repo)) / 30)).
  { rewrite <- (Qfloor_Z 0). apply Qfloor_resp_le. change (inject_Z 0) with 0%Q.
    apply repoAgeInMonths_nonneg. }
  set (dups := Z.min (Qfloor (inject_Z (calculateRepositoryAge host (created_at repo)) / 30)
                      * 5) 40) in *.
  assert (Hdups : 0 <= dups <= 40) by (unfold dups; lia).
  assert (Hcoverage : 20 <= coverage <= 79) by (unfold coverage; lia).
  destruct Hdups as [Hd0 Hd40]. destruct Hcoverage as [Hc20 Hc79].
  destruct Hout as [Ho0 Ho7].
  pose proof Hd0 as Qd0. pose proof Hd40 as Qd40. pose proof Hc79 as Qc79.
  pose proof Ho0 as Qo0.
  rewrite Zle_Qle in Qd0, Qd40, Qc79, Qo0.
  change (inject_Z 0) with 0%Q in Qd0, Qo0. change (inject_Z 40) with 40%Q in Qd40.
  change (inject_Z 79) with 79%Q in Qc79.
  repeat match goal with |- _ /\ _ => split end; try lia; try assumption.
  assert (score <= 100); [| lia].
  rewrite Hscore. apply Qfloor_at_most. change (inject_Z 100) with 100%Q.
  pose proof (analyzeCommitMessages_at_most_1 commits). lra.
Qed.

Lemma Legacy_technical_debt_in_range_witness :
  exists d,
    Legacy.analyzeTechnicalDebt (host_at epoch_2026 0.9)
                                (new_GitHubService (python_forge epoch_2020) None) = Ok d
    /\ 20 <= testCoverage (td_metrics d) <= 79.
Proof.
  assert (Hrun : exists d,
             Legacy.analyzeTechnicalDebt (host_at epoch_2026 0.9)
               (new_GitHubService (python_forge epoch_2020) None) = Ok d)
    by (eexists; vm_compute; reflexivity).
  destruct Hrun as [d Hd]. exists d. split; [exact Hd |].
  apply (Legacy_technical_debt_in_range (host_at epoch_2026 0.9)
           (new_GitHubService (python_forge epoch_2020) None) d);
    [vm_compute; discriminate | vm_compute; reflexivity
    | vm_compute; discriminate | vm_compute; reflexivity | exact Hd].
Defined.

(** ** More on the client and on code metrics *)

(** X24: the three gated methods degrade on a 401 or a 403 only: rejected
    with any other status, or with no status at all, they rethrow the error
    of the request, with or without a credential. *)
Theorem other_errors_are_not_degraded
    (this : GitHubService) (error : RequestError) (state : PrState) (count : Z) :
  authorization_refusal error = false ->
  (get_actions_runs (octokit this) = Rejected error ->
   getWorkflowRuns this = Throw (ApiFailure error))
  /\ (get_pulls (octokit this) state count = Rejected error ->
      getPullRequests this state count = Throw (ApiFailure error))
  /\ (get_issues (octokit this) state count = Rejected error ->
      getIssues this state count = Throw (ApiFailure error)).
Proof.
  intros Hother. unfold authorization_refusal in Hother.
  unfold getWorkflowRuns, getPullRequests, getIssues, unauthorized.
  repeat match goal with |- _ /\ _ => split end;
    intros ->; cbn [request try_catch caught]; rewrite Hother; reflexivity.
Qed.

Lemma other_errors_are_not_degraded_witness :
  getWorkflowRuns
    (new_GitHubService
       (forge_of (Resolved (repo_created epoch_2020)) (Resolved []) (Resolved ∅)
                 (fun _ => Rejected not_found) (Rejected server_error)
                 (Resolved []) (Resolved []) (Resolved []))
       None)
  = Throw (ApiFailure server_error).
Proof.
  apply (other_errors_are_not_degraded
           (new_GitHubService
              (forge_of (Resolved (repo_created epoch_2020)) (Resolved []) (Resolved ∅)
                        (fun _ => Rejected not_found) (Rejected server_error)
                        (Resolved []) (Resolved []) (Resolved []))
              None)
           server_error st_all 50); reflexivity.
Defined.

(** X25: for a repository of non-negative size, no line count of the code
    metrics is negative, comment lines never outnumber code lines, and the
    blank lines are a tenth of the total lines, plus one when the size in KB
    is odd. *)
Theorem blank_lines_are_a_tenth
    (host : Host) (this : GitHubService) (m : CodeMetrics) (repo : Repository) :
  analyzeCodeMetrics host this = Ok m ->
  getRepository host this = Ok repo ->
  0 <= size repo ->
  0 <= commentLines m <= codeLines m
  /\ codeLines m <= totalLines m
  /\ 0 <= files m
  /\ blankLines m = totalLines m / 10 + size repo mod 2.
Proof.
  intros H Hrepo Hsize. apply analyzeCodeMetrics_Ok_inv in H.
  destruct H as (langs & repo' & _ & Hrepo' & ->).
  rewrite Hrepo in Hrepo'. injection Hrepo' as <-.
  cbn [totalLines codeLines commentLines blankLines files].
  rewrite floor_three_quarters, floor_fifteen_percent, floor_tenth.
  repeat match goal with |- _ /\ _ => split end; Z.div_mod_to_equations; lia.
Qed.

Lemma blank_lines_are_a_tenth_witness :
  exists m,
    analyzeCodeMetrics (host_at epoch_2026 0.5)
                       (new_GitHubService (python_forge epoch_2020) None) = Ok m
    /\ blankLines m = 5000.
Proof.
  assert (Hrun : exists m,
             analyzeCodeMetrics (host_at epoch_2026 0.5)
               (new_GitHubService (python_forge epoch_2020) None) = Ok m
             /\ totalLines m = 50000)
    by (eexists; split; vm_compute; reflexivity).
  destruct Hrun as (m & Hm & Htotal). exists m. split; [exact Hm |].
  destruct (blank_lines_are_a_tenth _ _ m (repo_created epoch_2020) Hm eq_refl)
    as (_ & _ & _ & ->); [vm_compute; discriminate |].
  rewrite Htotal. reflexivity.
Defined.

(** ** The conventional-commit pattern *)

Lemma strip_prefix_spec (p s r : string) :
  strip_prefix p s = Some r <-> s = (p ++ r)%string.
Proof.
  revert s. induction p as [| a p IH]; intros s; simpl.
  - split; [intros [= ->]; reflexivity | intros ->; reflexivity].
  - destruct s as [| b s]; [split; discriminate |].
    destruct (Ascii.eqb a b) eqn:Hab.
    + apply Ascii.eqb_eq in Hab. subst b. rewrite IH.
      split; [intros ->; reflexivity | intros [= ->]; reflexivity].
    + apply Ascii.eqb_neq in Hab. split; [discriminate |].
      intros [= <- _]. congruence.
Qed.

Lemma prefix_colon_spec (s : string) :
  String.prefix ":" s = true <-> exists tail, s = String ":"%char tail.
Proof.
  destruct s as [| c tail].
  - split; [discriminate | intros [tail H]; discriminate].
  - change (String.prefix ":" (String c tail))
      with (if Ascii.ascii_dec ":" c then String.prefix EmptyString tail else false).
    destruct (Ascii.ascii_dec ":" c) as [Heq | Hne].
    + subst c. split; [eauto | intros _; destruct tail; reflexivity].
    + split; [discriminate | intros [tail' [= Hc _]]; congruence].
Qed.

Lemma scope_then_colon_spec (s : string) (seen : bool) :
  scope_then_colon seen s = true
  <-> exists scope tail,
        s = (scope ++ String ")"%char (String ":"%char tail))%string
        /\ one_line scope = true
        /\ (seen = false -> scope <> EmptyString).
Proof.
  revert seen. induction s as [| c s IH]; intros seen; cbn [scope_then_colon].
  - split; [discriminate |].
    intros (scope & tail & H & _). destruct scope; discriminate.
  - rewrite orb_true_iff, !andb_true_iff, prefix_colon_spec, (IH true). split.
    + intros [[[-> Hc] [tail ->]] | [Hline (scope & tail & -> & Hone & _)]].
      * apply Ascii.eqb_eq in Hc. subst c.
        exists EmptyString, tail.
        split; [reflexivity |]. split; [reflexivity | discriminate].
      * exists (String c scope), tail. cbn [one_line String.append].
        rewrite Hline, Hone.
        split; [reflexivity |]. split; [reflexivity | discriminate].
    + intros (scope & tail & H & Hone & Hseen). destruct scope as [| c' scope].
      * cbn [String.append] in H. injection H as -> ->. left.
        destruct seen; [| exfalso; apply Hseen; reflexivity].
        split; [split; [reflexivity | apply Ascii.eqb_refl] | eauto].
      * cbn [String.append] in H. injection H as -> ->. cbn [one_line] in Hone.
        apply andb_true_iff in Hone. destruct Hone as [Hline Hone].
        right. split; [exact Hline |]. exists scope, tail.
        split; [reflexivity |]. split; [exact Hone | discriminate].
Qed.

Lemma after_type_spec (rest : string) :
  (String.prefix ":" rest
   || match rest with
      | String "("%char rest' => scope_then_colon false rest'
      | _ => false
      end) = true
  <-> (exists tail, rest = String ":"%char tail)
      \/ (exists scope tail,
             rest = String "("%char (scope ++ String ")"%char (String ":"%char tail))%string
             /\ scope <> EmptyString
             /\ one_line scope = true).
Proof.
  rewrite orb_true_iff, prefix_colon_spec.
  apply or_iff_compat_l.
  destruct rest as [| c rest'].
  - split; [discriminate | intros (scope & tail & H & _); discriminate].
  - destruct (Ascii.ascii_dec c "(") as [Heq | Hne].
    + subst c. rewrite scope_then_colon_spec. split.
      * intros (scope & tail & -> & Hone & Hseen).
        exists scope, tail. repeat split; [apply Hseen; reflexivity | exact Hone].
      * intros (scope & tail & [= ->] & Hne & Hone).
        exists scope, tail. repeat split; [exact Hone | intros _; exact Hne].
    + split.
      * destruct c as [b0 b1 b2 b3 b4 b5 b6 b7].
        destruct b0, b1, b2, b3, b4, b5, b6, b7; try discriminate.
        congruence.
      * intros (scope & tail & [= -> _] & _). congruence.
Qed.

(** X27: the test of the conventional-commit pattern accepts exactly the
    messages that start with one of the eleven types followed by a colon, or
    by a non-empty scope without line break between parentheses and then a
    colon. *)
Theorem conventional_commit_accepts_exactly (m : string) :
  conventional_commit m = true <-> matches_conventional m.
Proof.
  unfold conventional_commit, matches_conventional. rewrite existsb_exists. split.
  - intros (ty & Hin & H).
    destruct (strip_prefix ty m) as [rest |] eqn:Hstrip; [| discriminate].
    apply strip_prefix_spec in Hstrip. apply after_type_spec in H.
    exists ty, rest. auto.
  - intros (ty & rest & Hin & Hm & H).
    exists ty. split; [exact Hin |].
    apply strip_prefix_spec in Hm. rewrite Hm. apply after_type_spec. exact H.
Qed.

(** ** Test indicators raise the coverage estimate *)

Lemma root_counters_grow (items : list ContentItem) (counters : Z * Z) :
  let result :=
    fold_left (fun '(testScore, indicators) item =>
                 if names_a_test item then (testScore + 15, indicators + 1)
                 else (testScore, indicators))
              items counters in
  fst counters <= fst result /\ snd counters <= snd result
  /\ (Exists (fun item => names_a_test item = true) items ->
      fst counters + 15 <= fst result /\ snd counters + 1 <= snd result).
Proof.
  cbv zeta. revert counters.
  induction items as [| item l IH]; intros [ts ind]; cbn [fold_left fst snd].
  - split; [lia | split; [lia |]]. intros Hex. inversion Hex.
  - destruct (names_a_test item) eqn:Hitem.
    + destruct (IH (ts + 15, ind + 1)) as (H1 & H2 & _). cbn [fst snd] in *.
      split; [lia | split; [lia |]]. intros _. lia.
    + destruct (IH (ts, ind)) as (H1 & H2 & H3). cbn [fst snd] in *.
      split; [lia | split; [lia |]].
      intros Hex. inversion Hex as [? ? Hhere | ? ? Hlater]; subst.
      * congruence.
      * destruct (H3 Hlater). lia.
Qed.

Lemma calculateTestCoverage_of_root (host : Host) (this : GitHubService)
    (langs : gmap string Z) (rootContents : list ContentItem) :
  getLanguages this = Ok langs ->
  getDirectoryContents this EmptyString = Ok rootContents ->
  exists counters,
    calculateTestCoverage host this
    = Ok (if snd counters =? 0 then 5 else Z.min (fst counters) 95)
    /\ fst (root_counters rootContents) <= fst counters
    /\ snd (root_counters rootContents) <= snd counters.
Proof.
  intros Hlangs Hroot. unfold calculateTestCoverage.
  rewrite Hroot. cbn [bind]. rewrite Hlangs. cbn [bind].
  fold (root_counters rootContents). set (c0 := root_counters rootContents).
  assert (H1 : exists c1,
             try_catch
               (if js_or_ts langs
                then do packageJson <- getFileContent host this "package.json";
                     if mentions_tests packageJson
                     then Ok (fst c0 + 20, snd c0 + 1) else Ok c0
                else Ok c0)
               (fun _ => Ok c0) = Ok c1 /\ fst c0 <= fst c1 /\ snd c0 <= snd c1).
  { destruct (js_or_ts langs); [| exists c0; repeat split; lia].
    destruct (getFileContent host this "package.json") as [packageJson | e];
      cbn [bind try_catch]; [| exists c0; repeat split; lia].
    destruct (mentions_tests packageJson); cbn [try_catch];
      [| exists c0; repeat split; lia].
    eexists. split; [reflexivity |]. cbn [fst snd]. lia. }
  destruct H1 as (c1 & -> & H1 & H1'). cbn [bind].
  assert (H2 : exists c2,
             try_catch
               (do workflows <- getDirectoryContents this ".github/workflows";
                if 0 <? len workflows
                then Ok (fst c1 + 10, snd c1 + 1) else Ok c1)
               (fun _ => Ok c1) = Ok c2 /\ fst c1 <= fst c2 /\ snd c1 <= snd c2).
  { destruct (getDirectoryContents_total this ".github/workflows") as [workflows ->].
    cbn [bind]. destruct (0 <? len workflows); cbn [try_catch];
      [| exists c1; repeat split; lia].
    eexists. split; [reflexivity |]. cbn [fst snd]. lia. }
  destruct H2 as (c2 & -> & H2 & H2'). cbn [bind].
  exists c2. split; [| lia].
  destruct (snd c2 =? 0); reflexivity.
Qed.

(** X28: an entry of the root directory whose name, in lower case, contains
    one of the test patterns is enough for a coverage estimate of at least
    15 percent (and at most 95), whatever the reads of package.json and of
    the workflows directory give. *)
Theorem a_test_entry_gives_15_percent (host : Host) (this : GitHubService)
    (langs : gmap string Z) (rootContents : list ContentItem) :
  getLanguages this = Ok langs ->
  getDirectoryContents this EmptyString = Ok rootContents ->
  Exists (fun item => names_a_test item = true) rootContents ->
  exists coverage,
    calculateTestCoverage host this = Ok coverage /\ 15 <= coverage <= 95.
Proof.
  intros Hlangs Hroot Hfound.
  destruct (calculateTestCoverage_of_root host this langs rootContents Hlangs Hroot)
    as (counters & -> & Hscore & Hcount).
  destruct (root_counters_grow rootContents (0, 0)) as (_ & _ & Hgrow).
  destruct (Hgrow Hfound) as [H15 H1]. fold (root_counters rootContents) in H15, H1.
  cbn [fst snd] in H15, H1.
  eexists. split; [reflexivity |].
  destruct (snd counters =? 0) eqn:Hzero; [apply Z.eqb_eq in Hzero; lia | lia].
Qed.

Lemma a_test_entry_gives_15_percent_witness :
  exists coverage,
    calculateTestCoverage (host_at epoch_2026 0.5)
      (new_GitHubService
         (forge_of (Resolved (repo_created epoch_2020)) (Resolved []) (Resolved ∅)
                   (fun path =>
                      if String.eqb path EmptyString
                      then Resolved (ContentArray
                                       [ {| item_name := Some "Tests";
                                            item_encoding := None;
                                            item_content := content_absent |} ])
                      else Rejected not_found)
                   (Resolved no_runs) (Resolved []) (Resolved []) (Resolved []))
         None) = Ok coverage
    /\ 15 <= coverage <= 95.
Proof.
  apply (a_test_entry_gives_15_percent
           (host_at epoch_2026 0.5)
           (new_GitHubService
              (forge_of (Resolved (repo_created epoch_2020)) (Resolved []) (Resolved ∅)
                        (fun path =>
                           if String.eqb path EmptyString
                           then Resolved (ContentArray
                                            [ {| item_name := Some "Tests";
                                                 item_encoding := None;
                                                 item_content := content_absent |} ])
                           else Rejected not_found)
                        (Resolved no_runs) (Resolved []) (Resolved []) (Resolved []))
              None)
           ∅
           [ {| item_name := Some "Tests"; item_encoding := None; item_content := content_absent |} ]);
    [reflexivity | reflexivity |].
  constructor. vm_compute. reflexivity.
Defined.
